(** * SchemaCanvas: the schema translation layer, embedded and verified

    The development follows the TypeScript sources:
    - [lib/export/sql-exporter.ts]      (module [SqlExporter])
    - the Prisma exporter               (module [PrismaExporter])
    - the export dispatcher             (module [ExportManager])
    - [lib/export/json-exporter.ts]     (module [JsonExporter])
    - [lib/import/django-importer.ts]   (module [DjangoImporter])
    - [lib/layout/auto-layout.ts]       (module [AutoLayout])

    Conventions of the embedding.
    - A JavaScript string is a [string] of code units below 256; the
      case mappings touch the ASCII letters only.
    - An optional property ([x?: T]) is an [option]; [None] is
      [undefined].
    - An object literal used as a lookup table is the list of its own
      entries, looked up by key.
    - A JavaScript number is a [number]: an exact rational, or one of
      NaN, +Infinity, -Infinity.  Rounding and overflow of binary64 are
      outside the model. *)

From Stdlib Require Import ZArith QArith Qround Lia List Bool Ascii String.
From Stdlib Require Import DecimalString DecimalZ.
From stdpp Require Import base tactics option list.

Local Open Scope string_scope.
Local Open Scope list_scope.

(** ** JavaScript strings *)

Module JS.

(** [a + b] on strings. *)
Definition cat (a b : string) : string := String.append a b.
Infix "+++" := cat (right associativity, at level 60).

(** [parts.join(sep)]. *)
Fixpoint join (sep : string) (parts : list string) : string :=
  match parts with
  | [] => ""
  | [p] => p
  | p :: rest => p +++ sep +++ join sep rest
  end.

(** Truthiness of a string: the empty string is falsy. *)
Definition truthy (s : string) : bool :=
  match s with
  | EmptyString => false
  | String _ _ => true
  end.

(** Truthiness of an optional string property. *)
Definition truthyOpt (o : option string) : bool :=
  match o with
  | Some s => truthy s
  | None => false
  end.

(** [a || b] where both sides are strings or [undefined]. *)
Definition orElse (a b : option string) : option string :=
  if truthyOpt a then a else b.

Definition isUpper (c : ascii) : bool :=
  let n := nat_of_ascii c in (65 <=? n)%nat && (n <=? 90)%nat.
Definition isLower (c : ascii) : bool :=
  let n := nat_of_ascii c in (97 <=? n)%nat && (n <=? 122)%nat.
Definition isDigit (c : ascii) : bool :=
  let n := nat_of_ascii c in (48 <=? n)%nat && (n <=? 57)%nat.

Definition upperChar (c : ascii) : ascii :=
  if isLower c then ascii_of_nat (nat_of_ascii c - 32) else c.
Definition lowerChar (c : ascii) : ascii :=
  if isUpper c then ascii_of_nat (nat_of_ascii c + 32) else c.

Fixpoint mapChars (f : ascii -> ascii) (s : string) : string :=
  match s with
  | EmptyString => EmptyString
  | String c r => String (f c) (mapChars f r)
  end.

Definition toUpperCase : string -> string := mapChars upperChar.
Definition toLowerCase : string -> string := mapChars lowerChar.

(** [s.substring(0, n)] for [n >= 0]. *)
Fixpoint take (n : nat) (s : string) : string :=
  match n, s with
  | O, _ => EmptyString
  | S _, EmptyString => EmptyString
  | S m, String c r => String c (take m r)
  end.

(** [s.substring(n)]. *)
Fixpoint skip (n : nat) (s : string) : string :=
  match n, s with
  | O, _ => s
  | S _, EmptyString => EmptyString
  | S m, String _ r => skip m r
  end.

(** [s.startsWith(p)]. *)
Fixpoint startsWith (p s : string) : bool :=
  match p, s with
  | EmptyString, _ => true
  | String _ _, EmptyString => false
  | String a p', String b s' => Ascii.eqb a b && startsWith p' s'
  end.

(** [s.includes(p)]. *)
Fixpoint includes (p s : string) : bool :=
  startsWith p s ||
  match s with
  | EmptyString => false
  | String _ r => includes p r
  end.

(** [s.indexOf(p)]; [None] is [-1]. *)
Fixpoint indexOf (p s : string) : option nat :=
  if startsWith p s then Some O
  else match s with
       | EmptyString => None
       | String _ r => S <$> indexOf p r
       end.

(** [String(n)] for a non-negative integer. *)
Definition ofNat (n : nat) : string := NilZero.string_of_uint (Nat.to_uint n).

End JS.

Import JS.
Infix "+++" := JS.cat (right associativity, at level 60).


(** ** JavaScript numbers *)

Module Num.

(** A number is finite (an exact rational), NaN, or an infinity
    ([Infinity true] is [-Infinity]). *)
Inductive number : Type :=
| Fin (q : Q)
| NaN
| Infinity (negative : bool).

Definition isFinite (n : number) : bool :=
  match n with
  | Fin _ => true
  | _ => false
  end.

Definition ofZ (z : Z) : number := Fin (inject_Z z).
Definition ofNat (n : nat) : number := ofZ (Z.of_nat n).

Definition isZeroQ (q : Q) : bool := Qeq_bool q 0.
Definition isNegQ (q : Q) : bool := negb (Qle_bool 0 q).

(** Truthiness: [0] and [NaN] are falsy. *)
Definition truthy (n : number) : bool :=
  match n with
  | Fin q => negb (isZeroQ q)
  | NaN => false
  | Infinity _ => true
  end.

Definition neg (a : number) : number :=
  match a with
  | Fin q => Fin (Qred (- q))
  | NaN => NaN
  | Infinity s => Infinity (negb s)
  end.

Definition add (a b : number) : number :=
  match a, b with
  | Fin x, Fin y => Fin (Qred (x + y))
  | NaN, _ | _, NaN => NaN
  | Infinity s, Infinity s' => if Bool.eqb s s' then Infinity s else NaN
  | Infinity s, Fin _ | Fin _, Infinity s => Infinity s
  end.

Definition sub (a b : number) : number := add a (neg b).

Definition mul (a b : number) : number :=
  match a, b with
  | Fin x, Fin y => Fin (Qred (x * y))
  | NaN, _ | _, NaN => NaN
  | Infinity s, Infinity s' => Infinity (xorb s s')
  | Infinity s, Fin q | Fin q, Infinity s =>
      if isZeroQ q then NaN else Infinity (xorb s (isNegQ q))
  end.

Definition div (a b : number) : number :=
  match a, b with
  | Fin x, Fin y =>
      if isZeroQ y
      then (if isZeroQ x then NaN else Infinity (isNegQ x))
      else Fin (Qred (x / y))
  | NaN, _ | _, NaN => NaN
  | Infinity _, Infinity _ => NaN
  | Infinity s, Fin q => Infinity (xorb s (isNegQ q))
  | Fin _, Infinity _ => Fin 0
  end.

(** [a < b]; every comparison with NaN is false. *)
Definition lt (a b : number) : bool :=
  match a, b with
  | Fin x, Fin y => negb (Qle_bool y x)
  | NaN, _ | _, NaN => false
  | Infinity s, Infinity s' => s && negb s'
  | Infinity s, Fin _ => s
  | Fin _, Infinity s => negb s
  end.

(** [Math.min(a, b)] and [Math.max(a, b)]. *)
Definition min (a b : number) : number :=
  match a, b with
  | NaN, _ | _, NaN => NaN
  | _, _ => if lt b a then b else a
  end.

Definition max (a b : number) : number :=
  match a, b with
  | NaN, _ | _, NaN => NaN
  | _, _ => if lt a b then b else a
  end.

(** [Math.round(a)]: the integer nearest to [a], ties upwards. *)
Definition round (a : number) : number :=
  match a with
  | Fin q => ofZ (Qfloor (q + (1 # 2)))
  | other => other
  end.

(** [Math.floor(a)] and [Math.ceil(a)]. *)
Definition floor (a : number) : number :=
  match a with
  | Fin q => ofZ (Qfloor q)
  | other => other
  end.

Definition ceil (a : number) : number :=
  match a with
  | Fin q => ofZ (Qceiling q)
  | other => other
  end.

(** [a % b]: the remainder has the sign of [a]. *)
Definition rem (a b : number) : number :=
  match a, b with
  | Fin x, Fin y =>
      if isZeroQ y then NaN
      else Fin (Qred (x - y * inject_Z (Z.quot (Qnum (x / y)) (Zpos (Qden (x / y))))))
  | Fin x, Infinity _ => Fin x
  | _, _ => NaN
  end.

(** [Math.PI], the binary64 value. *)
Definition PI : number := Fin (884279719003555 # 281474976710656).

End Num.

Abbreviation number := Num.number.

(** ** The schema model ([features/schema/types/schema.types.ts]) *)

Module ForeignKey.
Record t : Type := mk {
  tableId : string;
  columnId : string;
  onDelete : option string;
  onUpdate : option string;
}.
End ForeignKey.

Module Column.
Record t : Type := mk {
  id : string;
  name : string;
  type : string;
  nullable : bool;
  primaryKey : bool;
  unique : bool;
  defaultValue : option string;
  foreignKey : option ForeignKey.t;
  description : option string;
}.
End Column.

Module Position.
Record t : Type := mk { x : number; y : number }.
End Position.

Module Table.
Record t : Type := mk {
  id : string;
  name : string;
  position : Position.t;
  columns : list Column.t;
  description : option string;
  color : option string;
}.
End Table.

Module Relationship.
Record t : Type := mk {
  id : string;
  sourceTableId : string;
  sourceColumnId : string;
  targetTableId : string;
  targetColumnId : string;
  type : string;
  name : option string;
  onDelete : option string;
  onUpdate : option string;
}.
End Relationship.

(** A [Date]: its time value in milliseconds, or an invalid date. *)
Inductive Date : Type :=
| TimeValue (ms : Z)
| InvalidDate.

Module Schema.
Record t : Type := mk {
  id : string;
  name : string;
  description : option string;
  tables : list Table.t;
  relationships : list Relationship.t;
  createdAt : Date;
  updatedAt : Date;
  version : number;
}.
End Schema.


(** [constants/schema.ts]: the export formats. *)
Definition EXPORT_FORMATS : list string :=
  [ "json"; "sql"; "prisma"; "django"; "laravel"; "typeorm" ].

(** [array.find(pred)]. *)
Definition find {A : Type} (pred : A -> bool) (l : list A) : option A :=
  List.find pred l.

(** Lookup of [key] among the own entries of an object literal. *)
Fixpoint lookup_entry {V : Type} (key : string) (entries : list (string * V)) : option V :=
  match entries with
  | [] => None
  | (k, v) :: rest => if String.eqb k key then Some v else lookup_entry key rest
  end.

(** ** [lib/export/sql-exporter.ts] *)

Module SqlExporter.

Inductive SQLDialect : Type := postgresql | mysql | sqlite | sqlserver.

(** The dialect as the string the source compares and prints. *)
Definition dialectName (d : SQLDialect) : string :=
  match d with
  | postgresql => "postgresql"
  | mysql => "mysql"
  | sqlite => "sqlite"
  | sqlserver => "sqlserver"
  end.

(** The [typeMap] literal of [mapColumnType]. *)
Definition typeMap (d : SQLDialect) : list (string * string) :=
  match d with
  | postgresql =>
      [ ("string", "VARCHAR(255)"); ("text", "TEXT"); ("integer", "INTEGER");
        ("bigint", "BIGINT"); ("float", "FLOAT"); ("decimal", "DECIMAL(10,2)");
        ("boolean", "BOOLEAN"); ("date", "DATE"); ("datetime", "TIMESTAMP");
        ("timestamp", "TIMESTAMP"); ("time", "TIME"); ("json", "JSON");
        ("jsonb", "JSONB"); ("uuid", "UUID"); ("binary", "BYTEA");
        ("enum", "VARCHAR(50)"); ("array", "TEXT[]") ]
  | mysql =>
      [ ("string", "VARCHAR(255)"); ("text", "TEXT"); ("integer", "INT");
        ("bigint", "BIGINT"); ("float", "FLOAT"); ("decimal", "DECIMAL(10,2)");
        ("boolean", "BOOLEAN"); ("date", "DATE"); ("datetime", "DATETIME");
        ("timestamp", "TIMESTAMP"); ("time", "TIME"); ("json", "JSON");
        ("jsonb", "JSON"); ("uuid", "CHAR(36)"); ("binary", "BLOB");
        ("enum", "ENUM()"); ("array", "JSON") ]
  | sqlite =>
      [ ("string", "TEXT"); ("text", "TEXT"); ("integer", "INTEGER");
        ("bigint", "INTEGER"); ("float", "REAL"); ("decimal", "REAL");
        ("boolean", "INTEGER"); ("date", "TEXT"); ("datetime", "TEXT");
        ("timestamp", "TEXT"); ("time", "TEXT"); ("json", "TEXT");
        ("jsonb", "TEXT"); ("uuid", "TEXT"); ("binary", "BLOB");
        ("enum", "TEXT"); ("array", "TEXT") ]
  | sqlserver =>
      [ ("string", "NVARCHAR(255)"); ("text", "NVARCHAR(MAX)"); ("integer", "INT");
        ("bigint", "BIGINT"); ("float", "FLOAT"); ("decimal", "DECIMAL(10,2)");
        ("boolean", "BIT"); ("date", "DATE"); ("datetime", "DATETIME2");
        ("timestamp", "DATETIME2"); ("time", "TIME"); ("json", "NVARCHAR(MAX)");
        ("jsonb", "NVARCHAR(MAX)"); ("uuid", "UNIQUEIDENTIFIER");
        ("binary", "VARBINARY(MAX)"); ("enum", "NVARCHAR(50)");
        ("array", "NVARCHAR(MAX)") ]
  end.

(** [typeMap[dialect][type] || typeMap[dialect]['string']]. *)
Definition mapColumnType (type : string) (dialect : SQLDialect) : option string :=
  JS.orElse (lookup_entry type (typeMap dialect))
            (lookup_entry "string" (typeMap dialect)).

(** A value inside a template literal: [undefined] prints as such. *)
Definition interpolate (o : option string) : string :=
  match o with
  | Some s => s
  | None => "undefined"
  end.

Definition backtick : string := "`".
Definition dquote : string := String "034"%char EmptyString.
Definition newline : string := String "010"%char EmptyString.

Definition formatTableName (name : string) (dialect : SQLDialect) : string :=
  match dialect with
  | mysql => backtick +++ name +++ backtick
  | _ => dquote +++ name +++ dquote
  end.

Definition formatColumnName (name : string) (dialect : SQLDialect) : string :=
  match dialect with
  | mysql => backtick +++ name +++ backtick
  | _ => dquote +++ name +++ dquote
  end.

(** [value.replace(/'/g, "''")]. *)
Fixpoint escapeQuotes (value : string) : string :=
  match value with
  | EmptyString => EmptyString
  | String c r =>
      if Ascii.eqb c "'"%char then String c (String c (escapeQuotes r))
      else String c (escapeQuotes r)
  end.

(** [value.trim()] is given with the importer; here only its emptiness
    is read, and a string is blank when all its characters are white. *)
Definition isWhite (c : ascii) : bool :=
  let n := nat_of_ascii c in
  ((9 <=? n)%nat && (n <=? 13)%nat) || (n =? 32)%nat || (n =? 160)%nat.

Fixpoint isBlank (s : string) : bool :=
  match s with
  | EmptyString => true
  | String c r => isWhite c && isBlank r
  end.

Section Exporter.

(** [isNaN(Number(value))], the platform's numeric reading of a string. *)
Variable isNaN_Number : string -> bool.

Definition formatDefaultValue (value : string) (dialect : SQLDialect) : string :=
  if negb (JS.truthy value) then ""
  else if String.eqb (JS.toUpperCase value) "CURRENT_TIMESTAMP" then
    match dialect with
    | postgresql => "DEFAULT CURRENT_TIMESTAMP"
    | _ => "DEFAULT CURRENT_TIMESTAMP"
    end
  else if String.eqb (JS.toUpperCase value) "NULL" then "DEFAULT NULL"
  else if negb (isNaN_Number value) && negb (isBlank value) then "DEFAULT " +++ value
  else if String.eqb (JS.toLowerCase value) "true" then
    match dialect with
    | postgresql => "DEFAULT TRUE"
    | _ => "DEFAULT 1"
    end
  else if String.eqb (JS.toLowerCase value) "false" then
    match dialect with
    | postgresql => "DEFAULT FALSE"
    | _ => "DEFAULT 0"
    end
  else "DEFAULT '" +++ escapeQuotes value +++ "'".

(** [a.columns.some(col => col.foreignKey)]. *)
Definition hasForeignKeys (t : Table.t) : bool :=
  existsb (fun col => bool_decide (is_Some (Column.foreignKey col))) (Table.columns t).

(** [[...schema.tables].sort(cmp)]: [cmp] orders a table without foreign
    keys before one with, and calls all others equal; the sort is
    stable, so it is this partition. *)
Definition sortedTables (tables : list Table.t) : list Table.t :=
  List.filter (fun t => negb (hasForeignKeys t)) tables
  ++ List.filter hasForeignKeys tables.

(** [table.columns.filter(c => c.primaryKey)]. *)
Definition primaryKeyColumns (table : Table.t) : list Column.t :=
  List.filter Column.primaryKey (Table.columns table).

(** The pieces [columnDef] is built from, in the order the source
    appends them. *)
Definition columnDefParts (table : Table.t) (column : Column.t) (dialect : SQLDialect)
  : list string :=
  let columnName := formatColumnName (Column.name column) dialect in
  let columnType := mapColumnType (Column.type column) dialect in
  [columnName +++ " " +++ interpolate columnType]
  ++ (if negb (Column.nullable column) then [" NOT NULL"] else [])
  ++ (if Column.unique column then [" UNIQUE"] else [])
  ++ (match Column.defaultValue column with
      | Some v => if JS.truthy v then [" " +++ formatDefaultValue v dialect] else []
      | None => []
      end)
  ++ (if Column.primaryKey column
         && (length (primaryKeyColumns table) =? 1)%nat
      then match dialect with
           | postgresql => [" PRIMARY KEY"]
           | sqlserver => []
           | _ => [" PRIMARY KEY"]
           end
      else []).

Definition columnDef (table : Table.t) (column : Column.t) (dialect : SQLDialect) : string :=
  String.concat "" (columnDefParts table column dialect).

(** [dialect === 'sqlserver']. *)
Definition isSqlServer (dialect : SQLDialect) : bool :=
  match dialect with
  | sqlserver => true
  | _ => false
  end.

(** The [constraints] array of one table. *)
Definition tableConstraints (table : Table.t) (dialect : SQLDialect) : list string :=
  let pks := primaryKeyColumns table in
  if (1 <? length pks)%nat
     || ((length pks =? 1)%nat && isSqlServer dialect)
  then ["PRIMARY KEY ("
        +++ JS.join ", " (map (fun c => formatColumnName (Column.name c) dialect) pks)
        +++ ")"]
  else [].

Definition sepLine : string := "," +++ newline +++ "  ".

(** The four statements pushed for one table. *)
Definition createTable (table : Table.t) (dialect : SQLDialect) : list string :=
  let columns := map (fun c => columnDef table c dialect) (Table.columns table) in
  let constraints := tableConstraints table dialect in
  [ "CREATE TABLE " +++ formatTableName (Table.name table) dialect +++ " (";
    "  " +++ JS.join sepLine columns
         +++ (if (0 <? length constraints)%nat
              then sepLine +++ JS.join sepLine constraints else "");
    ");";
    "" ].

(** [x && x !== 'NO ACTION'] on an optional action. *)
Definition actionClause (keyword : string) (action : option string) : string :=
  match action with
  | Some a =>
      if JS.truthy a && negb (String.eqb a "NO ACTION")
      then " ON " +++ keyword +++ " " +++ a else ""
  | None => ""
  end.

Definition limitName (constraintName : string) (dialect : SQLDialect) : string :=
  match dialect with
  | mysql => JS.take 64 constraintName
  | _ => constraintName
  end.

(** The statement of one column-level foreign key, when table and
    column resolve. *)
Definition foreignKeyStatement (tables : list Table.t) (table : Table.t)
    (column : Column.t) (fk : ForeignKey.t) (dialect : SQLDialect) : list string :=
  let sourceTable := formatTableName (Table.name table) dialect in
  let sourceColumn := formatColumnName (Column.name column) dialect in
  match find (fun t => String.eqb (Table.id t) (ForeignKey.tableId fk)) tables with
  | Some targetTable =>
      match Column.name <$>
            find (fun c => String.eqb (Column.id c) (ForeignKey.columnId fk))
                 (Table.columns targetTable) with
      | Some targetColumnName =>
          if JS.truthy targetColumnName then
            let constraintName :=
              limitName ("fk_" +++ Table.name table +++ "_" +++ Column.name column
                         +++ "_" +++ Table.name targetTable) dialect in
            [ "ALTER TABLE " +++ sourceTable
              +++ " ADD CONSTRAINT " +++ formatColumnName constraintName dialect
              +++ " FOREIGN KEY (" +++ sourceColumn +++ ")"
              +++ " REFERENCES " +++ formatTableName (Table.name targetTable) dialect
              +++ "(" +++ formatColumnName targetColumnName dialect +++ ")"
              +++ actionClause "DELETE" (ForeignKey.onDelete fk)
              +++ actionClause "UPDATE" (ForeignKey.onUpdate fk)
              +++ ";" ]
          else []
      | None => []
      end
  | None => []
  end.

(** The loop over all tables and columns for column-level keys. *)
Definition foreignKeyStatements (tables : list Table.t) (dialect : SQLDialect)
  : list string :=
  flat_map (fun table =>
    flat_map (fun column =>
      match Column.foreignKey column with
      | Some fk => foreignKeyStatement tables table column fk dialect
      | None => []
      end) (Table.columns table)) tables.

(** The statement of one schema-level relationship. *)
Definition relationshipStatement (tables : list Table.t) (relationship : Relationship.t)
    (dialect : SQLDialect) : list string :=
  match find (fun t => String.eqb (Table.id t) (Relationship.sourceTableId relationship)) tables,
        find (fun t => String.eqb (Table.id t) (Relationship.targetTableId relationship)) tables with
  | Some sourceTable, Some targetTable =>
      match find (fun c => String.eqb (Column.id c) (Relationship.sourceColumnId relationship))
                 (Table.columns sourceTable),
            find (fun c => String.eqb (Column.id c) (Relationship.targetColumnId relationship))
                 (Table.columns targetTable) with
      | Some sourceColumn, Some targetColumn =>
          match Column.foreignKey sourceColumn with
          | None =>
              let constraintName :=
                limitName ("rel_" +++ Table.name sourceTable +++ "_"
                           +++ Table.name targetTable) dialect in
              [ "ALTER TABLE " +++ formatTableName (Table.name sourceTable) dialect
                +++ " ADD CONSTRAINT " +++ formatColumnName constraintName dialect
                +++ " FOREIGN KEY (" +++ formatColumnName (Column.name sourceColumn) dialect +++ ")"
                +++ " REFERENCES " +++ formatTableName (Table.name targetTable) dialect
                +++ "(" +++ formatColumnName (Column.name targetColumn) dialect +++ ")"
                +++ actionClause "DELETE" (Relationship.onDelete relationship)
                +++ actionClause "UPDATE" (Relationship.onUpdate relationship)
                +++ ";" ]
          | Some _ => []
          end
      | _, _ => []
      end
  | _, _ => []
  end.

Definition relationshipStatements (tables : list Table.t)
    (relationships : list Relationship.t) (dialect : SQLDialect) : list string :=
  flat_map (fun r => relationshipStatement tables r dialect) relationships.

(** All statements of [exportToSQL], before the final [join]; [now] is
    [new Date().toISOString()]. *)
Definition statements (now : string) (schema : Schema.t) (dialect : SQLDialect)
  : list string :=
  [ "-- Schema: " +++ Schema.name schema;
    "-- Generated: " +++ now;
    "-- Dialect: " +++ JS.toUpperCase (dialectName dialect);
    "" ]
  ++ flat_map (fun table => createTable table dialect) (sortedTables (Schema.tables schema))
  ++ foreignKeyStatements (Schema.tables schema) dialect
  ++ relationshipStatements (Schema.tables schema) (Schema.relationships schema) dialect.

Definition exportToSQL (now : string) (schema : Schema.t) (dialect : SQLDialect) : string :=
  JS.join newline (statements now schema dialect).

End Exporter.

End SqlExporter.

(** ** The Prisma exporter: its type map *)

Module PrismaExporter.

(** The [typeMap] literal of [mapPrismaType]. *)
Definition typeMap : list (string * string) :=
  [ ("string", "String"); ("text", "String"); ("integer", "Int");
    ("bigint", "BigInt"); ("float", "Float"); ("decimal", "Decimal");
    ("boolean", "Boolean"); ("date", "DateTime"); ("datetime", "DateTime");
    ("timestamp", "DateTime"); ("time", "DateTime"); ("json", "Json");
    ("jsonb", "Json"); ("uuid", "String"); ("binary", "Bytes");
    ("enum", "String"); ("array", "Json") ].

(** [typeMap[type] || 'String']. *)
Definition mapPrismaType (type : string) : option string :=
  JS.orElse (lookup_entry type typeMap) (Some "String").

End PrismaExporter.

(** ** What a call does: it returns a value or throws an [Error] *)

Inductive outcome (A : Type) : Type :=
| Returned (value : A)
| Thrown (message : string).
Arguments Returned {A} value.
Arguments Thrown {A} message.

(** ** The export dispatcher ([ExportManager.export]) *)

Module ExportManager.

(** [ExportOptions]; [format] is whatever string the caller passes. *)
Record ExportOptions : Type := mkOptions {
  format : string;
  sqlDialect : option SqlExporter.SQLDialect;
  includePositions : option bool;
  includeDescriptions : option bool;
}.

Section Dispatch.

(** The text an exporter produces, and the six exporters the
    dispatcher hands the schema to. *)
Variable text : Type.
Variable exportToJSON : Schema.t -> option bool -> text.
Variable exportToSQL : Schema.t -> SqlExporter.SQLDialect -> text.
Variable exportToPrisma : Schema.t -> text.
Variable exportToDjango : Schema.t -> text.
Variable exportToLaravel : Schema.t -> text.
Variable exportToTypeORM : Schema.t -> text.

(** The [switch] of [export]: [String.eqb] is [===] on the case labels,
    tried in the order of the source. *)
Definition export (schema : Schema.t) (options : ExportOptions) : outcome text :=
  let f := format options in
  if String.eqb f "json" then
    Returned (exportToJSON schema (includePositions options))
  else if String.eqb f "sql" then
    Returned (exportToSQL schema
                (match sqlDialect options with
                 | Some d => d
                 | None => SqlExporter.postgresql
                 end))
  else if String.eqb f "prisma" then Returned (exportToPrisma schema)
  else if String.eqb f "django" then Returned (exportToDjango schema)
  else if String.eqb f "laravel" then Returned (exportToLaravel schema)
  else if String.eqb f "typeorm" then Returned (exportToTypeORM schema)
  else Thrown ("Unsupported export format: " +++ f).

End Dispatch.

End ExportManager.

(** ** [lib/export/json-exporter.ts] *)

Module JsonExporter.

(** A value at run time.  The importer reads untyped data ([any]), so
    its input and its result are values, not typed records. *)
#[warnings="-register-all"]
Inductive value : Type :=
| VUndefined
| VNull
| VBool (b : bool)
| VNum (n : number)
| VStr (s : string)
| VDate (d : Date)
| VArr (items : list value)
| VObj (props : list (string * value)).

(** A string handed to [JSON.parse]: the text of a JSON document, given
    by the value [JSON.parse] returns for it, or a text it rejects with
    a [SyntaxError] of the given message. *)
Inductive text : Type :=
| Document (d : value)
| Malformed (syntaxError : string).

Definition JSON_parse (t : text) : outcome value :=
  match t with
  | Document d => Returned d
  | Malformed msg => Thrown msg
  end.

Definition bind {A B : Type} (m : outcome A) (k : A -> outcome B) : outcome B :=
  match m with
  | Returned a => k a
  | Thrown msg => Thrown msg
  end.

Notation "x <- m ;; k" := (bind m (fun x => k))
  (at level 100, m at next level, right associativity).

Fixpoint mapM {A B : Type} (f : A -> outcome B) (l : list A) : outcome (list B) :=
  match l with
  | [] => Returned []
  | a :: rest =>
      b <- f a ;;
      bs <- mapM f rest ;;
      Returned (b :: bs)
  end.

Definition truthy (v : value) : bool :=
  match v with
  | VUndefined | VNull => false
  | VBool b => b
  | VNum n => Num.truthy n
  | VStr s => JS.truthy s
  | VDate _ | VArr _ | VObj _ => true
  end.

(** [a || b]. *)
Definition orElse (a b : value) : value := if truthy a then a else b.

(** [Array.isArray(v)]. *)
Definition isArray (v : value) : bool :=
  match v with
  | VArr _ => true
  | _ => false
  end.

(** The message of the [TypeError] of reading a property of [null] or
    [undefined], in the wording of V8. *)
Definition cannotRead (base prop : string) : string :=
  "Cannot read properties of " +++ base +++ " (reading '" +++ prop +++ "')".

(** [v.key] for the keys this file reads: none of them is a property of
    a string, a number, a boolean or an array, so only an object has
    them. *)
Definition get (v : value) (key : string) : outcome value :=
  match v with
  | VUndefined => Thrown (cannotRead "undefined" key)
  | VNull => Thrown (cannotRead "null" key)
  | VObj props =>
      Returned (match lookup_entry key props with
                | Some x => x
                | None => VUndefined
                end)
  | _ => Returned VUndefined
  end.

(** [v?.key]. *)
Definition getOpt (v : value) (key : string) : outcome value :=
  match v with
  | VUndefined | VNull => Returned VUndefined
  | _ => get v key
  end.

(** [v.map(f)], where [expr] is the source text of [v]. *)
Definition arrayMap (f : value -> outcome value) (v : value) (expr : string)
  : outcome value :=
  match v with
  | VArr items => items' <- mapM f items ;; Returned (VArr items')
  | VUndefined => Thrown (cannotRead "undefined" "map")
  | VNull => Thrown (cannotRead "null" "map")
  | _ => Thrown (expr +++ ".map is not a function")
  end.

Definition optStr (o : option string) : value :=
  match o with
  | Some s => VStr s
  | None => VUndefined
  end.

(** *** [exportToJSON] *)

Definition foreignKeyData (fk : ForeignKey.t) : value :=
  VObj [ ("tableId", VStr (ForeignKey.tableId fk));
         ("columnId", VStr (ForeignKey.columnId fk));
         ("onDelete", optStr (ForeignKey.onDelete fk));
         ("onUpdate", optStr (ForeignKey.onUpdate fk)) ].

Definition columnData (column : Column.t) : value :=
  VObj ([ ("id", VStr (Column.id column));
          ("name", VStr (Column.name column));
          ("type", VStr (Column.type column));
          ("nullable", VBool (Column.nullable column));
          ("primaryKey", VBool (Column.primaryKey column));
          ("unique", VBool (Column.unique column));
          ("defaultValue", optStr (Column.defaultValue column));
          ("description", optStr (Column.description column)) ]
        ++ match Column.foreignKey column with
           | Some fk => [ ("foreignKey", foreignKeyData fk) ]
           | None => []
           end).

Definition positionData (p : Position.t) : value :=
  VObj [ ("x", VNum (Position.x p)); ("y", VNum (Position.y p)) ].

Definition tableData (includePositions : bool) (table : Table.t) : value :=
  VObj ([ ("id", VStr (Table.id table));
          ("name", VStr (Table.name table));
          ("description", optStr (Table.description table)) ]
        ++ (if includePositions
            then [ ("position", positionData (Table.position table)) ] else [])
        ++ [ ("columns", VArr (map columnData (Table.columns table))) ]).

Definition relationshipData (r : Relationship.t) : value :=
  VObj [ ("id", VStr (Relationship.id r));
         ("name", optStr (Relationship.name r));
         ("sourceTableId", VStr (Relationship.sourceTableId r));
         ("sourceColumnId", VStr (Relationship.sourceColumnId r));
         ("targetTableId", VStr (Relationship.targetTableId r));
         ("targetColumnId", VStr (Relationship.targetColumnId r));
         ("type", VStr (Relationship.type r));
         ("onDelete", optStr (Relationship.onDelete r));
         ("onUpdate", optStr (Relationship.onUpdate r)) ].

(** The object [exportData]; [exportedAt] is
    [new Date().toISOString()]. *)
Definition exportData (exportedAt : string) (schema : Schema.t) (includePositions : bool)
  : value :=
  VObj [ ("version", VStr "1.0.0");
         ("metadata",
          VObj [ ("name", VStr (Schema.name schema));
                 ("description", optStr (Schema.description schema));
                 ("createdAt", VDate (Schema.createdAt schema));
                 ("updatedAt", VDate (Schema.updatedAt schema));
                 ("exportedAt", VStr exportedAt) ]);
         ("tables", VArr (map (tableData includePositions) (Schema.tables schema)));
         ("relationships", VArr (map relationshipData (Schema.relationships schema))) ].

Section Codec.

(** The platform: [Date.prototype.toISOString] on a time value, and
    [new Date(v)] on one argument. *)
Variable toISOString : Z -> string.
Variable newDate : value -> Date.

(** What [JSON.parse] reads back from the text [JSON.stringify] writes
    for a value inside an array or a property: a property whose value
    is [undefined] is left out, [undefined] in an array and a number
    that is not finite become [null], and a date becomes its ISO string
    ([null] when it is invalid). *)
Fixpoint stringified (v : value) : value :=
  match v with
  | VUndefined => VNull
  | VNull => VNull
  | VBool b => VBool b
  | VNum n => if Num.isFinite n then VNum n else VNull
  | VStr s => VStr s
  | VDate (TimeValue t) => VStr (toISOString t)
  | VDate InvalidDate => VNull
  | VArr items => VArr (map stringified items)
  | VObj props =>
      VObj ((fix each (ps : list (string * value)) : list (string * value) :=
               match ps with
               | [] => []
               | (_, VUndefined) :: rest => each rest
               | (k, x) :: rest => (k, stringified x) :: each rest
               end) props)
  end.

(** [JSON.stringify(value, null, 2)] of an object. *)
Definition JSON_stringify (v : value) : text := Document (stringified v).

(** [includePositions = true] is the default of the parameter. *)
Definition exportToJSON (exportedAt : string) (schema : Schema.t)
    (includePositions : option bool) : text :=
  JSON_stringify
    (exportData exportedAt schema
       (match includePositions with
        | Some b => b
        | None => true
        end)).

(** *** [importFromJSON] *)

Definition importColumn (column : value) : outcome value :=
  id <- get column "id" ;;
  name <- get column "name" ;;
  type <- get column "type" ;;
  nullable <- get column "nullable" ;;
  primaryKey <- get column "primaryKey" ;;
  unique <- get column "unique" ;;
  defaultValue <- get column "defaultValue" ;;
  description <- get column "description" ;;
  fk <- get column "foreignKey" ;;
  foreignKey <-
    (if truthy fk then
       tableId <- get fk "tableId" ;;
       columnId <- get fk "columnId" ;;
       onDelete <- get fk "onDelete" ;;
       onUpdate <- get fk "onUpdate" ;;
       Returned (VObj [ ("tableId", tableId); ("columnId", columnId);
                        ("onDelete", onDelete); ("onUpdate", onUpdate) ])
     else Returned VUndefined) ;;
  Returned (VObj [ ("id", id); ("name", name); ("type", type);
                   ("nullable", nullable); ("primaryKey", primaryKey);
                   ("unique", unique); ("defaultValue", defaultValue);
                   ("description", description); ("foreignKey", foreignKey) ]).

Definition originPosition : value :=
  VObj [ ("x", VNum (Num.Fin 0)); ("y", VNum (Num.Fin 0)) ].

Definition importTable (table : value) : outcome value :=
  id <- get table "id" ;;
  name <- get table "name" ;;
  position <- get table "position" ;;
  description <- get table "description" ;;
  columns <- get table "columns" ;;
  columns' <- arrayMap importColumn columns "table.columns" ;;
  Returned (VObj [ ("id", id); ("name", name);
                   ("position", orElse position originPosition);
                   ("description", description); ("columns", columns') ]).

Definition importRelationship (rel : value) : outcome value :=
  id <- get rel "id" ;;
  name <- get rel "name" ;;
  sourceTableId <- get rel "sourceTableId" ;;
  sourceColumnId <- get rel "sourceColumnId" ;;
  targetTableId <- get rel "targetTableId" ;;
  targetColumnId <- get rel "targetColumnId" ;;
  type <- get rel "type" ;;
  onDelete <- get rel "onDelete" ;;
  onUpdate <- get rel "onUpdate" ;;
  Returned (VObj [ ("id", id); ("name", name);
                   ("sourceTableId", sourceTableId);
                   ("sourceColumnId", sourceColumnId);
                   ("targetTableId", targetTableId);
                   ("targetColumnId", targetColumnId);
                   ("type", type); ("onDelete", onDelete); ("onUpdate", onUpdate) ]).

(** [data.metadata?.key ? new Date(data.metadata.key) : new Date()]. *)
Definition importDate (data : value) (key : string) (now : Date) : outcome value :=
  metadata <- get data "metadata" ;;
  stamp <- getOpt metadata key ;;
  if truthy stamp then
    metadata' <- get data "metadata" ;;
    stamp' <- get metadata' key ;;
    Returned (VDate (newDate stamp'))
  else Returned (VDate now).

(** The body of the [try] block; [nowCreated] and [nowUpdated] are the
    two [new Date()] of the defaults. *)
Definition importBody (nowCreated nowUpdated : Date) (jsonString : text)
  : outcome value :=
  data <- JSON_parse jsonString ;;
  tablesV <- get data "tables" ;;
  if negb (truthy tablesV) || negb (isArray tablesV) then
    Thrown "Invalid JSON format: missing tables array"
  else
    tables <- arrayMap importTable tablesV "data.tables" ;;
    relsV <- get data "relationships" ;;
    relationships <- arrayMap importRelationship (orElse relsV (VArr []))
                              "(data.relationships || [])" ;;
    metadata <- get data "metadata" ;;
    idName <- getOpt metadata "name" ;;
    name <- getOpt metadata "name" ;;
    description <- getOpt metadata "description" ;;
    createdAt <- importDate data "createdAt" nowCreated ;;
    updatedAt <- importDate data "updatedAt" nowUpdated ;;
    version <- get data "version" ;;
    Returned (VObj [ ("id", orElse idName (VStr "Imported Schema"));
                     ("name", orElse name (VStr "Imported Schema"));
                     ("description", description);
                     ("tables", tables);
                     ("relationships", relationships);
                     ("createdAt", createdAt);
                     ("updatedAt", updatedAt);
                     ("version", orElse version (VNum (Num.Fin 1))) ]).

(** [importFromJSON]: whatever the body throws is an [Error] with a
    message, and is thrown again with the prefix. *)
Definition importFromJSON (nowCreated nowUpdated : Date) (jsonString : text)
  : outcome value :=
  match importBody nowCreated nowUpdated jsonString with
  | Returned schema => Returned schema
  | Thrown message => Thrown ("Failed to import JSON: " +++ message)
  end.

End Codec.

End JsonExporter.

(** ** Regular expressions, as the importer uses them *)

Module RegExp.

(** The patterns.  [Group i r] is the [i]-th capturing group; [Star]
    carries whether it is greedy. *)
Inductive regex : Type :=
| Eps
| Chr (p : ascii -> bool)
| Seq (a b : regex)
| Alt (a b : regex)
| Star (greedy : bool) (r : regex)
| Group (i : nat) (r : regex)
| Bol
| Eol
| Ahead (r : regex).

(** A position of the match: the index, the rest of the input from
    there, and the captures so far. *)
Record state : Type := mkState {
  pos : nat;
  rest : string;
  caps : list (nat * string);
}.

(** The backtracking matcher, with the continuation [k] for what
    follows the pattern.  An iteration of a star that consumes nothing
    is refused, so a star iterates at most once per character left. *)
Fixpoint run (r : regex) (st : state) (k : state -> option state) : option state :=
  match r with
  | Eps => k st
  | Chr p =>
      match rest st with
      | String c s => if p c then k (mkState (S (pos st)) s (caps st)) else None
      | EmptyString => None
      end
  | Seq a b => run a st (fun st' => run b st' k)
  | Alt a b =>
      match run a st k with
      | Some found => Some found
      | None => run b st k
      end
  | Star greedy body =>
      (fix iterate (fuel : nat) (st : state) : option state :=
         let again :=
           match fuel with
           | O => None
           | S fuel' =>
               run body st
                   (fun st' =>
                      if (String.length (rest st') <? String.length (rest st))%nat
                      then iterate fuel' st' else None)
           end in
         if greedy then
           match again with
           | Some found => Some found
           | None => k st
           end
         else
           match k st with
           | Some found => Some found
           | None => again
           end) (S (String.length (rest st))) st
  | Group i body =>
      run body st
          (fun st' =>
             k (mkState (pos st') (rest st')
                        ((i, JS.take (pos st' - pos st) (rest st)) :: caps st')))
  | Bol => if (pos st =? 0)%nat then k st else None
  | Eol =>
      match rest st with
      | EmptyString => k st
      | String _ _ => None
      end
  | Ahead body =>
      match run body st Some with
      | Some st' => k (mkState (pos st) (rest st) (caps st'))
      | None => None
      end
  end.

(** A match: where it starts, its text, where it ends, what follows
    it, and its captures. *)
Record found : Type := mkFound {
  index : nat;
  matched : string;
  stop : nat;
  after : string;
  groups : list (nat * string);
}.

(** The capture of group [i]; [None] is [undefined]. *)
Fixpoint capture (i : nat) (cs : list (nat * string)) : option string :=
  match cs with
  | [] => None
  | (j, s) :: more => if (i =? j)%nat then Some s else capture i more
  end.

Definition group (i : nat) (m : found) : option string := capture i (groups m).

(** The match that starts exactly at position [at_] of the input, whose
    rest from there is [s]. *)
Definition matchAt (r : regex) (at_ : nat) (s : string) : option found :=
  match run r (mkState at_ s []) Some with
  | Some st => Some (mkFound at_ (JS.take (pos st - at_) s) (pos st) (rest st) (caps st))
  | None => None
  end.

(** The leftmost match at or after position [at_]. *)
Fixpoint searchFrom (r : regex) (at_ : nat) (s : string) : option found :=
  match matchAt r at_ s with
  | Some m => Some m
  | None =>
      match s with
      | EmptyString => None
      | String _ s' => searchFrom r (S at_) s'
      end
  end.

(** [s.match(r)] and [r.exec(s)] from the start of [s]. *)
Definition exec (r : regex) (s : string) : option found := searchFrom r 0 s.

(** [r.test(s)]. *)
Definition test (r : regex) (s : string) : bool :=
  match exec r s with
  | Some _ => true
  | None => false
  end.

(** [s.search(r)]; [None] is [-1]. *)
Definition search (r : regex) (s : string) : option nat := index <$> exec r s.

(** All matches of a global pattern from position [at_], left to right;
    after an empty match the search moves one character on. *)
Fixpoint allFrom (fuel : nat) (r : regex) (at_ : nat) (s : string) : list found :=
  match fuel with
  | O => []
  | S fuel' =>
      match searchFrom r at_ s with
      | None => []
      | Some m =>
          let consumed := (stop m - at_)%nat in
          if (index m <? stop m)%nat
          then m :: allFrom fuel' r (stop m) (JS.skip consumed s)
          else m :: match JS.skip consumed s with
                    | EmptyString => []
                    | String _ s' => allFrom fuel' r (S (stop m)) s'
                    end
      end
  end.

Definition matchAll (r : regex) (s : string) : list found :=
  allFrom (S (String.length s)) r 0 s.

(** [s.replace(r, f)] for a global [r]: every match is replaced by what
    [f] makes of it. *)
Fixpoint rebuild (at_ : nat) (s : string) (ms : list found) (f : found -> string)
  : string :=
  match ms with
  | [] => s
  | m :: more =>
      JS.take (index m - at_) s
      +++ f m
      +++ rebuild (stop m) (JS.skip (stop m - at_) s) more f
  end.

Definition replaceAll (r : regex) (f : found -> string) (s : string) : string :=
  rebuild 0 s (matchAll r s) f.

(** [s.replace(r, f)] for a pattern that is not global: the first
    match only. *)
Definition replaceFirst (r : regex) (f : found -> string) (s : string) : string :=
  match exec r s with
  | Some m => JS.take (index m) s +++ f m +++ after m
  | None => s
  end.

(** *** Notations of patterns *)

Definition only (c : ascii) : ascii -> bool := Ascii.eqb c.
Definition oneOf (cs : string) (c : ascii) : bool :=
  existsb (Ascii.eqb c) (list_ascii_of_string cs).
Definition noneOf (cs : string) (c : ascii) : bool := negb (oneOf cs c).

(** [\s], [\S], [\w], [\d], and [.] *)
Definition space (c : ascii) : bool :=
  let n := nat_of_ascii c in
  ((9 <=? n)%nat && (n <=? 13)%nat) || (n =? 32)%nat || (n =? 160)%nat.
Definition nonSpace (c : ascii) : bool := negb (space c).
Definition word (c : ascii) : bool :=
  JS.isUpper c || JS.isLower c || JS.isDigit c || Ascii.eqb c "_"%char.
Definition digit (c : ascii) : bool := JS.isDigit c.
Definition dot (c : ascii) : bool :=
  negb (Ascii.eqb c "010"%char || Ascii.eqb c "013"%char).
Definition any (c : ascii) : bool := true.

(** A literal text. *)
Fixpoint lit (s : string) : regex :=
  match s with
  | EmptyString => Eps
  | String c r => Seq (Chr (only c)) (lit r)
  end.

(** A sequence of patterns. *)
Fixpoint seq (rs : list regex) : regex :=
  match rs with
  | [] => Eps
  | [r] => r
  | r :: more => Seq r (seq more)
  end.

Definition star (r : regex) : regex := Star true r.
Definition lazyStar (r : regex) : regex := Star false r.
Definition plus (r : regex) : regex := Seq r (Star true r).
Definition opt (r : regex) : regex := Alt r Eps.

End RegExp.

(** ** More of JavaScript's strings *)

Module Str.

(** [s.split(sep)] for a separator of one character. *)
Fixpoint split (sep : ascii) (s : string) : list string :=
  match s with
  | EmptyString => [ EmptyString ]
  | String c r =>
      if Ascii.eqb c sep then EmptyString :: split sep r
      else match split sep r with
           | piece :: more => String c piece :: more
           | [] => [ String c EmptyString ]
           end
  end.

(** [s.split(/[...]/)] for a class of separators. *)
Fixpoint splitOn (sep : ascii -> bool) (s : string) : list string :=
  match s with
  | EmptyString => [ EmptyString ]
  | String c r =>
      if sep c then EmptyString :: splitOn sep r
      else match splitOn sep r with
           | piece :: more => String c piece :: more
           | [] => [ String c EmptyString ]
           end
  end.

(** [s.trimStart()], [s.trimEnd()], [s.trim()]. *)
Fixpoint trimStart (s : string) : string :=
  match s with
  | EmptyString => EmptyString
  | String c r => if RegExp.space c then trimStart r else s
  end.

Fixpoint trimEnd (s : string) : string :=
  match s with
  | EmptyString => EmptyString
  | String c r =>
      match trimEnd r with
      | EmptyString => if RegExp.space c then EmptyString else String c EmptyString
      | kept => String c kept
      end
  end.

Definition trim (s : string) : string := trimEnd (trimStart s).

(** [s.substring(a, b)]: the two indices are put in order. *)
Definition substring (a b : nat) (s : string) : string :=
  JS.take (Nat.max a b - Nat.min a b) (JS.skip (Nat.min a b) s).

(** The number of characters of [s] that satisfy [p]:
    [(s.match(/c/g) || []).length] for a pattern of one character. *)
Fixpoint count (p : ascii -> bool) (s : string) : nat :=
  match s with
  | EmptyString => O
  | String c r => (if p c then 1 else 0) + count p r
  end.

(** [String(n)] for an integer that is not negative. *)
Definition ofN (n : N) : string := NilZero.string_of_uint (N.to_uint n).

Definition newline : ascii := "010"%char.
Definition dquote : ascii := "034"%char.

(** The three quotes of the importer's character classes. *)
Definition quotes : string := String "'" (String dquote (String "`" EmptyString)).

End Str.

(** ** [lib/import/django-importer.ts] *)

Module DjangoImporter.
Import RegExp.

(** [foreignKey] and [oneToOneField] of a [DjangoField]. *)
Module Related.
Record t : Type := mk {
  model : string;
  field : string;
  onDelete : option string;
}.
End Related.

Module ManyToMany.
Record t : Type := mk {
  model : string;
  through : option string;
}.
End ManyToMany.

Module DjangoField.
Record t : Type := mk {
  name : string;
  type : string;
  nullable : bool;
  primaryKey : bool;
  unique : bool;
  defaultValue : option string;
  foreignKey : option Related.t;
  oneToOneField : option Related.t;
  manyToManyField : option ManyToMany.t;
  description : option string;
}.

(** Assignments to one property. *)
Definition setType (v : string) (f : t) : t :=
  mk (name f) v (nullable f) (primaryKey f) (unique f) (defaultValue f)
     (foreignKey f) (oneToOneField f) (manyToManyField f) (description f).
Definition setNullable (v : bool) (f : t) : t :=
  mk (name f) (type f) v (primaryKey f) (unique f) (defaultValue f)
     (foreignKey f) (oneToOneField f) (manyToManyField f) (description f).
Definition setPrimaryKey (v : bool) (f : t) : t :=
  mk (name f) (type f) (nullable f) v (unique f) (defaultValue f)
     (foreignKey f) (oneToOneField f) (manyToManyField f) (description f).
Definition setUnique (v : bool) (f : t) : t :=
  mk (name f) (type f) (nullable f) (primaryKey f) v (defaultValue f)
     (foreignKey f) (oneToOneField f) (manyToManyField f) (description f).
Definition setDefaultValue (v : string) (f : t) : t :=
  mk (name f) (type f) (nullable f) (primaryKey f) (unique f) (Some v)
     (foreignKey f) (oneToOneField f) (manyToManyField f) (description f).
Definition setForeignKey (v : Related.t) (f : t) : t :=
  mk (name f) (type f) (nullable f) (primaryKey f) (unique f) (defaultValue f)
     (Some v) (oneToOneField f) (manyToManyField f) (description f).
Definition setOneToOneField (v : Related.t) (f : t) : t :=
  mk (name f) (type f) (nullable f) (primaryKey f) (unique f) (defaultValue f)
     (foreignKey f) (Some v) (manyToManyField f) (description f).
Definition setManyToManyField (v : ManyToMany.t) (f : t) : t :=
  mk (name f) (type f) (nullable f) (primaryKey f) (unique f) (defaultValue f)
     (foreignKey f) (oneToOneField f) (Some v) (description f).
End DjangoField.

Module DjangoModel.
Record t : Type := mk {
  name : string;
  tableName : option string;
  fields : list DjangoField.t;
  description : option string;
}.
End DjangoModel.

(** *** The patterns of the source, in its order

    In the comments [\x22] stands for the double quote, and a blank
    inside a pattern is not part of it. *)

(** [/class\s+(\w+)\s*\((.*?)\):/g] *)
Definition classRegex : regex :=
  seq [ lit "class"; plus (Chr space); Group 1 (plus (Chr word)); star (Chr space);
        Chr (only "("); Group 2 (lazyStar (Chr dot)); lit "):" ].

(** [/class\s+Meta\s*:([\s\S]*?)(?=class|\Z)/]: without the [u] flag
    [\Z] is the letter Z. *)
Definition metaRegex : regex :=
  seq [ lit "class"; plus (Chr space); lit "Meta"; star (Chr space); Chr (only ":");
        Group 1 (lazyStar (Chr any)); Ahead (Alt (lit "class") (lit "Z")) ].

(** [/db_table\s*=\s*['\x22`]([^'\x22`]+)['\x22`]/] *)
Definition dbTableRegex : regex :=
  seq [ lit "db_table"; star (Chr space); Chr (only "="); star (Chr space);
        Chr (oneOf Str.quotes); Group 1 (plus (Chr (noneOf Str.quotes)));
        Chr (oneOf Str.quotes) ].

(** [/class\s+Meta.*?\x22\x22\x22([\s\S]*?)\x22\x22\x22/] *)
Definition tripleQuote : regex :=
  seq [ Chr (only Str.dquote); Chr (only Str.dquote); Chr (only Str.dquote) ].

Definition docstringRegex : regex :=
  seq [ lit "class"; plus (Chr space); lit "Meta"; lazyStar (Chr dot); tripleQuote;
        Group 1 (lazyStar (Chr any)); tripleQuote ].

(** [/^(\w+)\s*=\s*models\.(\w+)(?:\((.* )\))?/] *)
Definition fieldRegex : regex :=
  seq [ Bol; Group 1 (plus (Chr word)); star (Chr space); Chr (only "=");
        star (Chr space); lit "models."; Group 2 (plus (Chr word));
        opt (seq [ Chr (only "("); Group 3 (star (Chr dot)); Chr (only ")") ]) ].

(** [/^(\w+)\s*=\s*models\.(\w+)\s*\((.* )\)/] *)
Definition multiFieldRegex : regex :=
  seq [ Bol; Group 1 (plus (Chr word)); star (Chr space); Chr (only "=");
        star (Chr space); lit "models."; Group 2 (plus (Chr word)); star (Chr space);
        Chr (only "("); Group 3 (star (Chr dot)); Chr (only ")") ].

(** [/\s+/g] *)
Definition spacesRegex : regex := plus (Chr space).

(** [/default\s*=\s*([^,\)]+(?:\([^)]*\))?)/] *)
Definition defaultRegex : regex :=
  seq [ lit "default"; star (Chr space); Chr (only "="); star (Chr space);
        Group 1 (seq [ plus (Chr (noneOf ",)"));
                       opt (seq [ Chr (only "("); star (Chr (noneOf ")"));
                                  Chr (only ")") ]) ]) ].

(** [/^['\x22`]|['\x22`]$/g] *)
Definition outerQuoteRegex : regex :=
  Alt (Seq Bol (Chr (oneOf Str.quotes))) (Seq (Chr (oneOf Str.quotes)) Eol).

(** [/^['\x22`]?([^'\x22\s,\)]+)['\x22`]?/] *)
Definition notModelChar (c : ascii) : bool :=
  Ascii.eqb c "'"%char || Ascii.eqb c Str.dquote || space c
  || Ascii.eqb c ","%char || Ascii.eqb c ")"%char.

Definition modelRegex : regex :=
  seq [ Bol; opt (Chr (oneOf Str.quotes));
        Group 1 (plus (Chr (fun c => negb (notModelChar c))));
        opt (Chr (oneOf Str.quotes)) ].

(** [/on_delete\s*=\s*models\.(\w+)/] *)
Definition onDeleteRegex : regex :=
  seq [ lit "on_delete"; star (Chr space); Chr (only "="); star (Chr space);
        lit "models."; Group 1 (plus (Chr word)) ].

(** [/through\s*=\s*['\x22`]([^'\x22`]+)['\x22`]/] *)
Definition throughRegex : regex :=
  seq [ lit "through"; star (Chr space); Chr (only "="); star (Chr space);
        Chr (oneOf Str.quotes); Group 1 (plus (Chr (noneOf Str.quotes)));
        Chr (oneOf Str.quotes) ].

(** [/max_length\s*=\s*(\d+)/] *)
Definition maxLengthRegex : regex :=
  seq [ lit "max_length"; star (Chr space); Chr (only "="); star (Chr space);
        Group 1 (plus (Chr digit)) ].

(** [/\S/] *)
Definition nonSpaceRegex : regex := Chr nonSpace.

(** *** Helpers *)

(** [str.replace(/([A-Z])/g, '_$1').replace(/^_/, '').toLowerCase()] *)
Definition snakeCase (str : string) : string :=
  JS.toLowerCase
    (replaceFirst (Seq Bol (Chr (only "_"))) (fun _ => "")
       (replaceAll (Group 1 (Chr JS.isUpper))
                   (fun m => "_" +++ default "" (group 1 m)) str)).

(** [word.charAt(0).toUpperCase() + word.slice(1).toLowerCase()] *)
Definition capitalize (w : string) : string :=
  JS.toUpperCase (JS.take 1 w) +++ JS.toLowerCase (JS.skip 1 w).

(** [str.split(/[_\s-]/).map(...).join('')] *)
Definition pascalCase (str : string) : string :=
  JS.join ""
    (map capitalize
         (Str.splitOn (fun c => Ascii.eqb c "_"%char || space c || Ascii.eqb c "-"%char)
                      str)).

(** The [mapping] literal of [mapDjangoOnDelete]. *)
Definition onDeleteMapping : list (string * string) :=
  [ ("CASCADE", "CASCADE"); ("SET_NULL", "SET NULL"); ("PROTECT", "RESTRICT");
    ("RESTRICT", "RESTRICT"); ("DO_NOTHING", "NO ACTION") ].

(** [onDelete ? mapping[onDelete] : undefined] *)
Definition mapDjangoOnDelete (onDelete : option string) : option string :=
  match onDelete with
  | Some a => if JS.truthy a then lookup_entry a onDeleteMapping else None
  | None => None
  end.

(** The [typeMap] literal of [mapDjangoType]. *)
Definition djangoTypeMap : list (string * string) :=
  [ ("CharField", "string"); ("TextField", "text"); ("IntegerField", "integer");
    ("BigIntegerField", "bigint"); ("SmallIntegerField", "integer");
    ("AutoField", "integer"); ("BigAutoField", "bigint"); ("FloatField", "float");
    ("DecimalField", "decimal"); ("BooleanField", "boolean"); ("DateField", "date");
    ("DateTimeField", "datetime"); ("TimeField", "time"); ("JSONField", "json");
    ("UUIDField", "uuid"); ("BinaryField", "binary"); ("EmailField", "string");
    ("URLField", "string"); ("SlugField", "string");
    ("PositiveIntegerField", "integer"); ("PositiveSmallIntegerField", "integer");
    ("PositiveBigIntegerField", "bigint"); ("ForeignKey", "integer");
    ("OneToOneField", "integer"); ("ManyToManyField", "json") ].

(** [typeMap[djangoType] || 'string'] *)
Definition mapDjangoType (djangoType : string) : string :=
  default "string" (JS.orElse (lookup_entry djangoType djangoTypeMap) (Some "string")).

(** *** [parseFieldArguments] *)

(** The first argument of a relationship field: the related model. *)
Definition relatedModel (cleanArgs : string) : option string :=
  match exec modelRegex cleanArgs with
  | Some m => group 1 m
  | None => None
  end.

Definition explicitlyOptional (cleanArgs : string) : bool :=
  JS.includes "null=True" cleanArgs || JS.includes "blank=True" cleanArgs.

(** The branch of [ForeignKey] and of [OneToOneField]: the related
    model, [on_delete], and the nullability. *)
Definition relatedOf (cleanArgs relatedModelName : string) : Related.t :=
  Related.mk relatedModelName "id"
             (match exec onDeleteRegex cleanArgs with
              | Some m => group 1 m
              | None => None
              end).

(** [args.replace(/\s+/g, ' ').trim()] *)
Definition cleanArgsOf (args : string) : string :=
  Str.trim (replaceAll spacesRegex (fun _ => " ") args).

Definition parseFieldArguments (args : string) (field : DjangoField.t)
    (fieldType : string) : DjangoField.t :=
  let cleanArgs := cleanArgsOf args in
  (* null *)
  let field :=
    if JS.includes "null=True" cleanArgs then DjangoField.setNullable true field
    else if JS.includes "null=False" cleanArgs then DjangoField.setNullable false field
    else field in
  (* blank *)
  let field :=
    if JS.includes "blank=True" cleanArgs then DjangoField.setNullable true field
    else field in
  (* unique *)
  let field :=
    if JS.includes "unique=True" cleanArgs then DjangoField.setUnique true field
    else field in
  (* default *)
  let field :=
    match exec defaultRegex cleanArgs with
    | Some m =>
        DjangoField.setDefaultValue
          (replaceAll outerQuoteRegex (fun _ => "")
                      (Str.trim (default "" (group 1 m))))
          field
    | None => field
    end in
  (* relationship fields *)
  let field :=
    if String.eqb fieldType "ForeignKey" then
      match relatedModel cleanArgs with
      | Some model =>
          let field := DjangoField.setForeignKey (relatedOf cleanArgs model) field in
          if negb (explicitlyOptional cleanArgs)
          then DjangoField.setNullable false field else field
      | None => field
      end
    else if String.eqb fieldType "OneToOneField" then
      match relatedModel cleanArgs with
      | Some model =>
          let field := DjangoField.setOneToOneField (relatedOf cleanArgs model) field in
          if negb (explicitlyOptional cleanArgs)
          then DjangoField.setNullable false field else field
      | None => field
      end
    else if String.eqb fieldType "ManyToManyField" then
      match relatedModel cleanArgs with
      | Some model =>
          DjangoField.setType "json"
            (DjangoField.setManyToManyField
               (ManyToMany.mk model
                  (match exec throughRegex cleanArgs with
                   | Some m => group 1 m
                   | None => None
                   end))
               field)
      | None => field
      end
    else field in
  (* max_length *)
  let field :=
    match exec maxLengthRegex cleanArgs with
    | Some _ => DjangoField.setType "string" field
    | None => field
    end in
  (* primary_key *)
  let field :=
    if JS.includes "primary_key=True" cleanArgs
    then DjangoField.setNullable false (DjangoField.setPrimaryKey true field)
    else field in
  (* AutoField *)
  if JS.includes "AutoField" cleanArgs || JS.includes "BigAutoField" cleanArgs
  then DjangoField.setType "integer"
         (DjangoField.setNullable false (DjangoField.setPrimaryKey true field))
  else field.

(** *** [parseFields] *)

(** What both branches of [parseFields] do with the name, the type and
    the arguments of a declaration. *)
Definition buildField (fieldName fieldType fieldArgs : string) : DjangoField.t :=
  let field :=
    DjangoField.mk fieldName (mapDjangoType fieldType) true false false
                   None None None None None in
  let field := parseFieldArguments fieldArgs field fieldType in
  let field :=
    if String.eqb fieldType "AutoField" || String.eqb fieldType "BigAutoField"
    then DjangoField.setType "integer"
           (DjangoField.setNullable false (DjangoField.setPrimaryKey true field))
    else field in
  if String.eqb fieldType "ForeignKey"
     && bool_decide (is_Some (DjangoField.foreignKey field))
  then DjangoField.setType "integer" field
  else if String.eqb fieldType "OneToOneField"
          && bool_decide (is_Some (DjangoField.oneToOneField field))
  then DjangoField.setType "integer" field
  else if String.eqb fieldType "ManyToManyField"
          && bool_decide (is_Some (DjangoField.manyToManyField field))
  then DjangoField.setType "json" field
  else field.

(** The lines a declaration that is not closed takes with it:
    [fullFieldDef], and the number of lines read after the first. *)
Fixpoint gather (fullFieldDef : string) (braceCount : Z) (following : list string)
  : string * nat :=
  match following with
  | [] => (fullFieldDef, O)
  | next :: more =>
      if (0 <? braceCount)%Z then
        let '(full, read) :=
          gather (fullFieldDef +++ " " +++ Str.trim next)
                 (braceCount
                  + Z.of_nat (Str.count (Ascii.eqb "(") next)
                  - Z.of_nat (Str.count (Ascii.eqb ")") next))%Z
                 more in
        (full, S read)
      else (fullFieldDef, O)
  end.

Definition skipped (line : string) : bool :=
  negb (JS.truthy line) || JS.startsWith "#" line || JS.startsWith "class " line
  || JS.startsWith "def " line
  || JS.startsWith (String Str.dquote (String Str.dquote (String Str.dquote ""))) line.

(** The declaration read at the head of [lines], if any, and the number
    of following lines it takes with it ([i = j - 1]). *)
Definition declarationAt (raw : string) (following : list string)
  : option (string * string * string) * nat :=
  let line := Str.trim raw in
  if skipped line then (None, O)
  else
    match exec fieldRegex line with
    | Some m =>
        let fieldName := default "" (group 1 m) in
        let fieldType := default "" (group 2 m) in
        let fieldArgs := default "" (JS.orElse (group 3 m) (Some "")) in
        if String.eqb fieldName "Meta" || String.eqb fieldType "Meta" then (None, O)
        else (Some (fieldName, fieldType, fieldArgs), O)
    | None =>
        if JS.includes "models." line && JS.includes "(" line then
          let '(fullFieldDef, read) :=
            gather line
                   (Z.of_nat (Str.count (Ascii.eqb "(") line)
                    - Z.of_nat (Str.count (Ascii.eqb ")") line))%Z
                   following in
          match exec multiFieldRegex fullFieldDef with
          | Some m =>
              (Some (default "" (group 1 m), default "" (group 2 m),
                     default "" (JS.orElse (group 3 m) (Some ""))), read)
          | None => (None, O)
          end
        else (None, O)
    end.

(** The loop over the lines: [skip] counts the lines a declaration took
    with it, which the loop passes over. *)
Fixpoint declarations (lines : list string) (skip : nat)
  : list (string * string * string) :=
  match lines with
  | [] => []
  | raw :: following =>
      match skip with
      | S skip' => declarations following skip'
      | O =>
          match declarationAt raw following with
          | (Some d, read) => d :: declarations following read
          | (None, read) => declarations following read
          end
      end
  end.

(** The fields [parseFields] pushes on the model, in order. *)
Definition parseFields (classContent : string) : list DjangoField.t :=
  map (fun '(fieldName, fieldType, fieldArgs) => buildField fieldName fieldType fieldArgs)
      (declarations (Str.split Str.newline classContent) O).

(** *** [findClassEnd] *)

(** The lines the loop of [findClassEnd] visits from index [i], each
    with the index of its first character. *)
Fixpoint linesFrom (i : nat) (pieces : list string) : list (nat * string) :=
  match pieces with
  | [] => []
  | [ EmptyString ] => []
  | piece :: more => (i, piece) :: linesFrom (i + String.length piece + 1) more
  end.

(** [line.search(/\S/)] as the number it is: [-1] when nothing matches. *)
Definition indentOf (line : string) : Z :=
  match search nonSpaceRegex line with
  | Some n => Z.of_nat n
  | None => (-1)%Z
  end.

(** The index of the first character of the line that holds index
    [startIndex]. *)
Fixpoint lineStartBefore (i : nat) (content : string) : nat :=
  match i with
  | O => O
  | S j =>
      match String.get j content with
      | Some c => if Ascii.eqb c Str.newline then i else lineStartBefore j content
      | None => lineStartBefore j content
      end
  end.

Definition findClassEnd (content : string) (startIndex : nat) : nat :=
  let classLineStart := lineStartBefore startIndex content in
  let classLine :=
    match Str.split Str.newline (JS.skip classLineStart content) with
    | first :: _ => first
    | [] => ""
    end in
  let classLineEnd := (classLineStart + String.length classLine)%nat in
  let baseIndent := indentOf classLine in
  let visited :=
    linesFrom (classLineEnd + 1)
              (Str.split Str.newline (JS.skip (classLineEnd + 1) content)) in
  match find (fun '(lineStart, line) =>
                negb (String.eqb (Str.trim line) "")
                && (JS.startsWith "class " (Str.trim line)
                    || JS.startsWith "def " (Str.trim line))
                && (indentOf line <=? baseIndent)%Z) visited with
  | Some (lineStart, _) => lineStart
  | None => String.length content
  end.

(** *** [parseDjangoModels] *)

(** The text without comments and without blank lines. *)
Definition cleanContent (content : string) : string :=
  JS.join (String Str.newline "")
    (List.filter (fun line => (0 <? String.length (Str.trim line))%nat)
       (map (fun line =>
               match JS.indexOf "#" line with
               | Some commentIndex => Str.trimEnd (JS.take commentIndex line)
               | None => line
               end)
            (Str.split Str.newline content))).

(** The automatic primary key. *)
Definition idField : DjangoField.t :=
  DjangoField.mk "id" "integer" false true true None None None None
                 (Some "Auto-generated primary key (Django default)").

(** The text of the class body for one match of [classRegex]. *)
Definition classContentOf (clean : string) (m : found) : string :=
  let classStart := (index m + String.length (matched m))%nat in
  let classEnd := findClassEnd clean classStart in
  Str.substring classStart classEnd clean.

(** The body of the [while] loop for one match of [classRegex]: the
    model, unless the class is skipped. *)
Definition modelOf (clean : string) (m : found) : option DjangoModel.t :=
  let className := default "" (group 1 m) in
  let inheritance := default "" (group 2 m) in
  if negb (JS.includes "models.Model" inheritance) then None
  else
    let classContent := classContentOf clean m in
    let tableName :=
      match exec metaRegex classContent with
      | Some metaMatch =>
          match exec dbTableRegex (default "" (group 1 metaMatch)) with
          | Some dbTableMatch => group 1 dbTableMatch
          | None => None
          end
      | None => None
      end in
    let fields := parseFields classContent in
    let fields :=
      if negb (existsb DjangoField.primaryKey fields) then idField :: fields
      else fields in
    let description :=
      match exec docstringRegex classContent with
      | Some docstringMatch => Str.trim <$> group 1 docstringMatch
      | None => None
      end in
    Some (DjangoModel.mk className tableName fields description).

(** The models, in the order of their classes. *)
Definition parseModels (content : string) : list DjangoModel.t :=
  let clean := cleanContent content in
  omap (modelOf clean) (matchAll classRegex clean).

(** *** [convertDjangoToSchema] *)

(** [model.tableName || snakeCase(model.name)] *)
Definition tableNameOf (model : DjangoModel.t) : string :=
  default (snakeCase (DjangoModel.name model))
          (JS.orElse (DjangoModel.tableName model)
                     (Some (snakeCase (DjangoModel.name model)))).

(** [lookup[key] = model] on an object that starts empty: the entry
    assigned last is the one found. *)
Definition modelLookupOf (models : list DjangoModel.t) : list (string * DjangoModel.t) :=
  fold_left (fun lookup model => (DjangoModel.name model, model) :: lookup) models [].

Definition tableToModelLookupOf (models : list DjangoModel.t)
  : list (string * DjangoModel.t) :=
  fold_left (fun lookup model => (tableNameOf model, model) :: lookup) models [].

(** The unresolved reference a column starts with. *)
Definition placeholder (onDelete : option string) : ForeignKey.t :=
  ForeignKey.mk "" "" (JS.orElse (mapDjangoOnDelete onDelete) (Some "CASCADE"))
                (Some "CASCADE").

Section Convert.

(** [Date.now()] at the start of the conversion and at its end, and the
    two [new Date()] of the result. *)
Variable importId : N.
Variable stamp : N.
Variable createdAt updatedAt : Date.

(** One column; [columnCounter] is the counter before its increment. *)
Definition columnOfField (tableName : string) (field : DjangoField.t)
    (columnCounter : nat) : Column.t :=
  Column.mk
    (tableName +++ "_" +++ DjangoField.name field +++ "_" +++ Str.ofN importId
     +++ "_" +++ JS.ofNat columnCounter)
    (DjangoField.name field)
    (DjangoField.type field)
    (DjangoField.nullable field)
    (DjangoField.primaryKey field)
    (DjangoField.unique field)
    (DjangoField.defaultValue field)
    (match DjangoField.foreignKey field with
     | Some fk => Some (placeholder (Related.onDelete fk))
     | None =>
         match DjangoField.oneToOneField field with
         | Some o2o => Some (placeholder (Related.onDelete o2o))
         | None => None
         end
     end)
    (DjangoField.description field).

Fixpoint columnsOfFields (tableName : string) (fields : list DjangoField.t)
    (columnCounter : nat) : list Column.t :=
  match fields with
  | [] => []
  | field :: more =>
      columnOfField tableName field columnCounter
      :: columnsOfFields tableName more (S columnCounter)
  end.

(** The table of the model at [index]. *)
Definition tableOfModel (model : DjangoModel.t) (index columnCounter : nat) : Table.t :=
  let tableName := tableNameOf model in
  Table.mk tableName tableName
           (Position.mk (Num.ofNat (100 + (index mod 3) * 300))
                        (Num.ofNat (100 + (index / 3) * 250)))
           (columnsOfFields tableName (DjangoModel.fields model) columnCounter)
           (DjangoModel.description model)
           None.

(** First pass. *)
Fixpoint firstPass (models : list DjangoModel.t) (index columnCounter : nat)
  : list Table.t :=
  match models with
  | [] => []
  | model :: more =>
      tableOfModel model index columnCounter
      :: firstPass more (S index) (columnCounter + length (DjangoModel.fields model))
  end.

(** The arrays the second and third pass work on. *)
Record store : Type := mkStore {
  tables : list Table.t;
  relationships : list Relationship.t;
}.

(** [column.foreignKey.tableId = ...; column.foreignKey.columnId = ...]
    on the column at [ci] of the table at [ti]. *)
Definition fillIn (tableId columnId : string) (column : Column.t) : Column.t :=
  Column.mk (Column.id column) (Column.name column) (Column.type column)
            (Column.nullable column) (Column.primaryKey column) (Column.unique column)
            (Column.defaultValue column)
            (match Column.foreignKey column with
             | Some fk =>
                 Some (ForeignKey.mk tableId columnId (ForeignKey.onDelete fk)
                                     (ForeignKey.onUpdate fk))
             | None => None
             end)
            (Column.description column).

Definition alterColumn (ti ci : nat) (f : Column.t -> Column.t) (ts : list Table.t)
  : list Table.t :=
  alter (fun t => Table.mk (Table.id t) (Table.name t) (Table.position t)
                           (alter f ci (Table.columns t))
                           (Table.description t) (Table.color t))
        ti ts.

(** [find(c => c.primaryKey) || find(c => c.name === 'id') || columns[0]] *)
Definition targetColumnOf (targetTable : Table.t) : option Column.t :=
  match find Column.primaryKey (Table.columns targetTable) with
  | Some c => Some c
  | None =>
      match find (fun c => String.eqb (Column.name c) "id") (Table.columns targetTable) with
      | Some c => Some c
      | None => head (Table.columns targetTable)
      end
  end.

(** The table a model name refers to. *)
Definition targetTableOf (modelLookup : list (string * DjangoModel.t))
    (ts : list Table.t) (relatedModelName : string) : option Table.t :=
  match lookup_entry relatedModelName modelLookup with
  | Some relatedDjangoModel =>
      let targetTableName :=
        default (snakeCase relatedModelName)
                (JS.orElse (DjangoModel.tableName relatedDjangoModel)
                           (Some (snakeCase relatedModelName))) in
      find (fun t => String.eqb (Table.name t) targetTableName) ts
  | None => None
  end.

(** The body of the second pass for the column at [ci] of the table at
    [ti]. *)
Definition resolveColumn (modelLookup tableToModelLookup : list (string * DjangoModel.t))
    (st : store) (ti ci : nat) : store :=
  match tables st !! ti with
  | None => st
  | Some table =>
      match Table.columns table !! ci with
      | None => st
      | Some column =>
          match Column.foreignKey column with
          | Some fk =>
              if String.eqb (ForeignKey.tableId fk) "" then
                let djangoModel :=
                  match lookup_entry (Table.name table) tableToModelLookup with
                  | Some m => Some m
                  | None => lookup_entry (pascalCase (Table.name table)) modelLookup
                  end in
                match djangoModel with
                | Some djangoModel =>
                    match find (fun f => String.eqb (DjangoField.name f) (Column.name column))
                               (DjangoModel.fields djangoModel) with
                    | Some djangoField =>
                        let relationship :=
                          match DjangoField.foreignKey djangoField with
                          | Some r => Some r
                          | None => DjangoField.oneToOneField djangoField
                          end in
                        match relationship with
                        | Some relationship =>
                            match targetTableOf modelLookup (tables st)
                                                (Related.model relationship) with
                            | Some targetTable =>
                                match targetColumnOf targetTable with
                                | Some targetColumn =>
                                    let isOneToOne :=
                                      bool_decide
                                        (is_Some (DjangoField.oneToOneField djangoField)) in
                                    mkStore
                                      (alterColumn ti ci
                                         (fillIn (Table.id targetTable)
                                                 (Column.id targetColumn))
                                         (tables st))
                                      (relationships st ++
                                       [ Relationship.mk
                                           ("rel_" +++ Table.id table +++ "_"
                                            +++ Column.name column +++ "_"
                                            +++ Table.id targetTable +++ "_"
                                            +++ Column.name targetColumn)
                                           (Table.id table)
                                           (Column.id column)
                                           (Table.id targetTable)
                                           (Column.id targetColumn)
                                           (if isOneToOne then "one-to-one"
                                            else "many-to-one")
                                           None
                                           (JS.orElse
                                              (ForeignKey.onDelete fk)
                                              (match DjangoField.oneToOneField djangoField with
                                               | Some o2o => Related.onDelete o2o
                                               | None => None
                                               end))
                                           (Some "CASCADE") ])
                                | None => st
                                end
                            | None => st
                            end
                        | None => st
                        end
                    | None => st
                    end
                | None => st
                end
              else st
          | None => st
          end
      end
  end.

(** Second pass: every column of every table, in order. *)
Definition secondPass (modelLookup tableToModelLookup : list (string * DjangoModel.t))
    (st : store) : store :=
  fold_left
    (fun st ti =>
       fold_left (fun st ci => resolveColumn modelLookup tableToModelLookup st ti ci)
                 (List.seq 0 (length (default [] (Table.columns <$> tables st !! ti))))
                 st)
    (List.seq 0 (length (tables st))) st.

(** The body of the third pass for one field of the model of a table. *)
Definition manyToManyOf (modelLookup : list (string * DjangoModel.t)) (ts : list Table.t)
    (table : Table.t) (djangoField : DjangoField.t) : list Relationship.t :=
  match DjangoField.manyToManyField djangoField with
  | Some m2m =>
      match targetTableOf modelLookup ts (ManyToMany.model m2m) with
      | Some targetTable =>
          [ Relationship.mk
              ("m2m_" +++ Table.id table +++ "_" +++ Table.id targetTable +++ "_"
               +++ DjangoField.name djangoField)
              (Table.id table) "" (Table.id targetTable) ""
              "many-to-many" (Some (DjangoField.name djangoField)) None None ]
      | None => []
      end
  | None => []
  end.

(** Third pass. *)
Definition thirdPass (modelLookup tableToModelLookup : list (string * DjangoModel.t))
    (st : store) : store :=
  mkStore (tables st)
    (relationships st ++
     flat_map (fun table =>
                 match lookup_entry (Table.name table) tableToModelLookup with
                 | Some djangoModel =>
                     flat_map (manyToManyOf modelLookup (tables st) table)
                              (DjangoModel.fields djangoModel)
                 | None => []
                 end)
              (tables st)).

Definition convertDjangoToSchema (models : list DjangoModel.t) : Schema.t :=
  let modelLookup := modelLookupOf models in
  let tableToModelLookup := tableToModelLookupOf models in
  let st := mkStore (firstPass models 0 0) [] in
  let st := secondPass modelLookup tableToModelLookup st in
  let st := thirdPass modelLookup tableToModelLookup st in
  Schema.mk ("imported_" +++ Str.ofN stamp)
            "Imported Django Schema"
            (Some "Schema imported from Django models")
            (tables st) (relationships st)
            createdAt updatedAt (Num.Fin 1).

Definition parseDjangoModels (content : string) : Schema.t :=
  convertDjangoToSchema (parseModels content).

End Convert.

End DjangoImporter.

(** ** [lib/layout/auto-layout.ts] *)

Module AutoLayout.

(** What a call does when loops are in play: it returns, it throws, or
    it never comes back. *)
Inductive completion (A : Type) : Type :=
| Returns (value : A)
| Throws (message : string)
| Hangs.
Arguments Returns {A} value.
Arguments Throws {A} message.
Arguments Hangs {A}.

Record LayoutOptions : Type := mkOptions {
  algorithm : string;
  spacing : Position.t;
  centerOffset : Position.t;
  iterations : option number;
}.

(** [Partial<LayoutOptions>] *)
Record PartialOptions : Type := mkPartial {
  algorithm' : option string;
  spacing' : option Position.t;
  centerOffset' : option Position.t;
  iterations' : option number;
}.

Definition DEFAULT_OPTIONS : LayoutOptions :=
  mkOptions "force-directed"
            (Position.mk (Num.ofZ 350) (Num.ofZ 280))
            (Position.mk (Num.ofZ 400) (Num.ofZ 300))
            (Some (Num.ofZ 300)).

(** [{ ...DEFAULT_OPTIONS, ...options }] *)
Definition withDefaults (options : PartialOptions) : LayoutOptions :=
  mkOptions (default (algorithm DEFAULT_OPTIONS) (algorithm' options))
            (default (spacing DEFAULT_OPTIONS) (spacing' options))
            (default (centerOffset DEFAULT_OPTIONS) (centerOffset' options))
            (match iterations' options with
             | Some n => Some n
             | None => iterations DEFAULT_OPTIONS
             end).

(** [{ ...table, position }] *)
Definition withPosition (table : Table.t) (x y : number) : Table.t :=
  Table.mk (Table.id table) (Table.name table) (Position.mk x y)
           (Table.columns table) (Table.description table) (Table.color table).

Record GraphNode : Type := mkNode {
  id : string;
  table : Table.t;
  x : number;
  y : number;
  vx : number;
  vy : number;
  fx : option number;
  fy : option number;
}.

(** [[array.map((item, index) => f(item, index))]] *)
Fixpoint mapi {A B : Type} (f : A -> nat -> B) (l : list A) (index : nat) : list B :=
  match l with
  | [] => []
  | a :: rest => f a index :: mapi f rest (S index)
  end.

(** A [Map] keyed by strings, and a [Set] of strings, in the order of
    insertion. *)
Fixpoint mapSet {V : Type} (key : string) (v : V) (m : list (string * V))
  : list (string * V) :=
  match m with
  | [] => [ (key, v) ]
  | (k, w) :: rest =>
      if String.eqb k key then (k, v) :: rest else (k, w) :: mapSet key v rest
  end.

Definition mapGet {V : Type} (key : string) (m : list (string * V)) : option V :=
  lookup_entry key m.

Definition setHas (key : string) (s : list string) : bool :=
  existsb (String.eqb key) s.

Definition setAdd (key : string) (s : list string) : list string :=
  if setHas key s then s else s ++ [ key ].

(** [array.indexOf(key)] as the number it is. *)
Fixpoint indexOf (key : string) (l : list string) : Z :=
  match l with
  | [] => (-1)%Z
  | k :: rest =>
      if String.eqb k key then 0%Z
      else match indexOf key rest with
           | Zneg _ => (-1)%Z
           | i => (i + 1)%Z
           end
  end.

(** [nodes.findIndex(n => n.id === key)], the place of what [find]
    returns. *)
Fixpoint findNode (key : string) (nodes : list GraphNode) : option nat :=
  match nodes with
  | [] => None
  | n :: rest =>
      if String.eqb (id n) key then Some O else S <$> findNode key rest
  end.

Section Layout.

(** The platform: [Math.sqrt], [Math.cos], [Math.sin], [Math.atan2], and
    the successive results of [Math.random()]. *)
Variable sqrt cos sin : number -> number.
Variable atan2 : number -> number -> number.
Variable random : nat -> number.

(** *** Grid *)

Definition gridLayout (tables : list Table.t) (options : LayoutOptions) : list Table.t :=
  let columns := Num.ceil (sqrt (Num.ofNat (length tables))) in
  mapi (fun table index =>
          let row := Num.floor (Num.div (Num.ofNat index) columns) in
          let col := Num.rem (Num.ofNat index) columns in
          withPosition table
            (Num.add (Position.x (centerOffset options))
                     (Num.mul col (Position.x (spacing options))))
            (Num.add (Position.y (centerOffset options))
                     (Num.mul row (Position.y (spacing options)))))
       tables 0.

(** *** Hierarchical *)

(** The state of the levelling: the in-degrees, the visited set, the
    queue and the levels. *)
Record levelling : Type := mkLevelling {
  inDegree : list (string * Z);
  visited : list string;
  queue : list string;
  levels : list (list string);
}.

(** [adjacencyList] and [inDegree] after the two [forEach]. *)
Definition initialGraph (tables : list Table.t) (relationships : list Relationship.t)
  : list (string * list string) * list (string * Z) :=
  let start :=
    fold_left (fun '(adjacency, degrees) table =>
                 (mapSet (Table.id table) [] adjacency,
                  mapSet (Table.id table) 0%Z degrees))
              tables ([], []) in
  fold_left (fun '(adjacency, degrees) rel =>
               match mapGet (Relationship.sourceTableId rel) adjacency with
               | Some targets =>
                   (mapSet (Relationship.sourceTableId rel)
                           (setAdd (Relationship.targetTableId rel) targets) adjacency,
                    mapSet (Relationship.targetTableId rel)
                           (default 0%Z (mapGet (Relationship.targetTableId rel) degrees)
                            + 1)%Z
                           degrees)
               | None => (adjacency, degrees)
               end)
            relationships start.

(** The body of [neighbors.forEach]. *)
Definition relax (st : levelling) (neighbor : string) : levelling :=
  let degree := (default 0%Z (mapGet neighbor (inDegree st)) - 1)%Z in
  let degrees := mapSet neighbor degree (inDegree st) in
  if (degree =? 0)%Z && negb (setHas neighbor (visited st))
  then mkLevelling degrees (visited st) (queue st ++ [ neighbor ]) (levels st)
  else mkLevelling degrees (visited st) (queue st) (levels st).

(** The body of [currentLevel.forEach]. *)
Definition visit (adjacency : list (string * list string)) (st : levelling)
    (nodeId : string) : levelling :=
  if setHas nodeId (visited st) then st
  else
    let st := mkLevelling (inDegree st) (setAdd nodeId (visited st)) (queue st)
                          (levels st) in
    match mapGet nodeId adjacency with
    | Some neighbors => fold_left relax neighbors st
    | None => st
    end.

(** One turn of the [while] loop. *)
Definition levelStep (adjacency : list (string * list string)) (st : levelling)
  : levelling :=
  let currentLevel := queue st in
  fold_left (visit adjacency) currentLevel
            (mkLevelling (inDegree st) (visited st) [] (levels st ++ [ currentLevel ])).

(** The [while] loop, for at most [fuel] turns. *)
Fixpoint levelLoop (fuel : nat) (adjacency : list (string * list string)) (st : levelling)
  : option levelling :=
  match queue st with
  | [] => Some st
  | _ :: _ =>
      match fuel with
      | O => None
      | S fuel' => levelLoop fuel' adjacency (levelStep adjacency st)
      end
  end.

(** All the ids a node of the graph can carry, and a number of turns
    the loop cannot exceed: twice their number and two. *)
Definition universe (tables : list Table.t) (relationships : list Relationship.t)
  : list string :=
  map Table.id tables ++ map Relationship.targetTableId relationships.

Definition turns (tables : list Table.t) (relationships : list Relationship.t) : nat :=
  2 * length (universe tables relationships) + 2.

(** [levelMap]: the level set last for a node is the one found. *)
Definition levelMapOf (levels : list (list string)) : list (string * nat) :=
  fold_left (fun m '(level, index) =>
               fold_left (fun m nodeId => mapSet nodeId index m) level m)
            (combine levels (List.seq 0 (length levels))) [].

(** The last [tables.map]: [levels[level]] may be missing, and then
    reading its [indexOf] throws. *)
Fixpoint placeInLevels (options : LayoutOptions) (levels : list (list string))
    (levelMap : list (string * nat)) (ts : list Table.t) : completion (list Table.t) :=
  match ts with
  | [] => Returns []
  | table :: rest =>
      let level := default O (mapGet (Table.id table) levelMap) in
      match nth_error levels level with
      | None => Throws "Cannot read properties of undefined (reading 'indexOf')"
      | Some levelTables =>
          let indexInLevel := Num.ofZ (indexOf (Table.id table) levelTables) in
          let levelWidth := Num.ofNat (length levelTables) in
          let placed :=
            withPosition table
              (Num.add (Position.x (centerOffset options))
                 (Num.mul (Num.sub indexInLevel (Num.div levelWidth (Num.ofZ 2)))
                          (Position.x (spacing options))))
              (Num.add (Position.y (centerOffset options))
                 (Num.mul (Num.ofNat level) (Position.y (spacing options)))) in
          match placeInLevels options levels levelMap rest with
          | Returns others => Returns (placed :: others)
          | Throws message => Throws message
          | Hangs => Hangs
          end
      end
  end.

(** The queue the loop starts with: the tables without incoming
    edges. *)
Definition rootsOf (tables : list Table.t) (degrees : list (string * Z)) : list string :=
  map Table.id
      (List.filter (fun t => (default 0%Z (mapGet (Table.id t) degrees) =? 0)%Z) tables).

(** The levels after the loop: the nodes left over make one more. *)
Definition withRemaining (tables : list Table.t) (st : levelling) : list (list string) :=
  let remainingNodes :=
    List.filter (fun t => negb (setHas (Table.id t) (visited st))) tables in
  if (0 <? length remainingNodes)%nat
  then levels st ++ [ map Table.id remainingNodes ] else levels st.

Definition hierarchicalLayout (tables : list Table.t)
    (relationships : list Relationship.t) (options : LayoutOptions)
  : completion (list Table.t) :=
  let adjacency := fst (initialGraph tables relationships) in
  let degrees := snd (initialGraph tables relationships) in
  match levelLoop (turns tables relationships) adjacency
                  (mkLevelling degrees [] (rootsOf tables degrees) []) with
  | None => Hangs
  | Some st =>
      let levels := withRemaining tables st in
      placeInLevels options levels (levelMapOf levels) tables
  end.

(** *** Circular *)

Definition circularLayout (tables : list Table.t) (options : LayoutOptions)
  : list Table.t :=
  let radius :=
    Num.div (Num.mul (Num.min (Position.x (spacing options))
                              (Position.y (spacing options)))
                     (sqrt (Num.ofNat (length tables))))
            (Num.mul (Num.ofZ 2) Num.PI) in
  let centerX := Position.x (centerOffset options) in
  let centerY := Position.y (centerOffset options) in
  mapi (fun table index =>
          let angle :=
            Num.sub (Num.div (Num.mul (Num.mul (Num.ofZ 2) Num.PI) (Num.ofNat index))
                             (Num.ofNat (length tables)))
                    (Num.div Num.PI (Num.ofZ 2)) in
          withPosition table
            (Num.round (Num.add centerX (Num.mul radius (cos angle))))
            (Num.round (Num.add centerY (Num.mul radius (sin angle)))))
       tables 0.

(** *** Force-directed *)

(** [a || b] on numbers. *)
Definition orNumber (a b : number) : number := if Num.truthy a then a else b.

(** [options.iterations || 300] *)
Definition iterationsOf (options : LayoutOptions) : number :=
  match iterations options with
  | Some n => orNumber n (Num.ofZ 300)
  | None => Num.ofZ 300
  end.

(** The number of turns of [for (iter = 0; iter < iterations; iter++)];
    [None] when the loop has no end. *)
Definition turnsOf (iterations : number) : option nat :=
  match iterations with
  | Num.Fin q => Some (Z.to_nat (Qceiling q))
  | Num.NaN => Some O
  | Num.Infinity true => Some O
  | Num.Infinity false => None
  end.

Definition addVelocity (dvx dvy : number) (n : GraphNode) : GraphNode :=
  mkNode (id n) (table n) (x n) (y n) (Num.add (vx n) dvx) (Num.add (vy n) dvy)
         (fx n) (fy n).

Definition subVelocity (dvx dvy : number) (n : GraphNode) : GraphNode :=
  mkNode (id n) (table n) (x n) (y n) (Num.sub (vx n) dvx) (Num.sub (vy n) dvy)
         (fx n) (fy n).

(** [Math.sqrt(dx * dx + dy * dy) || 1] *)
Definition distance (dx dy : number) : number :=
  orNumber (sqrt (Num.add (Num.mul dx dx) (Num.mul dy dy))) (Num.ofZ 1).

(** The body of the inner loop of the repulsion, for [nodes[i]] and
    [nodes[j]]. *)
Definition repel (k : number) (nodes : list GraphNode) (i j : nat) : list GraphNode :=
  match nodes !! i, nodes !! j with
  | Some ni, Some nj =>
      let dx := Num.sub (x nj) (x ni) in
      let dy := Num.sub (y nj) (y ni) in
      let dist := distance dx dy in
      if Num.lt dist (Num.mul k (Num.ofZ 3)) then
        let force := Num.div (Num.mul k k) dist in
        let fx := Num.mul (Num.div dx dist) force in
        let fy := Num.mul (Num.div dy dist) force in
        alter (addVelocity fx fy) j (alter (subVelocity fx fy) i nodes)
      else nodes
  | _, _ => nodes
  end.

(** The two nested loops of the repulsion. *)
Definition repelAll (k : number) (nodes : list GraphNode) : list GraphNode :=
  fold_left
    (fun nodes i =>
       fold_left (fun nodes j => repel k nodes i j)
                 (List.seq (i + 1) (length nodes - (i + 1))) nodes)
    (List.seq 0 (length nodes)) nodes.

(** The body of [edges.forEach]: the two nodes are found by id, and may
    be one and the same. *)
Definition attract (k : number) (nodes : list GraphNode) (edge : Relationship.t)
  : list GraphNode :=
  match findNode (Relationship.sourceTableId edge) nodes,
        findNode (Relationship.targetTableId edge) nodes with
  | Some si, Some ti =>
      match nodes !! si, nodes !! ti with
      | Some sourceNode, Some targetNode =>
          let dx := Num.sub (x targetNode) (x sourceNode) in
          let dy := Num.sub (y targetNode) (y sourceNode) in
          let dist := distance dx dy in
          let force := Num.div (Num.mul dist dist) k in
          let fx := Num.mul (Num.div dx dist) force in
          let fy := Num.mul (Num.div dy dist) force in
          alter (subVelocity fx fy) ti (alter (addVelocity fx fy) si nodes)
      | _, _ => nodes
      end
  | _, _ => nodes
  end.

(** The body of the last [nodes.forEach] of a turn. *)
Definition move (t : number) (n : GraphNode) : GraphNode :=
  match fx n with
  | None =>
      let displacement :=
        Num.min (sqrt (Num.add (Num.mul (vx n) (vx n)) (Num.mul (vy n) (vy n)))) t in
      let angle := atan2 (vy n) (vx n) in
      mkNode (id n) (table n)
             (Num.add (x n) (Num.mul (cos angle) displacement))
             (Num.add (y n) (Num.mul (sin angle) displacement))
             (Num.ofZ 0) (Num.ofZ 0) (fx n) (fy n)
  | Some _ =>
      mkNode (id n) (table n) (x n) (y n) (Num.ofZ 0) (Num.ofZ 0) (fx n) (fy n)
  end.

(** One turn of the simulation. *)
Definition turn (k temperature iterations : number) (edges : list Relationship.t)
    (nodes : list GraphNode) (iter : nat) : list GraphNode :=
  let t :=
    Num.mul temperature
            (Num.sub (Num.ofZ 1) (Num.div (Num.ofNat iter) iterations)) in
  let nodes := repelAll k nodes in
  let nodes := fold_left (attract k) edges nodes in
  map (move t) nodes.

(** [nodes.reduce((sum, node) => sum + node.x, 0)] *)
Definition sumOf (f : GraphNode -> number) (nodes : list GraphNode) : number :=
  fold_left (fun sum node => Num.add sum (f node)) nodes (Num.ofZ 0).

Definition forceDirectedLayout (tables : list Table.t)
    (relationships : list Relationship.t) (options : LayoutOptions)
  : completion (list Table.t) :=
  let iterations := iterationsOf options in
  let k :=
    sqrt (Num.div (Num.mul (Position.x (spacing options)) (Position.y (spacing options)))
                  (Num.ofNat (length tables))) in
  let temperature :=
    Num.div (Num.max (Position.x (spacing options)) (Position.y (spacing options)))
            (Num.ofZ 10) in
  let nodes :=
    mapi (fun table index =>
            mkNode (Table.id table) table
                   (Num.mul (Num.mul (random (2 * index))
                                     (Position.x (centerOffset options)))
                            (Num.ofZ 2))
                   (Num.mul (Num.mul (random (2 * index + 1))
                                     (Position.y (centerOffset options)))
                            (Num.ofZ 2))
                   (Num.ofZ 0) (Num.ofZ 0) None None)
         tables 0 in
  match turnsOf iterations with
  | None => Hangs
  | Some count =>
      let nodes :=
        fold_left (turn k temperature iterations relationships)
                  (List.seq 0 count) nodes in
      let centerX := Position.x (centerOffset options) in
      let centerY := Position.y (centerOffset options) in
      let avgX := Num.div (sumOf x nodes) (Num.ofNat (length nodes)) in
      let avgY := Num.div (sumOf y nodes) (Num.ofNat (length nodes)) in
      let offsetX := Num.sub centerX avgX in
      let offsetY := Num.sub centerY avgY in
      Returns
        (map (fun table =>
                match findNode (Table.id table) nodes with
                | Some at_ =>
                    match nodes !! at_ with
                    | Some node =>
                        withPosition table
                          (Num.round (Num.add (x node) offsetX))
                          (Num.round (Num.add (y node) offsetY))
                    | None => table
                    end
                | None => table
                end)
             tables)
  end.

(** *** [layoutTables] *)

Definition layoutTables (tables : list Table.t) (relationships : list Relationship.t)
    (options : PartialOptions) : completion (list Table.t) :=
  let opts := withDefaults options in
  if String.eqb (algorithm opts) "grid" then Returns (gridLayout tables opts)
  else if String.eqb (algorithm opts) "hierarchical"
  then hierarchicalLayout tables relationships opts
  else if String.eqb (algorithm opts) "force-directed"
  then forceDirectedLayout tables relationships opts
  else if String.eqb (algorithm opts) "circular" then Returns (circularLayout tables opts)
  else forceDirectedLayout tables relationships opts.

End Layout.

End AutoLayout.

(** ** [lib/layout/auto-layout.ts]: the recommendation *)

Module LayoutAdvice.
Import AutoLayout.


(** *** [calculateMaxDepth] *)


(** What the search has seen: the [visited] set and [maxDepth]. *)
Record search : Type := mkSearch {
  seen : list string;
  maxDepth : nat;
}.





(** *** [hasClearHierarchy] *)




(** *** [recommendLayout] *)


End LayoutAdvice.

From Stdlib Require DecimalNat.

(** ** More of [constants/schema.ts] *)



(** ** [ExportManager.import] *)

Module ImportManager.

Section Dispatch.

(** The schema an importer returns, and the one importer the dispatcher
    hands the content to. *)
Variable content schema : Type.
Variable importFromJSON : content -> outcome schema.

(** The [switch] of [import]: the type of [format] admits ['json']
    only, and the [default] branch takes whatever else arrives. *)
Definition import (text : content) (format : string) : outcome schema :=
  if String.eqb format "json" then importFromJSON text
  else Thrown ("Unsupported import format: " +++ format).

End Dispatch.

End ImportManager.

(** ** The Prisma exporter: [exportToPrisma] *)

Module PrismaSchema.
Import RegExp PrismaExporter.

Definition dquote : string := SqlExporter.dquote.
Definition newline : string := SqlExporter.newline.

(** [name.replace(/_([a-z])/g, (match, letter) => letter.toUpperCase())] *)
Definition formatPrismaFieldName (name : string) : string :=
  replaceAll (Seq (Chr (only "_")) (Group 1 (Chr JS.isLower)))
             (fun m => JS.toUpperCase (default "" (group 1 m))) name.

(** [name.split(/[_\s-]/).map(word => ...).join('')] *)
Definition formatPrismaModelName (name : string) : string :=
  JS.join ""
    (map (fun word => JS.toUpperCase (JS.take 1 word) +++ JS.toLowerCase (JS.skip 1 word))
         (Str.splitOn (fun c => Ascii.eqb c "_"%char || space c || Ascii.eqb c "-"%char)
                      name)).

(** The lines pushed before the models. *)
Definition header : list string :=
  [ "// This is your Prisma schema file,";
    "// learn more about it in the docs: https://pris.ly/d/prisma-schema";
    "";
    "generator client {";
    "  provider = " +++ dquote +++ "prisma-client-js" +++ dquote;
    "}";
    "";
    "datasource db {";
    "  provider = " +++ dquote +++ "postgresql" +++ dquote
      +++ " // Change this to your database provider";
    "  url      = env(" +++ dquote +++ "DATABASE_URL" +++ dquote +++ ")";
    "}";
    "" ].

Section Exporter.

(** [isNaN(Number(value))], the platform's numeric reading of a string. *)
Variable isNaN_Number : string -> bool.

(** [column.defaultValue] as a condition. *)
Definition hasDefault (column : Column.t) : bool := JS.truthyOpt (Column.defaultValue column).

(** The modifier a default value that is not empty gives. *)
Definition defaultModifier (value : string) : string :=
  if String.eqb (JS.toLowerCase value) "uuid_generate_v4()" then "@default(uuid())"
  else if JS.includes "now" (JS.toLowerCase value)
          || JS.includes "current_timestamp" (JS.toLowerCase value)
  then "@default(now())"
  else if negb (isNaN_Number value) then "@default(" +++ value +++ ")"
  else if String.eqb (JS.toLowerCase value) "true"
          || String.eqb (JS.toLowerCase value) "false"
  then "@default(" +++ value +++ ")"
  else "@default(" +++ dquote +++ value +++ dquote +++ ")".

(** The [modifiers] array of a column, in the order of the pushes. *)
Definition modifiersOf (table : Table.t) (column : Column.t) : list string :=
  (if negb (Column.nullable column)
   then (if JS.includes "timestamp" (Column.type column) && negb (hasDefault column)
         then [ "@default(now())" ] else [])
   else [])
  ++ (if Column.primaryKey column
      then (if (length (List.filter Column.primaryKey (Table.columns table)) =? 1)%nat
            then [ "@id" ] else [])
      else [])
  ++ (if Column.unique column then [ "@unique" ] else [])
  ++ (match Column.defaultValue column with
      | Some value => if JS.truthy value then [ defaultModifier value ] else []
      | None => []
      end).

(** [fieldDef] when it is pushed. *)
Definition fieldDef (table : Table.t) (column : Column.t) : string :=
  let fieldName := formatPrismaFieldName (Column.name column) in
  let prismaType := mapPrismaType (Column.type column) in
  let fieldDef := "  " +++ fieldName +++ " " +++ SqlExporter.interpolate prismaType in
  let modifiers := modifiersOf table column in
  let fieldDef := if negb (Column.nullable column) then fieldDef else fieldDef +++ "?" in
  let fieldDef :=
    if Column.nullable column && negb (hasDefault column) then fieldDef +++ "?"
    else fieldDef in
  if (0 <? length modifiers)%nat
  then fieldDef +++ " " +++ JS.join " " (List.filter JS.truthy modifiers)
  else fieldDef.

(** The lines of one column. *)
Definition columnLines (table : Table.t) (column : Column.t) : list string :=
  [ fieldDef table column ]
  ++ (match Column.description column with
      | Some d => if JS.truthy d then [ "  /// " +++ d ] else []
      | None => []
      end).

(** The line of a composite primary key. *)
Definition compositeKeyLines (table : Table.t) : list string :=
  let primaryKeyColumns := List.filter Column.primaryKey (Table.columns table) in
  if (1 <? length primaryKeyColumns)%nat
  then [ "  @@id(["
         +++ JS.join ", " (map (fun c => formatPrismaFieldName (Column.name c))
                               primaryKeyColumns)
         +++ "])" ]
  else [].

(** [relationOptions] and what it appends to the last line. *)
Definition relationOptions (onDelete onUpdate : option string) : list string :=
  (match onDelete with
   | Some a => if JS.truthy a && negb (String.eqb a "NO ACTION")
               then [ "onDelete: " +++ a ] else []
   | None => []
   end)
  ++ (match onUpdate with
      | Some a => if JS.truthy a && negb (String.eqb a "NO ACTION")
                  then [ "onUpdate: " +++ a ] else []
      | None => []
      end).

Definition closing (options : list string) : string :=
  if (0 <? length options)%nat then ", " +++ JS.join ", " options +++ ")" else ")".

(** The line of the relation of one column that holds a key. *)
Definition keyLines (tables : list Table.t) (column : Column.t) : list string :=
  match Column.foreignKey column with
  | None => []
  | Some fk =>
      match find (fun t => String.eqb (Table.id t) (ForeignKey.tableId fk)) tables with
      | None => []
      | Some targetTable =>
          let targetModelName := formatPrismaModelName (Table.name targetTable) in
          let fieldName := formatPrismaFieldName (Column.name column) in
          let targetFieldName :=
            formatPrismaFieldName
              (default "id"
                 (JS.orElse
                    (Column.name <$>
                     find (fun c => String.eqb (Column.id c) (ForeignKey.columnId fk))
                          (Table.columns targetTable))
                    (Some "id"))) in
          let relation :=
            "? @relation(fields: [" +++ fieldName +++ "], references: ["
            +++ targetFieldName +++ "]" in
          [ (if negb (String.eqb fieldName (JS.toLowerCase targetModelName))
             then "  " +++ JS.toLowerCase targetModelName +++ " " +++ targetModelName
                  +++ relation
             else "  " +++ targetModelName +++ "Relation " +++ targetModelName
                  +++ relation)
            +++ closing (relationOptions (ForeignKey.onDelete fk) (ForeignKey.onUpdate fk)) ]
      end
  end.

(** The line of one incoming relationship.  The name of the relation
    is [relationship.name || sourceModelName + targetModelName], and
    [targetModelName] is not declared where this is evaluated: reading
    it throws a [ReferenceError]. *)
Definition reverseLines (tables : list Table.t) (table : Table.t)
    (relationship : Relationship.t) : outcome (list string) :=
  match find (fun t => String.eqb (Table.id t) (Relationship.sourceTableId relationship))
             tables with
  | None => Returned []
  | Some sourceTable =>
      let sourceModelName := formatPrismaModelName (Table.name sourceTable) in
      match find (fun c => String.eqb (Column.id c)
                                      (Relationship.sourceColumnId relationship))
                 (Table.columns sourceTable),
            find (fun c => String.eqb (Column.id c)
                                      (Relationship.targetColumnId relationship))
                 (Table.columns table) with
      | Some sourceColumn, Some targetColumn =>
          let sourceFieldName := formatPrismaFieldName (Column.name sourceColumn) in
          let targetFieldName := formatPrismaFieldName (Column.name targetColumn) in
          let reverseFieldName :=
            if String.eqb (Relationship.type relationship) "one-to-many"
            then JS.toLowerCase sourceModelName +++ "s"
            else JS.toLowerCase sourceModelName in
          let existingForeignKey :=
            match Column.foreignKey sourceColumn with
            | Some fk => String.eqb (ForeignKey.tableId fk) (Table.id table)
            | None => false
            end in
          if negb existingForeignKey then
            match Relationship.name relationship with
            | Some name =>
                if JS.truthy name then
                  Returned
                    [ "  " +++ reverseFieldName +++ " " +++ sourceModelName
                      +++ "[] @relation(" +++ dquote +++ name +++ dquote
                      +++ ", fields: [" +++ targetFieldName +++ "], references: ["
                      +++ sourceFieldName +++ "]"
                      +++ closing (relationOptions (Relationship.onDelete relationship)
                                                   (Relationship.onUpdate relationship)) ]
                else Thrown "targetModelName is not defined"
            | None => Thrown "targetModelName is not defined"
            end
          else Returned []
      | _, _ => Returned []
      end
  end.

(** The lines of the reverse relations of one table, one relationship
    after the other; the first that throws ends the export. *)
Fixpoint reverseAll (tables : list Table.t) (table : Table.t)
    (incoming : list Relationship.t) : outcome (list string) :=
  match incoming with
  | [] => Returned []
  | relationship :: more =>
      match reverseLines tables table relationship with
      | Returned lines =>
          match reverseAll tables table more with
          | Returned others => Returned (lines ++ others)
          | Thrown message => Thrown message
          end
      | Thrown message => Thrown message
      end
  end.

(** The lines of one model. *)
Definition modelLines (schema : Schema.t) (table : Table.t) : outcome (list string) :=
  let modelName := formatPrismaModelName (Table.name table) in
  let incomingRelationships :=
    List.filter (fun r => String.eqb (Relationship.targetTableId r) (Table.id table))
                (Schema.relationships schema) in
  match reverseAll (Schema.tables schema) table incomingRelationships with
  | Thrown message => Thrown message
  | Returned reverse =>
      Returned
        ([ "model " +++ modelName +++ " {" ]
         ++ flat_map (columnLines table) (Table.columns table)
         ++ compositeKeyLines table
         ++ flat_map (keyLines (Schema.tables schema))
                     (List.filter (fun c => bool_decide (is_Some (Column.foreignKey c)))
                                  (Table.columns table))
         ++ reverse
         ++ (match Table.description table with
             | Some d => if JS.truthy d then [ "  /// " +++ d ] else []
             | None => []
             end)
         ++ (if negb (String.eqb (formatPrismaModelName (Table.name table))
                                 (Table.name table))
             then [ "  @@map(" +++ dquote +++ Table.name table +++ dquote +++ ")" ]
             else [])
         ++ [ "}"; "" ])
  end.

(** The models, one table after the other; the first that throws ends
    the export. *)
Fixpoint modelsOf (schema : Schema.t) (tables : list Table.t) : outcome (list string) :=
  match tables with
  | [] => Returned []
  | table :: more =>
      match modelLines schema table with
      | Returned lines =>
          match modelsOf schema more with
          | Returned others => Returned (lines ++ others)
          | Thrown message => Thrown message
          end
      | Thrown message => Thrown message
      end
  end.

Definition exportToPrisma (schema : Schema.t) : outcome string :=
  match modelsOf schema (Schema.tables schema) with
  | Returned models => Returned (JS.join newline (header ++ models))
  | Thrown message => Thrown message
  end.

End Exporter.

End PrismaSchema.

(** ** Vocabulary of the statements *)

Module SpecTerms.
Import SqlExporter.












End SpecTerms.

(** ** Vocabulary of the statements on the JSON codec *)

Module JsonTerms.
Import JsonExporter.

(** The objects that typed records are at run time, with the
    properties in the order the importer writes them. *)
Definition foreignKeyValue (fk : ForeignKey.t) : value :=
  VObj [ ("tableId", VStr (ForeignKey.tableId fk));
         ("columnId", VStr (ForeignKey.columnId fk));
         ("onDelete", optStr (ForeignKey.onDelete fk));
         ("onUpdate", optStr (ForeignKey.onUpdate fk)) ].

Definition columnValue (c : Column.t) : value :=
  VObj [ ("id", VStr (Column.id c)); ("name", VStr (Column.name c));
         ("type", VStr (Column.type c));
         ("nullable", VBool (Column.nullable c));
         ("primaryKey", VBool (Column.primaryKey c));
         ("unique", VBool (Column.unique c));
         ("defaultValue", optStr (Column.defaultValue c));
         ("description", optStr (Column.description c));
         ("foreignKey", match Column.foreignKey c with
                        | Some fk => foreignKeyValue fk
                        | None => VUndefined
                        end) ].

Definition positionValue (p : Position.t) : value :=
  VObj [ ("x", VNum (Position.x p)); ("y", VNum (Position.y p)) ].

Definition tableValue (t : Table.t) : value :=
  VObj ([ ("id", VStr (Table.id t)); ("name", VStr (Table.name t));
          ("position", positionValue (Table.position t));
          ("description", optStr (Table.description t));
          ("columns", VArr (map columnValue (Table.columns t))) ]
        ++ match Table.color t with
           | Some c => [ ("color", VStr c) ]
           | None => []
           end).

Definition relationshipValue (r : Relationship.t) : value :=
  VObj [ ("id", VStr (Relationship.id r));
         ("name", optStr (Relationship.name r));
         ("sourceTableId", VStr (Relationship.sourceTableId r));
         ("sourceColumnId", VStr (Relationship.sourceColumnId r));
         ("targetTableId", VStr (Relationship.targetTableId r));
         ("targetColumnId", VStr (Relationship.targetColumnId r));
         ("type", VStr (Relationship.type r));
         ("onDelete", optStr (Relationship.onDelete r));
         ("onUpdate", optStr (Relationship.onUpdate r)) ].

Definition schemaValue (s : Schema.t) : value :=
  VObj [ ("id", VStr (Schema.id s)); ("name", VStr (Schema.name s));
         ("description", optStr (Schema.description s));
         ("tables", VArr (map tableValue (Schema.tables s)));
         ("relationships", VArr (map relationshipValue (Schema.relationships s)));
         ("createdAt", VDate (Schema.createdAt s));
         ("updatedAt", VDate (Schema.updatedAt s));
         ("version", VNum (Schema.version s)) ].

(** What the codec can carry of a table: a finite position; the
    colour of a table is not written. *)
Definition tableRepresentable (t : Table.t) : Prop :=
  Table.color t = None
  /\ Num.isFinite (Position.x (Table.position t)) = true
  /\ Num.isFinite (Position.y (Table.position t)) = true.

Definition validDate (d : Date) : Prop := exists t, d = TimeValue t.

(** What the codec can carry of a schema: a name that is not empty
    (the importer replaces an empty one by its default), valid dates,
    and representable tables. *)
Definition representable (s : Schema.t) : Prop :=
  Schema.name s <> ""
  /\ validDate (Schema.createdAt s)
  /\ validDate (Schema.updatedAt s)
  /\ Forall tableRepresentable (Schema.tables s).

(** The properties of a schema other than its id and its version. *)
Definition contentKeys : list string :=
  [ "name"; "description"; "tables"; "relationships"; "createdAt"; "updatedAt" ].

(** The table moved to the default position of the importer. *)
Definition atOrigin (t : Table.t) : Table.t :=
  Table.mk (Table.id t) (Table.name t) (Position.mk (Num.Fin 0) (Num.Fin 0))
           (Table.columns t) (Table.description t) (Table.color t).

(** A document as [JSON.parse] returns it: no [undefined], no [Date]. *)
Fixpoint isJSON (v : value) : bool :=
  match v with
  | VUndefined | VDate _ => false
  | VNull | VBool _ | VNum _ | VStr _ => true
  | VArr items => forallb isJSON items
  | VObj props => forallb (fun p => isJSON (snd p)) props
  end.

(** The [tables] array of a document, when it has one. *)
Definition tablesArray (d : value) : option (list value) :=
  match d with
  | VObj props =>
      match lookup_entry "tables" props with
      | Some (VArr items) => Some items
      | _ => None
      end
  | _ => None
  end.

Definition missingTables : string := "Invalid JSON format: missing tables array".
Definition importPrefix : string := "Failed to import JSON: ".

End JsonTerms.

(** ** Vocabulary of the statements on the Django importer *)

Module DjangoTerms.
Import RegExp DjangoImporter.















End DjangoTerms.

(** ** Vocabulary of the statements on the layout *)

Module LayoutTerms.
Import AutoLayout.

(** A number that is finite. *)
Definition finite (n : number) : Prop := Num.isFinite n = true.

(** A number that is finite and not zero. *)
Definition nonzero (n : number) : Prop := finite n /\ Num.truthy n = true.

(** Two tables that differ at most in their position. *)
Definition sameContent (a b : Table.t) : Prop :=
  Table.id a = Table.id b /\ Table.name a = Table.name b
  /\ Table.columns a = Table.columns b
  /\ Table.description a = Table.description b
  /\ Table.color a = Table.color b.

Definition finitePosition (t : Table.t) : Prop :=
  finite (Position.x (Table.position t)) /\ finite (Position.y (Table.position t)).

(** Every set of neighbours of the adjacency list holds ids of the
    graph only. *)
Definition neighboursKnown (tables : list Table.t) (relationships : list Relationship.t)
    (adjacency : list (string * list string)) : Prop :=
  forall k ns, mapGet k adjacency = Some ns -> incl ns (universe tables relationships).

(** What holds of the state of the levelling at every turn. *)
Definition steady (tables : list Table.t) (relationships : list Relationship.t)
    (st : levelling) : Prop :=
  List.NoDup (visited st)
  /\ incl (visited st) (universe tables relationships)
  /\ incl (queue st) (universe tables relationships).

(** A node of the simulation whose numbers are all finite. *)
Definition soundNode (n : GraphNode) : Prop :=
  finite (x n) /\ finite (y n) /\ finite (vx n) /\ finite (vy n).

(** The nodes of the simulation at every turn: one per table, in the
    order of the tables, with finite numbers. *)
Definition soundNodes (ids : list string) (nodes : list GraphNode) : Prop :=
  Forall soundNode nodes /\ map id nodes = ids.

(** The options of a call that chooses the algorithm only. *)
Definition choose (algorithm : string) : PartialOptions :=
  mkPartial (Some algorithm) None None None.

(** What C9 says of a result. *)
Definition laidOut (tables : list Table.t) (result : completion (list Table.t)) : Prop :=
  exists placed,
    result = Returns placed
    /\ length placed = length tables
    /\ List.Forall2 sameContent tables placed
    /\ Forall finitePosition placed.

(** The facts on the platform's functions that the layout relies on:
    the square root of a number that is not negative is finite, and
    positive for a positive number; cosine, sine and arc tangent of
    finite numbers are finite; a random number is finite. *)
Definition soundMath (sqrt cos sin : number -> number)
    (atan2 : number -> number -> number) (random : nat -> number) : Prop :=
  (forall q : Q,
     (0 <= q)%Q -> exists r : Q, sqrt (Num.Fin q) = Num.Fin r /\ ((0 < q)%Q -> (0 < r)%Q))
  /\ (forall n, finite n -> finite (cos n))
  /\ (forall n, finite n -> finite (sin n))
  /\ (forall a b, finite a -> finite b -> finite (atan2 a b))
  /\ (forall i, finite (random i)).

End LayoutTerms.

(** ** Concrete schemas for the examples *)

Module Examples.




(** A plain column, a column with a foreign key, a table, a schema. *)
Definition plainColumn (id : string) : Column.t :=
  Column.mk id id "integer" false false false None None None.

Definition keyedColumn (id tableId columnId : string) : Column.t :=
  Column.mk id id "integer" false false false None
            (Some (ForeignKey.mk tableId columnId None None)) None.

Definition table (id : string) (columns : list Column.t) : Table.t :=
  Table.mk id id (Position.mk (Num.Fin 0) (Num.Fin 0)) columns None None.

Definition link (id st sc tt tc : string) : Relationship.t :=
  Relationship.mk id st sc tt tc "many-to-one" None None None.

Definition schemaOf (tables : list Table.t) (rels : list Relationship.t) : Schema.t :=
  Schema.mk "s" "shop" None tables rels (TimeValue 0) (TimeValue 0) (Num.Fin 1).




(** A platform for the examples: a date is printed as [T] and the
    decimal digits of its time value, and read back from that. *)
Definition isoOfTime (t : Z) : string :=
  "T" +++ NilEmpty.string_of_int (Z.to_int t).

Definition dateOfValue (v : JsonExporter.value) : Date :=
  match v with
  | JsonExporter.VStr (String "T" digits) =>
      match NilEmpty.int_of_string digits with
      | Some d => TimeValue (Z.of_int d)
      | None => InvalidDate
      end
  | _ => InvalidDate
  end.

(** A schema of one table with one column, and the empty schema. *)
Definition shop : Schema.t :=
  schemaOf [ table "a" [keyedColumn "x" "b" "y"]; table "b" [plainColumn "y"] ]
           [ link "r" "a" "x" "b" "y" ].

Definition emptyShop : Schema.t := schemaOf [] [].

(** The empty schema whose name is the empty string. *)
Definition namelessShop : Schema.t :=
  Schema.mk "s" "" None [] [] (TimeValue 0) (TimeValue 0) (Num.Fin 1).

(** Django sources: the input of C2 with a field in [User], with the
    body [...], with [User] first and an explicit key, and with
    [pass]. *)
Definition postThenUser : string :=
"from django.db import models

class Post(models.Model):
    author = models.ForeignKey('User', on_delete=models.CASCADE)

class User(models.Model):
    name = models.CharField(max_length=100)
".






(** A platform for the layout: the square root of the next integer,
    rounded down; a cosine, a sine and an arc tangent that are constant;
    a random generator that always draws one half. *)
Definition integerSqrt (n : number) : number :=
  match n with
  | Num.Fin q => Num.ofZ (Z.sqrt (Qceiling q))
  | Num.Infinity false => n
  | _ => Num.NaN
  end.

Definition flatCos (_ : number) : number := Num.ofZ 1.
Definition flatSin (_ : number) : number := Num.ofZ 0.
Definition flatAtan2 (_ _ : number) : number := Num.ofZ 0.
Definition halves (_ : nat) : number := Num.Fin (1 # 2).

End Examples.

(** ** Terms of the further properties *)

Module MoreTerms.

(** The text of an SQL string literal read back: two quotes in a row
    stand for one, and a quote on its own ends the literal too early. *)
Fixpoint unescapeQuotes (body : string) : option string :=
  match body with
  | EmptyString => Some EmptyString
  | String c r =>
      if Ascii.eqb c "'"%char then
        match r with
        | String c' r' =>
            if Ascii.eqb c' "'"%char then String c <$> unescapeQuotes r' else None
        | EmptyString => None
        end
      else String c <$> unescapeQuotes r
  end.

(** The part of a string after its last underscore. *)
Fixpoint afterLast (s : string) : option string :=
  match s with
  | EmptyString => None
  | String c r =>
      match afterLast r with
      | Some t => Some t
      | None => if Ascii.eqb c "_"%char then Some r else None
      end
  end.

(** The ids of all columns of a schema, table by table. *)
Definition columnIds (ts : list Table.t) : list string :=
  flat_map (fun t => map Column.id (Table.columns t)) ts.

(** What the later passes of the Django import leave alone: the id of
    each table, and the id of each of its columns with whether the
    column holds a key. *)
Definition hasKey (c : Column.t) : bool := bool_decide (is_Some (Column.foreignKey c)).

Definition skeleton (ts : list Table.t) : list (string * list (string * bool)) :=
  map (fun t => (Table.id t, map (fun c => (Column.id c, hasKey c)) (Table.columns t))) ts.

(** A relationship whose ends are in the schema: its tables by id,
    and, unless it is many-to-many with empty column ids, its columns
    by id in those tables, the source column holding a key. *)
Definition refersIn (sk : list (string * list (string * bool))) (r : Relationship.t)
  : Prop :=
  exists s t,
    In s sk /\ In t sk
    /\ fst s = Relationship.sourceTableId r /\ fst t = Relationship.targetTableId r
    /\ ((Relationship.type r = "many-to-many"
         /\ Relationship.sourceColumnId r = "" /\ Relationship.targetColumnId r = "")
        \/ (In (Relationship.sourceColumnId r, true) (snd s)
            /\ In (Relationship.targetColumnId r) (map fst (snd t)))).

(** A column key that is still the empty placeholder, or whose ids are
    those of a table of the schema and of one of its columns. *)
Definition keyIn (sk : list (string * list (string * bool))) (c : Column.t) : Prop :=
  match Column.foreignKey c with
  | Some fk =>
      (ForeignKey.tableId fk = "" /\ ForeignKey.columnId fk = "")
      \/ exists t, In t sk /\ fst t = ForeignKey.tableId fk
                   /\ In (ForeignKey.columnId fk) (map fst (snd t))
  | None => True
  end.

(** The state of the second and third pass of the Django import: the
    skeleton is [sk], every relationship has its ends in it, and so has
    every column key that is filled in. *)
Definition soundStore (sk : list (string * list (string * bool)))
    (st : DjangoImporter.store) : Prop :=
  skeleton (DjangoImporter.tables st) = sk
  /\ Forall (refersIn sk) (DjangoImporter.relationships st)
  /\ Forall (fun t => Forall (keyIn sk) (Table.columns t)) (DjangoImporter.tables st).

(** A string in which each character that satisfies [p] is replaced
    by what [g] makes of it. *)
Fixpoint replacedChars (p : ascii -> bool) (g : string -> string) (s : string) : string :=
  match s with
  | EmptyString => EmptyString
  | String c r =>
      if p c then g (String c EmptyString) +++ replacedChars p g r
      else String c (replacedChars p g r)
  end.

(** A string with an underscore put before each of its upper-case
    letters. *)
Definition underscored (s : string) : string :=
  replacedChars JS.isUpper (fun c => "_" +++ c) s.

(** All characters of [s] satisfy [p]. *)
Fixpoint allChars (p : ascii -> bool) (s : string) : bool :=
  match s with
  | EmptyString => true
  | String c r => p c && allChars p r
  end.

Definition alphanumeric (c : ascii) : bool := JS.isUpper c || JS.isLower c || JS.isDigit c.

(** A name in the style of a class: an upper-case letter, then letters
    and digits. *)
Definition classStyle (name : string) : bool :=
  match name with
  | EmptyString => false
  | String c r => JS.isUpper c && allChars alphanumeric r
  end.







(** The Prisma exporter writes a reverse relation for [relationship]
    in the model of [table]: the relationship ends at the table, its
    source table and both its columns resolve, and the source column
    holds no key to the table. *)
Definition writtenBack (tables : list Table.t) (table : Table.t)
    (relationship : Relationship.t) : bool :=
  String.eqb (Relationship.targetTableId relationship) (Table.id table)
  && match find (fun t => String.eqb (Table.id t)
                                     (Relationship.sourceTableId relationship)) tables with
     | Some sourceTable =>
         match find (fun c => String.eqb (Column.id c)
                                         (Relationship.sourceColumnId relationship))
                    (Table.columns sourceTable),
               find (fun c => String.eqb (Column.id c)
                                         (Relationship.targetColumnId relationship))
                    (Table.columns table) with
         | Some sourceColumn, Some _ =>
             negb match Column.foreignKey sourceColumn with
                  | Some fk => String.eqb (ForeignKey.tableId fk) (Table.id table)
                  | None => false
                  end
         | _, _ => false
         end
     | None => false
     end.

(** The relationship has a name that is not empty. *)
Definition named (relationship : Relationship.t) : bool :=
  JS.truthyOpt (Relationship.name relationship).


(** A table at which no relationship ends that starts at a table of
    the schema. *)
Definition topTable (tables : list Table.t) (relationships : list Relationship.t)
    (t : Table.t) : Prop :=
  forall r, In r relationships -> Relationship.targetTableId r = Table.id t ->
            forall s, In s tables -> Table.id s <> Relationship.sourceTableId r.

(** An id whose in-degree is not positive in [degrees]. *)
Definition low (degrees : list (string * Z)) (id : string) : Prop :=
  (default 0%Z (AutoLayout.mapGet id degrees) <= 0)%Z.

(** What the levelling keeps after its first turn, where [degrees] are
    the in-degrees at the start and [top] is the first level: an id
    that was low stays low and is not queued again, the levels after
    the first hold no such id, and the first level has been visited. *)
Definition levelled (degrees : list (string * Z)) (top : list string)
    (st : AutoLayout.levelling) : Prop :=
  (forall id, low degrees id -> low (AutoLayout.inDegree st) id)
  /\ (forall id, In id (AutoLayout.queue st) -> ~ low degrees id)
  /\ (exists more,
        AutoLayout.levels st = top :: more
        /\ forall level id, In level more -> In id level -> ~ low degrees id)
  /\ incl top (AutoLayout.visited st).

End MoreTerms.

(** * Part II: theorems *)

(** ** Facts on strings and lists *)

Lemma truthy_nonempty (s : string) : JS.truthy s = true <-> s <> "".
Proof. destruct s; simpl; split; intros; try congruence; auto. Qed.

Lemma orElse_some (a : option string) (s : string) :
  JS.truthy s = true ->
  exists r, JS.orElse a (Some s) = Some r /\ JS.truthy r = true.
Proof.
  intros Hs. unfold JS.orElse.
  destruct a as [v|]; simpl.
  - destruct (JS.truthy v) eqn:Hv; eauto.
  - eauto.
Qed.


(** ** The type maps *)

Module TypeMaps.
Import SqlExporter PrismaExporter SpecTerms.








End TypeMaps.

(** ** The export dispatcher *)

Module DispatchFacts.
Import ExportManager.

Section Dispatch.
Variable text : Type.
Variable exportToJSON : Schema.t -> option bool -> text.
Variable exportToSQL : Schema.t -> SqlExporter.SQLDialect -> text.
Variable exportToPrisma exportToDjango exportToLaravel exportToTypeORM : Schema.t -> text.

Local Abbreviation run :=
  (export text exportToJSON exportToSQL exportToPrisma exportToDjango
          exportToLaravel exportToTypeORM).

Lemma export_known (schema : Schema.t) (options : ExportOptions) :
  In (format options) EXPORT_FORMATS -> exists t, run schema options = Returned t.
Proof.
  unfold EXPORT_FORMATS, export; simpl.
  intros [H|[H|[H|[H|[H|[H|[]]]]]]]; rewrite <- H; simpl; eauto.
Qed.

Lemma export_unknown (schema : Schema.t) (options : ExportOptions) :
  ~ In (format options) EXPORT_FORMATS ->
  run schema options = Thrown ("Unsupported export format: " +++ format options).
Proof.
  unfold EXPORT_FORMATS, export; simpl. intros Hn.
  repeat match goal with
         | |- context [String.eqb ?a ?b] =>
             destruct (String.eqb_spec a b) as [He|_];
             [exfalso; apply Hn; rewrite He; tauto|]
         end.
  reflexivity.
Qed.

(** C7.  [ExportManager.export] throws exactly when [options.format] is
    none of json, sql, prisma, django, laravel, typeorm, and the message
    of the error is "Unsupported export format: " followed by the
    format; for each of the six formats the dispatcher returns what the
    exporter of that format returns. *)
Theorem export_throws_exactly_on_unsupported_format (schema : Schema.t) :
  (forall options,
     (In (format options) EXPORT_FORMATS
      /\ exists t, run schema options = Returned t)
     \/ (~ In (format options) EXPORT_FORMATS
         /\ run schema options
            = Thrown ("Unsupported export format: " +++ format options)))
  /\ (forall o d p x,
        run schema (mkOptions "json" o p x) = Returned (exportToJSON schema p)
        /\ run schema (mkOptions "sql" (Some d) p x) = Returned (exportToSQL schema d)
        /\ run schema (mkOptions "sql" None p x)
           = Returned (exportToSQL schema SqlExporter.postgresql)
        /\ run schema (mkOptions "prisma" o p x) = Returned (exportToPrisma schema)
        /\ run schema (mkOptions "django" o p x) = Returned (exportToDjango schema)
        /\ run schema (mkOptions "laravel" o p x) = Returned (exportToLaravel schema)
        /\ run schema (mkOptions "typeorm" o p x) = Returned (exportToTypeORM schema)).
Proof.
  split.
  - intros options.
    destruct (in_dec String.string_dec (format options) EXPORT_FORMATS) as [Hin|Hn].
    + left. split; [exact Hin | now apply export_known].
    + right. split; [exact Hn | now apply export_unknown].
  - intros o d p x. repeat split.
Qed.

End Dispatch.
End DispatchFacts.

(** ** The SQL exporter *)

Module SqlFacts.
Import SqlExporter SpecTerms.

Section Exporter.
Variable isNaN_Number : string -> bool.

Local Abbreviation parts := (columnDefParts isNaN_Number).







(** *** Resolution of references *)








(** *** The whole output *)












End Exporter.

(** *** Examples *)

Import Examples.







End SqlFacts.

(** ** The JSON codec *)

Module JsonFacts.
Import JsonExporter JsonTerms.

Lemma mapM_map {A B C : Type} (f : B -> outcome C) (g : A -> B) (h : A -> C)
    (P : A -> Prop) (l : list A) :
  (forall a, P a -> f (g a) = Returned (h a)) ->
  Forall P l ->
  mapM f (map g l) = Returned (map h l).
Proof.
  intros Hf Hl. induction Hl as [|a l Ha Hl IH]; simpl; [reflexivity|].
  now rewrite (Hf a Ha), IH.
Qed.

Section Codec.
Variable toISOString : Z -> string.
Variable newDate : value -> Date.

(** The platform reads back the date it printed, and the print of a
    date is not the empty string. *)
Hypothesis newDate_toISOString : forall t, newDate (VStr (toISOString t)) = TimeValue t.
Hypothesis toISOString_nonempty : forall t, toISOString t <> "".

Local Abbreviation written := (stringified toISOString).

Lemma importColumn_written (c : Column.t) :
  importColumn (written (columnData c)) = Returned (columnValue c).
Proof.
  destruct c as [id name type nullable pk unique [dv|] [[tid cid [od|] [ou|]]|] [ds|]];
    reflexivity.
Qed.

Lemma importRelationship_written (r : Relationship.t) :
  importRelationship (written (relationshipData r)) = Returned (relationshipValue r).
Proof.
  destruct r as [id st sc tt tc type [name|] [od|] [ou|]]; reflexivity.
Qed.

Lemma written_columns (columns : list Column.t) :
  arrayMap importColumn (written (VArr (map columnData columns))) "table.columns"
  = Returned (VArr (map columnValue columns)).
Proof.
  simpl. rewrite map_map.
  rewrite (mapM_map importColumn (fun c => written (columnData c)) columnValue
                    (fun _ => True));
    [reflexivity | intros; apply importColumn_written | now apply Forall_forall].
Qed.

Lemma importTable_written (t : Table.t) :
  tableRepresentable t ->
  importTable (written (tableData true t)) = Returned (tableValue t).
Proof.
  destruct t as [id name [x y] columns description color].
  intros (Hc & Hx & Hy). simpl in Hc, Hx, Hy. subst color.
  pose proof (written_columns columns) as Hcols.
  destruct description as [ds|]; unfold importTable, tableData; simpl;
    rewrite Hx, Hy; simpl; simpl in Hcols; rewrite Hcols; reflexivity.
Qed.

Lemma importTable_written_without_position (t : Table.t) :
  Table.color t = None ->
  importTable (written (tableData false t)) = Returned (tableValue (atOrigin t)).
Proof.
  destruct t as [id name [x y] columns description color].
  simpl. intros ->.
  pose proof (written_columns columns) as Hcols.
  destruct description as [ds|]; unfold importTable, tableData; simpl;
    simpl in Hcols; rewrite Hcols; reflexivity.
Qed.

Lemma written_tables (tables : list Table.t) :
  Forall tableRepresentable tables ->
  mapM importTable (map written (map (tableData true) tables))
  = Returned (map tableValue tables).
Proof.
  intros Hall. rewrite map_map.
  apply (mapM_map importTable (fun t => written (tableData true t)) tableValue
                  tableRepresentable);
    [apply importTable_written | exact Hall].
Qed.

Lemma written_tables_without_position (tables : list Table.t) :
  Forall tableRepresentable tables ->
  mapM importTable (map written (map (tableData false) tables))
  = Returned (map tableValue (map atOrigin tables)).
Proof.
  intros Hall. rewrite !map_map.
  apply (mapM_map importTable (fun t => written (tableData false t))
                  (fun t => tableValue (atOrigin t)) tableRepresentable);
    [| exact Hall].
  intros t (Hc & _). now apply importTable_written_without_position.
Qed.

Lemma written_relationships (rels : list Relationship.t) :
  mapM importRelationship (map written (map relationshipData rels))
  = Returned (map relationshipValue rels).
Proof.
  rewrite map_map.
  apply (mapM_map importRelationship (fun r => written (relationshipData r))
                  relationshipValue (fun _ => True));
    [intros; apply importRelationship_written | now apply Forall_forall].
Qed.

Lemma truthy_toISOString (t : Z) : JS.truthy (toISOString t) = true.
Proof. apply truthy_nonempty, toISOString_nonempty. Qed.

(** The import of a document of the exported shape, given what the
    import of its tables and relationships returns. *)
Lemma import_envelope (nowCreated nowUpdated : Date) (name exportedAt : string)
    (description : option string) (c u : Z) (ts rs tv rv : list value) :
  JS.truthy name = true ->
  mapM importTable ts = Returned tv ->
  mapM importRelationship rs = Returned rv ->
  importFromJSON newDate nowCreated nowUpdated
    (Document
       (VObj [ ("version", VStr "1.0.0");
               ("metadata",
                VObj ([ ("name", VStr name) ]
                      ++ match description with
                         | Some ds => [ ("description", VStr ds) ]
                         | None => []
                         end
                      ++ [ ("createdAt", VStr (toISOString c));
                           ("updatedAt", VStr (toISOString u));
                           ("exportedAt", VStr exportedAt) ]));
               ("tables", VArr ts);
               ("relationships", VArr rs) ]))
  = Returned
      (VObj [ ("id", VStr name); ("name", VStr name);
              ("description", optStr description);
              ("tables", VArr tv);
              ("relationships", VArr rv);
              ("createdAt", VDate (TimeValue c));
              ("updatedAt", VDate (TimeValue u));
              ("version", VStr "1.0.0") ]).
Proof.
  intros Hname Ht Hr.
  pose proof (truthy_toISOString c) as Hc.
  pose proof (truthy_toISOString u) as Hu.
  destruct description as [ds|];
    unfold importFromJSON, importBody, importDate; simpl;
    rewrite Ht, Hr; simpl; rewrite Hc, Hu; unfold orElse; simpl;
    rewrite Hname, !newDate_toISOString; reflexivity.
Qed.

Lemma exportToJSON_envelope (exportedAt : string) (s : Schema.t) (b : bool) :
  validDate (Schema.createdAt s) -> validDate (Schema.updatedAt s) ->
  exists c u,
    Schema.createdAt s = TimeValue c /\ Schema.updatedAt s = TimeValue u
    /\ exportToJSON toISOString exportedAt s (Some b)
       = Document
           (VObj [ ("version", VStr "1.0.0");
                   ("metadata",
                    VObj ([ ("name", VStr (Schema.name s)) ]
                          ++ match Schema.description s with
                             | Some ds => [ ("description", VStr ds) ]
                             | None => []
                             end
                          ++ [ ("createdAt", VStr (toISOString c));
                               ("updatedAt", VStr (toISOString u));
                               ("exportedAt", VStr exportedAt) ]));
                   ("tables", VArr (map written (map (tableData b) (Schema.tables s))));
                   ("relationships",
                    VArr (map written (map relationshipData (Schema.relationships s)))) ]).
Proof.
  destruct s as [id name description tables rels createdAt updatedAt version].
  simpl. intros [c ->] [u ->]. exists c, u. repeat split.
  destruct description; reflexivity.
Qed.

(** The import of an exported schema, in full. *)
Lemma import_export (exportedAt : string) (nowCreated nowUpdated : Date)
    (s : Schema.t) (includePositions : bool) :
  representable s ->
  importFromJSON newDate nowCreated nowUpdated
    (exportToJSON toISOString exportedAt s (Some includePositions))
  = Returned
      (VObj [ ("id", VStr (Schema.name s)); ("name", VStr (Schema.name s));
              ("description", optStr (Schema.description s));
              ("tables",
               VArr (map tableValue
                         (if includePositions then Schema.tables s
                          else map atOrigin (Schema.tables s))));
              ("relationships", VArr (map relationshipValue (Schema.relationships s)));
              ("createdAt", VDate (Schema.createdAt s));
              ("updatedAt", VDate (Schema.updatedAt s));
              ("version", VStr "1.0.0") ]).
Proof.
  intros (Hname & Hc & Hu & Htables).
  apply truthy_nonempty in Hname.
  destruct (exportToJSON_envelope exportedAt s includePositions Hc Hu)
    as (c & u & -> & -> & ->).
  apply import_envelope; [exact Hname | | apply written_relationships].
  destruct includePositions;
    [now apply written_tables | now apply written_tables_without_position].
Qed.

(** C1, as the code has it.  For a schema with a name that is not
    empty, valid dates, finite table positions and no table colour,
    [importFromJSON(exportToJSON(S, true))] returns a schema whose name,
    description, tables, relationships, [createdAt] and [updatedAt] are
    those of [S], and whose id is the name of [S]; the default of
    [includePositions] is [true]; and with positions left out the
    re-import differs from that only in the position of each table,
    which is [{x: 0, y: 0}].  (The [version] of the result is not
    stated.) *)
Theorem json_round_trip_up_to_id_and_version
    (exportedAt : string) (nowCreated nowUpdated : Date) (s : Schema.t) :
  representable s ->
  (exists v,
     importFromJSON newDate nowCreated nowUpdated
       (exportToJSON toISOString exportedAt s (Some true)) = Returned v
     /\ Forall (fun key => get v key = get (schemaValue s) key) contentKeys
     /\ get v "id" = Returned (VStr (Schema.name s)))
  /\ exportToJSON toISOString exportedAt s None
     = exportToJSON toISOString exportedAt s (Some true)
  /\ (exists v,
        importFromJSON newDate nowCreated nowUpdated
          (exportToJSON toISOString exportedAt s (Some false)) = Returned v
        /\ get v "tables"
           = Returned (VArr (map tableValue (map atOrigin (Schema.tables s))))
        /\ Forall (fun t => get t "position" = Returned originPosition)
                  (map tableValue (map atOrigin (Schema.tables s)))
        /\ Forall (fun key => get v key = get (schemaValue s) key)
                  [ "name"; "description"; "relationships"; "createdAt"; "updatedAt" ]).
Proof.
  intros Hrep. split; [|split].
  - eexists. split; [apply (import_export exportedAt nowCreated nowUpdated s true Hrep)|].
    split; [|reflexivity].
    unfold contentKeys. repeat constructor.
  - reflexivity.
  - eexists. split; [apply (import_export exportedAt nowCreated nowUpdated s false Hrep)|].
    split; [reflexivity|]. split.
    + apply List.Forall_forall. intros t Hin.
      apply in_map_iff in Hin. destruct Hin as (t' & <- & Hin).
      apply in_map_iff in Hin. destruct Hin as (t0 & <- & _).
      reflexivity.
    + repeat constructor.
Qed.

(** *** Rejection of a document without a [tables] array *)

Lemma import_without_tables (nowCreated nowUpdated : Date) (d : value) :
  isJSON d = true ->
  tablesArray d = None ->
  d <> VNull ->
  importFromJSON newDate nowCreated nowUpdated (Document d)
  = Thrown (importPrefix +++ missingTables).
Proof.
  intros Hjson Hnone Hnull.
  unfold importFromJSON, importBody. simpl.
  destruct d as [| |b|n|s|dt|items|props]; try discriminate; try congruence;
    try reflexivity.
  simpl in Hnone |- *.
  destruct (lookup_entry "tables" props) as [[| |b|n|s|dt|items|ps]|];
    try discriminate; simpl; rewrite ?orb_true_r; reflexivity.
Qed.

(** C10, as the code has it.  For a document other than [null] that
    has no [tables] array, [importFromJSON] throws an [Error] whose
    message is "Failed to import JSON: Invalid JSON format: missing
    tables array", and returns no schema; for the document [null] it
    throws an [Error] whose message is the same prefix followed by the
    message of the engine's [TypeError].  A document with a [tables]
    array and neither relationships nor metadata is imported with the
    defaults. *)
Theorem import_rejects_missing_tables_array
    (nowCreated nowUpdated : Date) (d : value) :
  isJSON d = true ->
  tablesArray d = None ->
  (d <> VNull ->
   importFromJSON newDate nowCreated nowUpdated (Document d)
   = Thrown (importPrefix +++ missingTables))
  /\ (d = VNull ->
      importFromJSON newDate nowCreated nowUpdated (Document d)
      = Thrown (importPrefix +++ cannotRead "null" "tables"))
  /\ (exists message,
        importFromJSON newDate nowCreated nowUpdated (Document d)
        = Thrown (importPrefix +++ message))
  /\ importFromJSON newDate nowCreated nowUpdated
       (Document (VObj [ ("tables", VArr []) ]))
     = Returned
         (VObj [ ("id", VStr "Imported Schema"); ("name", VStr "Imported Schema");
                 ("description", VUndefined); ("tables", VArr []);
                 ("relationships", VArr []);
                 ("createdAt", VDate nowCreated); ("updatedAt", VDate nowUpdated);
                 ("version", VNum (Num.Fin 1)) ]).
Proof.
  intros Hjson Hnone. split; [|split; [|split]].
  - now apply import_without_tables.
  - intros ->. reflexivity.
  - destruct d as [| |b|n|s|dt|items|props] eqn:Hd;
      try (eexists; apply import_without_tables; [assumption|assumption|discriminate]).
    eexists. reflexivity.
  - reflexivity.
Qed.

End Codec.

(** *** Examples *)

Import Examples.

Lemma dateOfValue_isoOfTime (t : Z) : dateOfValue (VStr (isoOfTime t)) = TimeValue t.
Proof.
  unfold dateOfValue, isoOfTime. simpl.
  now rewrite NilEmpty.isi, DecimalZ.of_to.
Qed.

Lemma isoOfTime_nonempty (t : Z) : isoOfTime t <> "".
Proof. discriminate. Qed.

Lemma shop_representable : representable shop.
Proof.
  split; [discriminate|]. split; [now exists 0%Z|]. split; [now exists 0%Z|].
  repeat constructor.
Qed.

(** The round trip of [shop]. *)
Lemma json_round_trip_example :
  (exists v,
     importFromJSON dateOfValue InvalidDate InvalidDate
       (exportToJSON isoOfTime "later" shop (Some true)) = Returned v
     /\ Forall (fun key => get v key = get (schemaValue shop) key) contentKeys
     /\ get v "id" = Returned (VStr (Schema.name shop)))
  /\ exportToJSON isoOfTime "later" shop None
     = exportToJSON isoOfTime "later" shop (Some true)
  /\ (exists v,
        importFromJSON dateOfValue InvalidDate InvalidDate
          (exportToJSON isoOfTime "later" shop (Some false)) = Returned v
        /\ get v "tables"
           = Returned (VArr (map tableValue (map atOrigin (Schema.tables shop))))
        /\ Forall (fun t => get t "position" = Returned originPosition)
                  (map tableValue (map atOrigin (Schema.tables shop)))
        /\ Forall (fun key => get v key = get (schemaValue shop) key)
                  [ "name"; "description"; "relationships"; "createdAt"; "updatedAt" ]).
Proof.
  exact (json_round_trip_up_to_id_and_version isoOfTime dateOfValue
           dateOfValue_isoOfTime isoOfTime_nonempty "later" InvalidDate InvalidDate
           shop shop_representable).
Defined.

(** The claim of C1 fails on [namelessShop], the empty schema whose
    name is the empty string: the re-import is named
    [Imported Schema]. *)
Lemma round_trip_renames_nameless_schema :
  importFromJSON dateOfValue InvalidDate InvalidDate
    (exportToJSON isoOfTime "later" namelessShop (Some true))
  = Returned
      (VObj [ ("id", VStr "Imported Schema"); ("name", VStr "Imported Schema");
              ("description", VUndefined);
              ("tables", VArr []); ("relationships", VArr []);
              ("createdAt", VDate (TimeValue 0)); ("updatedAt", VDate (TimeValue 0));
              ("version", VStr "1.0.0") ])
  /\ get (schemaValue namelessShop) "name" = Returned (VStr "")
  /\ VStr "Imported Schema" <> VStr "".
Proof. repeat split. discriminate. Qed.

(** The version does not come back either: on [emptyShop], whose name
    is [shop] and whose version is 1, the re-import carries the version
    [1.0.0] of the envelope, a string. *)
Lemma round_trip_changes_version :
  importFromJSON dateOfValue InvalidDate InvalidDate
    (exportToJSON isoOfTime "later" emptyShop (Some true))
  = Returned
      (VObj [ ("id", VStr "shop"); ("name", VStr "shop"); ("description", VUndefined);
              ("tables", VArr []); ("relationships", VArr []);
              ("createdAt", VDate (TimeValue 0)); ("updatedAt", VDate (TimeValue 0));
              ("version", VStr "1.0.0") ])
  /\ get (schemaValue emptyShop) "version" = Returned (VNum (Num.Fin 1))
  /\ VStr "1.0.0" <> VNum (Num.Fin 1).
Proof. repeat split. discriminate. Qed.

(** A document without [tables]: the theorem at [{}]. *)
Lemma import_rejection_example :
  importFromJSON dateOfValue InvalidDate InvalidDate (Document (VObj []))
  = Thrown (importPrefix +++ missingTables).
Proof.
  refine (proj1 (import_rejects_missing_tables_array dateOfValue InvalidDate InvalidDate
                   (VObj []) _ _) _).
  - reflexivity.
  - reflexivity.
  - discriminate.
Defined.

(** The claim of C10 fails on the text [null]: it is well-formed JSON
    and has no [tables] array, and the message of the error does not
    contain "Invalid JSON format: missing tables array". *)
Lemma import_of_null_has_another_message :
  isJSON VNull = true
  /\ tablesArray VNull = None
  /\ importFromJSON dateOfValue InvalidDate InvalidDate (Document VNull)
     = Thrown "Failed to import JSON: Cannot read properties of null (reading 'tables')"
  /\ JS.includes missingTables
       "Failed to import JSON: Cannot read properties of null (reading 'tables')"
     = false.
Proof. repeat split. Qed.

End JsonFacts.

(** ** The Django importer *)

Module DjangoFacts.
Import RegExp DjangoImporter DjangoTerms Examples.

(** *** The input of C2 *)







(** *** The synthesized primary key *)








Section Convert.
Variable importId stamp : N.
Variable createdAt updatedAt : Date.



Lemma alter_same {A B : Type} (f : A -> B) (g : A -> A) (i : nat) (l : list A) :
  (forall a, f (g a) = f a) -> map f (alter g i l) = map f l.
Proof.
  intros H. revert i. induction l as [|a l IH]; intros [|i]; cbn; try reflexivity.
  - now rewrite H.
  - f_equal. apply IH.
Qed.



Lemma fold_left_invariant {A B : Type} (P : A -> Prop) (f : A -> B -> A)
    (l : list B) (a : A) :
  P a -> (forall a b, P a -> P (f a b)) -> P (fold_left f l a).
Proof.
  intros Ha Hf. revert a Ha. induction l as [|b l IH]; intros a Ha; simpl; auto.
Qed.






End Convert.

(** *** Examples *)




End DjangoFacts.

(** ** The layout engine *)

Module LayoutFacts.
Import AutoLayout LayoutTerms Examples.

(** *** Finite numbers *)

Lemma finite_Fin (q : Q) : finite (Num.Fin q).
Proof. reflexivity. Qed.

Lemma finite_inv (n : number) : finite n -> exists q, n = Num.Fin q.
Proof. destruct n; try discriminate. eauto. Qed.

Lemma finite_ofZ (z : Z) : finite (Num.ofZ z).
Proof. reflexivity. Qed.

Lemma finite_ofNat (n : nat) : finite (Num.ofNat n).
Proof. reflexivity. Qed.

Lemma finite_add (a b : number) : finite a -> finite b -> finite (Num.add a b).
Proof. intros [x ->]%finite_inv [y ->]%finite_inv. reflexivity. Qed.

Lemma finite_neg (a : number) : finite a -> finite (Num.neg a).
Proof. intros [x ->]%finite_inv. reflexivity. Qed.

Lemma finite_sub (a b : number) : finite a -> finite b -> finite (Num.sub a b).
Proof. intros Ha Hb. apply finite_add; [exact Ha | now apply finite_neg]. Qed.

Lemma finite_mul (a b : number) : finite a -> finite b -> finite (Num.mul a b).
Proof. intros [x ->]%finite_inv [y ->]%finite_inv. reflexivity. Qed.

Lemma finite_div (a b : number) : finite a -> nonzero b -> finite (Num.div a b).
Proof.
  intros [x ->]%finite_inv [[y ->]%finite_inv Hy]. simpl in Hy |- *.
  unfold Num.isZeroQ in *. destruct (Qeq_bool y 0); [discriminate | reflexivity].
Qed.

Lemma finite_rem (a b : number) : finite a -> nonzero b -> finite (Num.rem a b).
Proof.
  intros [x ->]%finite_inv [[y ->]%finite_inv Hy]. simpl in Hy |- *.
  unfold Num.isZeroQ in *. destruct (Qeq_bool y 0); [discriminate | reflexivity].
Qed.

Lemma finite_round (a : number) : finite a -> finite (Num.round a).
Proof. intros [x ->]%finite_inv. reflexivity. Qed.

Lemma finite_floor (a : number) : finite a -> finite (Num.floor a).
Proof. intros [x ->]%finite_inv. reflexivity. Qed.

Lemma finite_min (a b : number) : finite a -> finite b -> finite (Num.min a b).
Proof.
  intros [x ->]%finite_inv [y ->]%finite_inv. unfold Num.min.
  destruct (Num.lt _ _); reflexivity.
Qed.

Lemma finite_max (a b : number) : finite a -> finite b -> finite (Num.max a b).
Proof.
  intros [x ->]%finite_inv [y ->]%finite_inv. unfold Num.max.
  destruct (Num.lt _ _); reflexivity.
Qed.

Lemma nonzero_Fin (q : Q) : ~ (q == 0)%Q -> nonzero (Num.Fin q).
Proof.
  intros Hq. split; [reflexivity|]. simpl. unfold Num.isZeroQ.
  destruct (Qeq_bool q 0) eqn:He; [|reflexivity].
  apply Qeq_bool_eq in He. contradiction.
Qed.

Lemma nonzero_positive (q : Q) : (0 < q)%Q -> nonzero (Num.Fin q).
Proof. intros Hq. apply nonzero_Fin. intros He. rewrite He in Hq. now apply Qlt_irrefl in Hq. Qed.

Lemma nonzero_ofZ (z : Z) : z <> 0%Z -> nonzero (Num.ofZ z).
Proof.
  intros Hz. apply nonzero_Fin. unfold Qeq. simpl. lia.
Qed.

Lemma nonzero_ofNat (n : nat) : n <> O -> nonzero (Num.ofNat n).
Proof. intros Hn. apply nonzero_ofZ. lia. Qed.

Lemma nonzero_orNumber (a : number) (z : Z) :
  finite a -> z <> 0%Z -> nonzero (orNumber a (Num.ofZ z)).
Proof.
  intros Ha Hz. unfold orNumber. destruct (Num.truthy a) eqn:Ht.
  - now split.
  - now apply nonzero_ofZ.
Qed.

Lemma nonzero_mul (a b : number) : nonzero a -> nonzero b -> nonzero (Num.mul a b).
Proof.
  intros [[x ->]%finite_inv Hx] [[y ->]%finite_inv Hy]. simpl in *.
  unfold Num.isZeroQ in *.
  apply nonzero_Fin. rewrite Qred_correct. intros He.
  apply Qmult_integral in He.
  destruct He as [He|He]; apply Qeq_bool_iff in He; rewrite He in *; discriminate.
Qed.

Lemma nonzero_PI : nonzero Num.PI.
Proof. now apply nonzero_Fin. Qed.

Lemma squares_nonnegative (x y : Q) : (0 <= Qred (Qred (x * x) + Qred (y * y)))%Q.
Proof.
  rewrite !Qred_correct.
  assert (Hsq : forall z : Q, (0 <= z * z)%Q).
  { intros z. destruct (Qlt_le_dec z 0) as [Hn|Hp].
    - assert (He : (z * z == (- z) * (- z))%Q) by ring.
      rewrite He.
      apply Qmult_le_0_compat; apply (Qopp_le_compat z 0); now apply Qlt_le_weak.
    - now apply Qmult_le_0_compat. }
  pose proof (Hsq x). pose proof (Hsq y).
  change 0%Q with (0 + 0)%Q. now apply Qplus_le_compat.
Qed.

(** *** Maps with an index *)

Lemma mapi_length {A B : Type} (f : A -> nat -> B) (l : list A) (i : nat) :
  length (mapi f l i) = length l.
Proof. revert i. induction l as [|a l IH]; intros i; simpl; [reflexivity|]. now rewrite IH. Qed.

Lemma mapi_Forall2 {A B : Type} (R : A -> B -> Prop) (f : A -> nat -> B)
    (l : list A) (i : nat) :
  (forall a j, R a (f a j)) -> List.Forall2 R l (mapi f l i).
Proof.
  intros H. revert i. induction l as [|a l IH]; intros i; simpl; constructor; auto.
Qed.

Lemma mapi_Forall {A B : Type} (P : B -> Prop) (f : A -> nat -> B)
    (l : list A) (i : nat) :
  (forall a j, P (f a j)) -> Forall P (mapi f l i).
Proof.
  intros H. revert i. induction l as [|a l IH]; intros i; simpl; constructor; auto.
Qed.

Lemma sameContent_withPosition (t : Table.t) (x y : number) :
  sameContent t (withPosition t x y).
Proof. repeat split. Qed.

Lemma sameContent_refl (t : Table.t) : sameContent t t.
Proof. repeat split. Qed.

Lemma finitePosition_withPosition (t : Table.t) (x y : number) :
  finite x -> finite y -> finitePosition (withPosition t x y).
Proof. now split. Qed.

Lemma finite_default_spacing :
  finite (Position.x (spacing DEFAULT_OPTIONS)) /\ finite (Position.y (spacing DEFAULT_OPTIONS))
  /\ finite (Position.x (centerOffset DEFAULT_OPTIONS))
  /\ finite (Position.y (centerOffset DEFAULT_OPTIONS)).
Proof. repeat split. Qed.

(** *** Maps and sets in insertion order *)

Lemma mapGet_mapSet {V : Type} (k k' : string) (v : V) (m : list (string * V)) :
  mapGet k' (mapSet k v m) = if String.eqb k k' then Some v else mapGet k' m.
Proof.
  unfold mapGet. induction m as [|[k0 w] m IH]; simpl.
  - reflexivity.
  - destruct (String.eqb_spec k0 k) as [->|Hne]; simpl.
    + destruct (String.eqb k k'); reflexivity.
    + destruct (String.eqb_spec k0 k') as [->|Hne'].
      * destruct (String.eqb_spec k k'); [congruence | reflexivity].
      * exact IH.
Qed.

Lemma setHas_In (k : string) (s : list string) : setHas k s = true <-> In k s.
Proof.
  unfold setHas. rewrite existsb_exists. split.
  - intros (x & Hin & He). apply String.eqb_eq in He. now subst.
  - intros Hin. exists k. split; [exact Hin | apply String.eqb_refl].
Qed.

Lemma setHas_notIn (k : string) (s : list string) : setHas k s = false <-> ~ In k s.
Proof.
  rewrite <- setHas_In. destruct (setHas k s); split; congruence.
Qed.

Lemma setAdd_incl (k : string) (s u : list string) :
  In k u -> incl s u -> incl (setAdd k s) u.
Proof.
  intros Hk Hs. unfold setAdd. destruct (setHas k s); [exact Hs|].
  apply incl_app; [exact Hs|]. intros x [<-|[]]. exact Hk.
Qed.

Lemma fold_left_holds {A B : Type} (P : A -> Prop) (f : A -> B -> A)
    (l : list B) (a : A) :
  P a -> (forall a b, In b l -> P a -> P (f a b)) -> P (fold_left f l a).
Proof.
  revert a. induction l as [|b l IH]; intros a Ha Hf; simpl; [exact Ha|].
  apply IH; [apply Hf; [now left | exact Ha]|].
  intros a' b' Hin. apply Hf. now right.
Qed.

(** *** Hierarchical: the graph *)

Lemma alter_ids (f : GraphNode -> GraphNode) (i : nat) (nodes : list GraphNode) :
  (forall n, id (f n) = id n) -> map id (alter f i nodes) = map id nodes.
Proof.
  intros Hf. revert i. induction nodes as [|n nodes IH]; intros [|i]; try reflexivity.
  - change (alter f 0 (n :: nodes)) with (f n :: nodes). simpl. now rewrite Hf.
  - change (alter f (S i) (n :: nodes)) with (n :: alter f i nodes). simpl. now rewrite IH.
Qed.

Lemma mapi_map {A B C : Type} (g : B -> C) (h : A -> C) (f : A -> nat -> B)
    (l : list A) (i : nat) :
  (forall a j, g (f a j) = h a) -> map g (mapi f l i) = map h l.
Proof.
  intros H. revert i. induction l as [|a l IH]; intros i; [reflexivity|].
  simpl. now rewrite H, IH.
Qed.

Lemma map_Forall2 {A B : Type} (R : A -> B -> Prop) (f : A -> B) (l : list A) :
  (forall a, In a l -> R a (f a)) -> List.Forall2 R l (map f l).
Proof.
  induction l as [|a l IH]; intros H; simpl; constructor.
  - apply H. now left.
  - apply IH. intros b Hb. apply H. now right.
Qed.

Section Levelling.
Variable tables : list Table.t.
Variable relationships : list Relationship.t.

Local Abbreviation ids := (universe tables relationships).

Lemma initialGraph_neighbours :
  neighboursKnown tables relationships (fst (initialGraph tables relationships)).
Proof.
  unfold initialGraph. cbv zeta.
  apply (fold_left_holds (fun p => neighboursKnown tables relationships (fst p))).
  - apply (fold_left_holds (fun p => neighboursKnown tables relationships (fst p))).
    + intros k ns H. discriminate.
    + intros [adjacency degrees] t _ Hp. unfold neighboursKnown in *. simpl in *.
      intros k ns. rewrite mapGet_mapSet.
      destruct (String.eqb _ k); [|apply Hp].
      intros [= <-]. intros x [].
  - intros [adjacency degrees] rel Hin Hp. unfold neighboursKnown in *. simpl in *.
    destruct (mapGet (Relationship.sourceTableId rel) adjacency) as [targets|] eqn:Hg;
      [|exact Hp].
    simpl. intros k ns. rewrite mapGet_mapSet.
    destruct (String.eqb _ k); [|apply Hp].
    intros [= <-]. apply setAdd_incl; [|exact (Hp _ _ Hg)].
    unfold universe. apply in_or_app. right. now apply in_map.
Qed.

(** *** Hierarchical: the loop *)

Lemma relax_fold (neighbors : list string) (st : levelling) :
  visited (fold_left relax neighbors st) = visited st
  /\ levels (fold_left relax neighbors st) = levels st
  /\ (incl neighbors ids -> incl (queue st) ids ->
      incl (queue (fold_left relax neighbors st)) ids).
Proof.
  revert st. induction neighbors as [|n neighbors IH]; intros st; simpl.
  - auto.
  - destruct (IH (relax st n)) as (Hv & Hl & Hq).
    rewrite Hv, Hl.
    assert (Hr : visited (relax st n) = visited st /\ levels (relax st n) = levels st
                 /\ (In n ids -> incl (queue st) ids -> incl (queue (relax st n)) ids)).
    { unfold relax. cbv zeta. destruct (_ && _); simpl; repeat split; auto.
      intros Hn Hqs. apply incl_app; [exact Hqs|]. intros x [<-|[]]. exact Hn. }
    destruct Hr as (Hrv & Hrl & Hrq).
    split; [exact Hrv|]. split; [exact Hrl|].
    intros Hn Hqs. apply Hq.
    + intros x Hx. apply Hn. now right.
    + apply Hrq; [apply Hn; now left | exact Hqs].
Qed.

(** A visit keeps the state steady and the levels, and either leaves
    the visited nodes and the queue as they are, or visits one node
    more. *)
Lemma visit_steady (adjacency : list (string * list string)) (st : levelling)
    (nodeId : string) :
  neighboursKnown tables relationships adjacency -> In nodeId ids -> steady tables relationships st ->
  steady tables relationships (visit adjacency st nodeId)
  /\ levels (visit adjacency st nodeId) = levels st
  /\ ((visited (visit adjacency st nodeId) = visited st
       /\ queue (visit adjacency st nodeId) = queue st)
      \/ length (visited (visit adjacency st nodeId)) = S (length (visited st))).
Proof.
  intros Hadj Hid (Hnd & Hv & Hq). unfold visit.
  destruct (setHas nodeId (visited st)) eqn:Hhas.
  - repeat split; auto.
  - cbv zeta.
    assert (Hadd : setAdd nodeId (visited st) = visited st ++ [ nodeId ])
      by (unfold setAdd; now rewrite Hhas).
    apply setHas_notIn in Hhas.
    rewrite Hadd.
    assert (Hnd' : List.NoDup (visited st ++ [ nodeId ])).
    { apply List.NoDup_app; [exact Hnd | |].
      - apply List.NoDup_cons; [intros [] | constructor].
      - intros x Hx [<-|[]]. contradiction. }
    assert (Hv' : incl (visited st ++ [ nodeId ]) ids).
    { apply incl_app; [exact Hv|]. intros x [<-|[]]. exact Hid. }
    assert (Hlen : length (visited st ++ [ nodeId ]) = S (length (visited st))).
    { rewrite length_app. simpl. lia. }
    destruct (mapGet nodeId adjacency) as [neighbors|] eqn:Hg.
    + destruct (relax_fold neighbors
                  (mkLevelling (inDegree st) (visited st ++ [ nodeId ]) (queue st)
                               (levels st))) as (Hfv & Hfl & Hfq).
      simpl in Hfv, Hfl, Hfq. unfold steady. rewrite Hfv, Hfl.
      repeat split; auto.
      apply Hfq; [exact (Hadj _ _ Hg) | exact Hq].
    + simpl. unfold steady. simpl. repeat split; auto.
Qed.

(** A turn keeps the state steady, pushes a level, and either empties
    the queue without forgetting a visited node, or visits more. *)
Lemma levelStep_steady (adjacency : list (string * list string)) (st : levelling) :
  neighboursKnown tables relationships adjacency -> steady tables relationships st ->
  steady tables relationships (levelStep adjacency st)
  /\ levels (levelStep adjacency st) <> []
  /\ ((queue (levelStep adjacency st) = []
       /\ length (visited (levelStep adjacency st)) = length (visited st))
      \/ length (visited st) < length (visited (levelStep adjacency st)))%nat.
Proof.
  intros Hadj (Hnd & Hv & Hq). unfold levelStep. cbv zeta.
  set (start := mkLevelling (inDegree st) (visited st) [] (levels st ++ [ queue st ])).
  assert (Hstart : steady tables relationships start
                   /\ levels start <> []
                   /\ ((queue start = [] /\ length (visited start) = length (visited st))
                       \/ length (visited st) < length (visited start))%nat).
  { unfold steady, start. simpl.
    split; [repeat split; auto; intros x []|].
    split; [intros He; apply app_eq_nil in He as [_ He]; discriminate|].
    left. split; reflexivity. }
  revert Hstart. generalize start. clear start.
  induction (queue st) as [|nodeId level IH]; intros cur Hcur; simpl; [exact Hcur|].
  apply IH.
  - intros x Hx. apply Hq. now right.
  - destruct Hcur as (Hs & Hl & Hprog).
    destruct (visit_steady adjacency cur nodeId Hadj (Hq nodeId (or_introl eq_refl)) Hs)
      as (Hs' & Hl' & Hstep).
    split; [exact Hs'|]. split; [now rewrite Hl'|].
    destruct Hstep as [[Hsv Hsq]|Hmore].
    + rewrite Hsv, Hsq. exact Hprog.
    + right. destruct Hprog as [[_ Hsame]|Hlt]; lia.
Qed.

(** The loop comes to an end within the turns it is given. *)
Lemma levelLoop_ends (adjacency : list (string * list string)) (fuel : nat)
    (st : levelling) :
  neighboursKnown tables relationships adjacency -> steady tables relationships st ->
  (2 * (length ids - length (visited st))
   + (match queue st with [] => 0 | _ :: _ => 1 end) < fuel)%nat ->
  exists final,
    levelLoop fuel adjacency st = Some final
    /\ (final = st \/ levels final <> []).
Proof.
  intros Hadj. revert st. induction fuel as [|fuel IH]; intros st Hst Hfuel; [lia|].
  simpl. destruct (queue st) as [|n q] eqn:Hq.
  - exists st. split; [reflexivity | now left].
  - destruct (levelStep_steady adjacency st Hadj Hst) as (Hst' & Hl & Hprog).
    assert (Hbound : (length (visited (levelStep adjacency st)) <= length ids)%nat).
    { destruct Hst' as (Hnd & Hv & _). now apply List.NoDup_incl_length. }
    destruct (IH (levelStep adjacency st) Hst') as (final & Hfinal & Hlev).
    + destruct Hprog as [[Hempty Hsame]|Hmore].
      * rewrite Hempty, Hsame. lia.
      * destruct (queue (levelStep adjacency st)); lia.
    + exists final. split; [exact Hfinal|]. right.
      destruct Hlev as [->|Hne]; assumption.
Qed.

(** With the turns it is given, the loop of the layout ends. *)
Lemma levelLoop_of_layout :
  exists final,
    levelLoop (turns tables relationships) (fst (initialGraph tables relationships))
              (mkLevelling (snd (initialGraph tables relationships)) []
                           (rootsOf tables (snd (initialGraph tables relationships))) [])
    = Some final
    /\ (visited final = [] \/ levels final <> []).
Proof.
  set (start := mkLevelling _ _ _ _).
  destruct (levelLoop_ends (fst (initialGraph tables relationships))
              (turns tables relationships) start) as (final & Hfinal & Hl).
  - apply initialGraph_neighbours.
  - unfold steady, start. simpl. repeat split.
    + constructor.
    + intros x [].
    + intros x Hx. unfold rootsOf in Hx. apply in_map_iff in Hx.
      destruct Hx as (t & <- & Ht). apply List.filter_In in Ht. destruct Ht as [Ht _].
      unfold universe. apply in_or_app. left. now apply in_map.
  - unfold turns, start. simpl. destruct (rootsOf _ _); lia.
  - exists final. split; [exact Hfinal|].
    destruct Hl as [->|Hne]; [left; reflexivity | now right].
Qed.

End Levelling.

(** *** Hierarchical: the levels *)

Lemma levelMapOf_bound (levels : list (list string)) (k : string) (index : nat) :
  mapGet k (levelMapOf levels) = Some index -> (index < length levels)%nat.
Proof.
  unfold levelMapOf.
  revert k index.
  apply (fold_left_holds
           (fun m => forall k index, mapGet k m = Some index -> (index < length levels)%nat)).
  - intros k index H. discriminate.
  - intros m [level i] Hin Hm.
    apply in_combine_r in Hin. apply in_seq in Hin.
    apply (fold_left_holds
             (fun m => forall k index, mapGet k m = Some index -> (index < length levels)%nat));
      [exact Hm|].
    intros m' nodeId _ Hm' k index. rewrite mapGet_mapSet.
    destruct (String.eqb nodeId k); [|apply Hm'].
    intros [= <-]. lia.
Qed.

Lemma withRemaining_level (tables : list Table.t) (st : levelling) (t : Table.t) :
  In t tables -> (visited st = [] \/ levels st <> []) ->
  exists levelTables,
    nth_error (withRemaining tables st)
              (default O (mapGet (Table.id t) (levelMapOf (withRemaining tables st))))
    = Some levelTables.
Proof.
  intros Hin Hl.
  assert (Hlt : (default O (mapGet (Table.id t) (levelMapOf (withRemaining tables st)))
                 < length (withRemaining tables st))%nat).
  { destruct (mapGet _ _) as [index|] eqn:Hg; simpl.
    - now apply levelMapOf_bound in Hg.
    - unfold withRemaining. cbv zeta.
      destruct (List.filter _ tables) as [|r rest] eqn:Hrem; simpl.
      + (* nothing remains: the table was visited, so a level was pushed *)
        destruct Hl as [Hnone|Hsome].
        * exfalso.
          assert (Hf : ~ In t (List.filter
                                (fun t => negb (setHas (Table.id t) (visited st))) tables))
            by (rewrite Hrem; intros []).
          apply Hf. apply List.filter_In. split; [exact Hin|].
          rewrite Hnone. reflexivity.
        * destruct (levels st); [congruence | simpl; lia].
      + rewrite length_app. simpl. lia. }
  destruct (nth_error _ _) as [levelTables|] eqn:Hn; [eauto|].
  apply nth_error_None in Hn. lia.
Qed.

Lemma placeInLevels_laidOut (options : LayoutOptions) (levels : list (list string))
    (levelMap : list (string * nat)) (ts : list Table.t) :
  finite (Position.x (spacing options)) -> finite (Position.y (spacing options)) ->
  finite (Position.x (centerOffset options)) ->
  finite (Position.y (centerOffset options)) ->
  (forall t, In t ts ->
     exists levelTables,
       nth_error levels (default O (mapGet (Table.id t) levelMap)) = Some levelTables) ->
  laidOut ts (placeInLevels options levels levelMap ts).
Proof.
  intros Hsx Hsy Hcx Hcy. induction ts as [|t ts IH]; intros Hlev.
  - exists []. repeat split; constructor.
  - destruct (Hlev t (or_introl eq_refl)) as (levelTables & Hn).
    destruct IH as (placed & Hp & Hlen & Hsame & Hfin).
    { intros t' Ht'. apply Hlev. now right. }
    cbn [placeInLevels]. cbv zeta. rewrite Hn, Hp.
    eexists. split; [reflexivity|]. split; [simpl; now rewrite Hlen|]. split.
    + constructor; [apply sameContent_withPosition | exact Hsame].
    + constructor; [|exact Hfin].
      apply finitePosition_withPosition.
      * apply finite_add; [exact Hcx|]. apply finite_mul; [|exact Hsx].
        apply finite_sub; [apply finite_ofZ|].
        apply finite_div; [apply finite_ofNat | now apply nonzero_ofZ].
      * apply finite_add; [exact Hcy|]. apply finite_mul; [apply finite_ofNat | exact Hsy].
Qed.

Lemma hierarchicalLayout_laidOut (tables : list Table.t)
    (relationships : list Relationship.t) (options : LayoutOptions) :
  finite (Position.x (spacing options)) -> finite (Position.y (spacing options)) ->
  finite (Position.x (centerOffset options)) ->
  finite (Position.y (centerOffset options)) ->
  laidOut tables (hierarchicalLayout tables relationships options).
Proof.
  intros Hsx Hsy Hcx Hcy. unfold hierarchicalLayout. cbv zeta.
  destruct (levelLoop_of_layout tables relationships) as (final & -> & Hl).
  apply placeInLevels_laidOut; auto.
  intros t Ht. now apply withRemaining_level.
Qed.


Section Layout.
Variable sqrt cos sin : number -> number.
Variable atan2 : number -> number -> number.
Variable random : nat -> number.
Hypothesis math : soundMath sqrt cos sin atan2 random.

Lemma sqrt_finite (q : Q) : (0 <= q)%Q -> finite (sqrt (Num.Fin q)).
Proof.
  intros Hq. destruct math as (Hs & _). destruct (Hs q Hq) as (r & -> & _). reflexivity.
Qed.

Lemma sqrt_positive (q : Q) :
  (0 < q)%Q -> exists r, sqrt (Num.Fin q) = Num.Fin r /\ (0 < r)%Q.
Proof.
  intros Hq. destruct math as (Hs & _).
  destruct (Hs q (Qlt_le_weak _ _ Hq)) as (r & Hr & Hpos). eauto.
Qed.

Lemma cos_finite (n : number) : finite n -> finite (cos n).
Proof. destruct math as (_ & H & _). apply H. Qed.

Lemma sin_finite (n : number) : finite n -> finite (sin n).
Proof. destruct math as (_ & _ & H & _). apply H. Qed.

Lemma atan2_finite (a b : number) : finite a -> finite b -> finite (atan2 a b).
Proof. destruct math as (_ & _ & _ & H & _). apply H. Qed.

Lemma random_finite (i : nat) : finite (random i).
Proof. destruct math as (_ & _ & _ & _ & H). apply H. Qed.

Lemma sqrt_ofNat_finite (n : nat) : finite (sqrt (Num.ofNat n)).
Proof.
  apply sqrt_finite. unfold Qle. simpl. lia.
Qed.

Lemma sqrt_ofNat_positive (n : nat) :
  n <> O -> exists r, sqrt (Num.ofNat n) = Num.Fin r /\ (0 < r)%Q.
Proof.
  intros Hn. apply sqrt_positive. unfold Qlt. simpl. lia.
Qed.

(** *** Grid *)

Lemma ceil_positive (r : Q) : (0 < r)%Q -> nonzero (Num.ceil (Num.Fin r)).
Proof.
  intros Hr. simpl. apply nonzero_ofZ.
  pose proof (Qle_ceiling r) as Hc.
  assert (H : (0 < inject_Z (Qceiling r))%Q) by (eapply Qlt_le_trans; eauto).
  unfold Qlt in H. simpl in H. lia.
Qed.

Lemma gridLayout_laidOut (tables : list Table.t) (options : LayoutOptions) :
  tables <> [] ->
  finite (Position.x (spacing options)) -> finite (Position.y (spacing options)) ->
  finite (Position.x (centerOffset options)) ->
  finite (Position.y (centerOffset options)) ->
  laidOut tables (Returns (gridLayout sqrt tables options)).
Proof.
  intros Hne Hsx Hsy Hcx Hcy.
  assert (Hlen : length tables <> O) by (destruct tables; [congruence | discriminate]).
  destruct (sqrt_ofNat_positive _ Hlen) as (r & Hr & Hpos).
  pose proof (ceil_positive r Hpos) as Hcols.
  exists (gridLayout sqrt tables options). unfold gridLayout. cbv zeta. rewrite Hr.
  split; [reflexivity|]. split; [apply mapi_length|]. split.
  - apply mapi_Forall2. intros. apply sameContent_withPosition.
  - apply mapi_Forall. intros t j. apply finitePosition_withPosition.
    + apply finite_add; [exact Hcx|]. apply finite_mul; [|exact Hsx].
      apply finite_rem; [apply finite_ofNat | exact Hcols].
    + apply finite_add; [exact Hcy|]. apply finite_mul; [|exact Hsy].
      apply finite_floor, finite_div; [apply finite_ofNat | exact Hcols].
Qed.

(** *** Circular *)

Lemma circularLayout_laidOut (tables : list Table.t) (options : LayoutOptions) :
  tables <> [] ->
  finite (Position.x (spacing options)) -> finite (Position.y (spacing options)) ->
  finite (Position.x (centerOffset options)) ->
  finite (Position.y (centerOffset options)) ->
  laidOut tables (Returns (circularLayout sqrt cos sin tables options)).
Proof.
  intros Hne Hsx Hsy Hcx Hcy.
  assert (Hlen : length tables <> O) by (destruct tables; [congruence | discriminate]).
  assert (Htwo : nonzero (Num.mul (Num.ofZ 2) Num.PI))
    by (apply nonzero_mul; [now apply nonzero_ofZ | apply nonzero_PI]).
  assert (Hradius :
            finite (Num.div (Num.mul (Num.min (Position.x (spacing options))
                                              (Position.y (spacing options)))
                                     (sqrt (Num.ofNat (length tables))))
                            (Num.mul (Num.ofZ 2) Num.PI))).
  { apply finite_div; [|exact Htwo].
    apply finite_mul; [now apply finite_min | apply sqrt_ofNat_finite]. }
  exists (circularLayout sqrt cos sin tables options). unfold circularLayout. cbv zeta.
  split; [reflexivity|]. split; [apply mapi_length|]. split.
  - apply mapi_Forall2. intros. apply sameContent_withPosition.
  - apply mapi_Forall. intros t j.
    assert (Hangle :
              finite (Num.sub (Num.div (Num.mul (Num.mul (Num.ofZ 2) Num.PI) (Num.ofNat j))
                                       (Num.ofNat (length tables)))
                              (Num.div Num.PI (Num.ofZ 2)))).
    { apply finite_sub.
      - apply finite_div; [|now apply nonzero_ofNat].
        apply finite_mul; [apply Htwo | apply finite_ofNat].
      - apply finite_div; [apply nonzero_PI | now apply nonzero_ofZ]. }
    apply finitePosition_withPosition; apply finite_round, finite_add; auto;
      apply finite_mul; auto; [now apply cos_finite | now apply sin_finite].
Qed.

(** *** Force-directed *)

Lemma squares_finite (a b : number) :
  finite a -> finite b -> finite (sqrt (Num.add (Num.mul a a) (Num.mul b b))).
Proof.
  intros [p ->]%finite_inv [q ->]%finite_inv. simpl.
  apply sqrt_finite, squares_nonnegative.
Qed.

Lemma distance_nonzero (dx dy : number) :
  finite dx -> finite dy -> nonzero (distance sqrt dx dy).
Proof.
  intros Hx Hy. unfold distance. apply nonzero_orNumber; [|discriminate].
  now apply squares_finite.
Qed.

Lemma addVelocity_sound (dvx dvy : number) (n : GraphNode) :
  finite dvx -> finite dvy -> soundNode n -> soundNode (addVelocity dvx dvy n).
Proof.
  intros Hx Hy (Hnx & Hny & Hvx & Hvy). unfold soundNode. simpl.
  repeat split; auto using finite_add.
Qed.

Lemma subVelocity_sound (dvx dvy : number) (n : GraphNode) :
  finite dvx -> finite dvy -> soundNode n -> soundNode (subVelocity dvx dvy n).
Proof.
  intros Hx Hy (Hnx & Hny & Hvx & Hvy). unfold soundNode. simpl.
  repeat split; auto using finite_sub.
Qed.

Lemma push_sound (ids : list string) (nodes : list GraphNode) (i j : nat)
    (dvx dvy : number) :
  finite dvx -> finite dvy -> soundNodes ids nodes ->
  soundNodes ids (alter (addVelocity dvx dvy) j (alter (subVelocity dvx dvy) i nodes))
  /\ soundNodes ids (alter (subVelocity dvx dvy) j (alter (addVelocity dvx dvy) i nodes)).
Proof.
  intros Hx Hy [Hs Hids]. unfold soundNodes.
  rewrite !alter_ids by reflexivity.
  repeat split; auto;
    repeat (apply Forall_alter; [|intros; auto using addVelocity_sound, subVelocity_sound]);
    exact Hs.
Qed.

Lemma repel_sound (ids : list string) (k : number) (nodes : list GraphNode) (i j : nat) :
  nonzero k -> soundNodes ids nodes -> soundNodes ids (repel sqrt k nodes i j).
Proof.
  intros Hk Hn. unfold repel.
  destruct (nodes !! i) as [ni|] eqn:Hi; [|exact Hn].
  destruct (nodes !! j) as [nj|] eqn:Hj; [|exact Hn].
  cbv zeta. destruct (Num.lt _ _); [|exact Hn].
  destruct Hn as [Hs Hids].
  pose proof (Forall_lookup_1 _ _ _ _ Hs Hi) as (Hix & Hiy & _).
  pose proof (Forall_lookup_1 _ _ _ _ Hs Hj) as (Hjx & Hjy & _).
  assert (Hdx : finite (Num.sub (x nj) (x ni))) by now apply finite_sub.
  assert (Hdy : finite (Num.sub (y nj) (y ni))) by now apply finite_sub.
  pose proof (distance_nonzero _ _ Hdx Hdy) as Hd.
  assert (Hforce : finite (Num.div (Num.mul k k)
                             (distance sqrt (Num.sub (x nj) (x ni)) (Num.sub (y nj) (y ni)))))
    by (apply finite_div; [apply finite_mul; apply Hk | exact Hd]).
  apply push_sound; [| |now split]; apply finite_mul; auto; now apply finite_div.
Qed.

Lemma repelAll_sound (ids : list string) (k : number) (nodes : list GraphNode) :
  nonzero k -> soundNodes ids nodes -> soundNodes ids (repelAll sqrt k nodes).
Proof.
  intros Hk Hn. unfold repelAll.
  apply (fold_left_holds (soundNodes ids)); [exact Hn|].
  intros cur i _ Hcur.
  apply (fold_left_holds (soundNodes ids)); [exact Hcur|].
  intros cur' j _ Hcur'. now apply repel_sound.
Qed.

Lemma attract_sound (ids : list string) (k : number) (nodes : list GraphNode)
    (edge : Relationship.t) :
  nonzero k -> soundNodes ids nodes -> soundNodes ids (attract sqrt k nodes edge).
Proof.
  intros Hk Hn. unfold attract.
  destruct (findNode _ nodes) as [si|]; [|exact Hn].
  destruct (findNode _ nodes) as [ti|]; [|exact Hn].
  destruct (nodes !! si) as [ns|] eqn:Hi; [|exact Hn].
  destruct (nodes !! ti) as [nt|] eqn:Hj; [|exact Hn].
  cbv zeta.
  destruct Hn as [Hs Hids].
  pose proof (Forall_lookup_1 _ _ _ _ Hs Hi) as (Hix & Hiy & _).
  pose proof (Forall_lookup_1 _ _ _ _ Hs Hj) as (Hjx & Hjy & _).
  assert (Hdx : finite (Num.sub (x nt) (x ns))) by now apply finite_sub.
  assert (Hdy : finite (Num.sub (y nt) (y ns))) by now apply finite_sub.
  pose proof (distance_nonzero _ _ Hdx Hdy) as Hd.
  assert (Hforce :
            finite (Num.div
                      (Num.mul
                         (distance sqrt (Num.sub (x nt) (x ns)) (Num.sub (y nt) (y ns)))
                         (distance sqrt (Num.sub (x nt) (x ns)) (Num.sub (y nt) (y ns))))
                      k))
    by (apply finite_div; [apply finite_mul; apply Hd | exact Hk]).
  apply push_sound; [| |now split]; apply finite_mul; auto; now apply finite_div.
Qed.

Lemma move_sound (t : number) (n : GraphNode) :
  finite t -> soundNode n -> soundNode (move sqrt cos sin atan2 t n).
Proof.
  intros Ht (Hx & Hy & Hvx & Hvy). unfold move, soundNode.
  destruct (fx n); simpl; repeat split; auto using finite_ofZ.
  - apply finite_add; [exact Hx|]. apply finite_mul.
    + now apply cos_finite, atan2_finite.
    + apply finite_min; [now apply squares_finite | exact Ht].
  - apply finite_add; [exact Hy|]. apply finite_mul.
    + now apply sin_finite, atan2_finite.
    + apply finite_min; [now apply squares_finite | exact Ht].
Qed.

Lemma move_id (t : number) (n : GraphNode) : id (move sqrt cos sin atan2 t n) = id n.
Proof. unfold move. now destruct (fx n). Qed.

Lemma turn_sound (ids : list string) (k temperature iterations : number)
    (edges : list Relationship.t) (nodes : list GraphNode) (iter : nat) :
  nonzero k -> finite temperature -> nonzero iterations ->
  soundNodes ids nodes ->
  soundNodes ids (turn sqrt cos sin atan2 k temperature iterations edges nodes iter).
Proof.
  intros Hk Ht Hi Hn. unfold turn. cbv zeta.
  assert (Hcool : finite (Num.mul temperature
                            (Num.sub (Num.ofZ 1) (Num.div (Num.ofNat iter) iterations)))).
  { apply finite_mul; [exact Ht|]. apply finite_sub; [apply finite_ofZ|].
    apply finite_div; [apply finite_ofNat | exact Hi]. }
  assert (Hpulled : soundNodes ids (fold_left (attract sqrt k) edges (repelAll sqrt k nodes))).
  { apply (fold_left_holds (soundNodes ids)); [now apply repelAll_sound|].
    intros cur edge _ Hcur. now apply attract_sound. }
  destruct Hpulled as [Hs Hids]. split.
  - apply Forall_map. eapply Forall_impl; [exact Hs|]. intros n Hsound. now apply move_sound.
  - rewrite <- Hids, map_map. apply map_ext. intros n. apply move_id.
Qed.

Lemma sumOf_finite (f : GraphNode -> number) (nodes : list GraphNode) :
  Forall (fun n => finite (f n)) nodes -> finite (sumOf f nodes).
Proof.
  intros Hf. unfold sumOf.
  apply (fold_left_holds finite); [apply finite_ofZ|].
  intros sum n Hin Hsum. apply finite_add; [exact Hsum|].
  rewrite List.Forall_forall in Hf. now apply Hf.
Qed.

Lemma findNode_found (key : string) (nodes : list GraphNode) :
  In key (map id nodes) ->
  exists at_ node, findNode key nodes = Some at_ /\ nodes !! at_ = Some node.
Proof.
  induction nodes as [|n nodes IH]; intros Hin; [destruct Hin|].
  simpl. destruct (String.eqb (id n) key) eqn:He.
  - exists O, n. now split.
  - destruct Hin as [Heq|Hin]; [apply String.eqb_neq in He; contradiction|].
    destruct (IH Hin) as (at_ & node & -> & Hl).
    exists (S at_), node. now split.
Qed.

Lemma forceDirectedLayout_laidOut (tables : list Table.t)
    (relationships : list Relationship.t) (options : LayoutOptions) :
  tables <> [] ->
  finite (Position.x (spacing options)) -> finite (Position.y (spacing options)) ->
  finite (Position.x (centerOffset options)) ->
  finite (Position.y (centerOffset options)) ->
  nonzero (sqrt (Num.div (Num.mul (Position.x (spacing options))
                                  (Position.y (spacing options)))
                         (Num.ofNat (length tables)))) ->
  finite (iterationsOf options) ->
  laidOut tables (forceDirectedLayout sqrt cos sin atan2 random tables relationships options).
Proof.
  intros Hne Hsx Hsy Hcx Hcy Hk Hiter.
  assert (Hlen : length tables <> O) by (destruct tables; [congruence | discriminate]).
  assert (Hiterations : nonzero (iterationsOf options)).
  { split; [exact Hiter|]. unfold iterationsOf in *.
    destruct (iterations options) as [n|]; [|reflexivity].
    unfold orNumber in *. destruct (Num.truthy n) eqn:Hn; [exact Hn | reflexivity]. }
  unfold forceDirectedLayout. cbv zeta.
  destruct (turnsOf (iterationsOf options)) as [count|] eqn:Hturns.
  2:{ destruct (finite_inv _ Hiter) as [q Hq]. rewrite Hq in Hturns. discriminate. }
  set (start := mapi _ tables O).
  set (k := sqrt _) in *.
  set (temperature := Num.div _ (Num.ofZ 10)).
  assert (Hstart : soundNodes (map Table.id tables) start).
  { unfold start. split.
    - apply mapi_Forall. intros t j. unfold soundNode. simpl.
      repeat split; auto;
        apply finite_mul; try apply finite_ofZ;
        apply finite_mul; auto; apply random_finite.
    - now apply mapi_map. }
  assert (Hend : soundNodes (map Table.id tables)
                   (fold_left (turn sqrt cos sin atan2 k temperature (iterationsOf options)
                                    relationships)
                              (List.seq 0 count) start)).
  { apply (fold_left_holds (soundNodes (map Table.id tables))); [exact Hstart|].
    intros cur iter _ Hcur. apply turn_sound; auto.
    unfold temperature. apply finite_div; [now apply finite_max | now apply nonzero_ofZ]. }
  set (final := fold_left _ _ start) in *.
  destruct Hend as [Hs Hids].
  assert (Hcount : nonzero (Num.ofNat (length final))).
  { apply nonzero_ofNat. rewrite <- (length_map id), Hids, length_map. exact Hlen. }
  assert (Hox : finite (Num.sub (Position.x (centerOffset options))
                                (Num.div (sumOf x final) (Num.ofNat (length final))))).
  { apply finite_sub; [exact Hcx|]. apply finite_div; [|exact Hcount].
    apply sumOf_finite. eapply Forall_impl; [exact Hs|]. now intros n (H & _). }
  assert (Hoy : finite (Num.sub (Position.y (centerOffset options))
                                (Num.div (sumOf y final) (Num.ofNat (length final))))).
  { apply finite_sub; [exact Hcy|]. apply finite_div; [|exact Hcount].
    apply sumOf_finite. eapply Forall_impl; [exact Hs|]. now intros n (_ & H & _). }
  eexists. split; [reflexivity|]. split; [apply length_map|].
  assert (Hfound : forall t, In t tables ->
            exists at_ node, findNode (Table.id t) final = Some at_
                             /\ final !! at_ = Some node /\ soundNode node).
  { intros t Ht.
    destruct (findNode_found (Table.id t) final) as (at_ & node & Hf & Hl).
    - rewrite Hids. now apply in_map.
    - exists at_, node. split; [exact Hf|]. split; [exact Hl|].
      exact (Forall_lookup_1 _ _ _ _ Hs Hl). }
  split.
  - apply map_Forall2. intros t Ht.
    destruct (Hfound t Ht) as (at_ & node & -> & -> & _).
    apply sameContent_withPosition.
  - apply Forall_map, List.Forall_forall. intros t Ht.
    destruct (Hfound t Ht) as (at_ & node & -> & -> & Hnx & Hny & _).
    apply finitePosition_withPosition; apply finite_round, finite_add; auto.
Qed.

(** *** [layoutTables] *)

Lemma default_k_nonzero (n : nat) :
  n <> O ->
  nonzero (sqrt (Num.div (Num.mul (Position.x (spacing DEFAULT_OPTIONS))
                                  (Position.y (spacing DEFAULT_OPTIONS)))
                         (Num.ofNat n))).
Proof.
  intros Hn.
  assert (Hq : exists q,
             Num.div (Num.mul (Position.x (spacing DEFAULT_OPTIONS))
                              (Position.y (spacing DEFAULT_OPTIONS)))
                     (Num.ofNat n) = Num.Fin q /\ (0 < q)%Q).
  { unfold Num.ofNat, Num.ofZ. simpl.
    destruct (Num.isZeroQ (inject_Z (Z.of_nat n))) eqn:Hz.
    - apply Qeq_bool_iff in Hz. unfold Qeq in Hz. simpl in Hz. lia.
    - eexists. split; [reflexivity|]. rewrite Qred_correct.
      apply Qlt_shift_div_l; [unfold Qlt; simpl; lia|].
      rewrite Qmult_0_l. reflexivity. }
  destruct Hq as (q & -> & Hq).
  destruct (sqrt_positive q Hq) as (r & -> & Hr). now apply nonzero_positive.
Qed.

(** C9: for every list of tables that is not empty, every list of
    relationships and every choice of the algorithm (the four names, and
    any other string, which takes the force-directed layout),
    [layoutTables] returns as many tables as it was given; each one has
    the id, name, columns, description and colour of the table at the
    same place of the input, and a position whose coordinates are finite
    numbers. Numbers are exact, and the platform's functions are as
    [soundMath] says. *)
Theorem layout_keeps_tables_and_places_them (tables : list Table.t)
    (relationships : list Relationship.t) (algorithm : string) :
  tables <> [] ->
  laidOut tables
    (layoutTables sqrt cos sin atan2 random tables relationships (choose algorithm)).
Proof.
  intros Hne.
  assert (Hlen : length tables <> O) by (destruct tables; [congruence | discriminate]).
  destruct finite_default_spacing as (Hsx & Hsy & Hcx & Hcy).
  assert (Hforce :
            laidOut tables
              (forceDirectedLayout sqrt cos sin atan2 random tables relationships
                 (withDefaults (choose algorithm)))).
  { apply forceDirectedLayout_laidOut; auto. now apply default_k_nonzero. }
  unfold layoutTables. cbv zeta.
  destruct (String.eqb _ "grid"); [now apply gridLayout_laidOut|].
  destruct (String.eqb _ "hierarchical"); [now apply hierarchicalLayout_laidOut|].
  destruct (String.eqb _ "force-directed"); [exact Hforce|].
  destruct (String.eqb _ "circular"); [now apply circularLayout_laidOut | exact Hforce].
Qed.

End Layout.

(** The platform of the examples is sound. *)
Lemma integer_math_sound : soundMath integerSqrt flatCos flatSin flatAtan2 halves.
Proof.
  repeat split.
  intros q Hq. exists (inject_Z (Z.sqrt (Qceiling q))). split; [reflexivity|].
  intros Hpos.
  pose proof (Qle_ceiling q) as Hc.
  assert (H : (0 < inject_Z (Qceiling q))%Q) by (eapply Qlt_le_trans; eauto).
  unfold Qlt in H. simpl in H.
  assert (0 < Z.sqrt (Qceiling q))%Z by (apply Z.sqrt_pos; lia).
  unfold Qlt. simpl. lia.
Qed.

(** The two tables of [shop], laid out by the force-directed
    algorithm. *)
Lemma layout_of_shop :
  laidOut (Schema.tables shop)
    (layoutTables integerSqrt flatCos flatSin flatAtan2 halves
       (Schema.tables shop) (Schema.relationships shop) (choose "force-directed")).
Proof.
  apply (layout_keeps_tables_and_places_them
           integerSqrt flatCos flatSin flatAtan2 halves integer_math_sound).
  discriminate.
Defined.

End LayoutFacts.

(** ** The recommendation of a layout *)

Module AdviceFacts.
Import AutoLayout LayoutAdvice LayoutTerms.

Section Search.
Variable tables : list Table.t.
Variable relationships : list Relationship.t.

Local Abbreviation ids := (universe tables relationships).





End Search.



End AdviceFacts.

(** ** Further properties of the Django importer *)

Module ImporterFacts.
Import RegExp DjangoImporter DjangoTerms MoreTerms.







(** *** The ids of the columns *)

Lemma afterLast_digits (d : Decimal.uint) : afterLast (NilEmpty.string_of_uint d) = None.
Proof. induction d; simpl; rewrite ?IHd; reflexivity. Qed.

Lemma afterLast_ofNat (n : nat) : afterLast (JS.ofNat n) = None.
Proof.
  unfold JS.ofNat, NilZero.string_of_uint.
  destruct (Nat.to_uint n); try apply (afterLast_digits (_ _)); reflexivity.
Qed.

Lemma afterLast_app (p s t : string) :
  afterLast s = Some t -> afterLast (p +++ s) = Some t.
Proof.
  intros H. induction p as [|c p IH]; [exact H|].
  simpl. change (String.append p s) with (p +++ s). now rewrite IH.
Qed.

Lemma afterLast_counter (p : string) (n : nat) :
  afterLast (p +++ "_" +++ JS.ofNat n) = Some (JS.ofNat n).
Proof.
  apply afterLast_app. simpl. now rewrite afterLast_ofNat.
Qed.

Lemma to_uint_not_Nil (n : nat) : Nat.to_uint n <> Decimal.Nil.
Proof.
  rewrite <- (DecimalNat.Unsigned.of_to n) at 1.
  rewrite DecimalNat.Unsigned.to_of. unfold Decimal.unorm.
  destruct (Decimal.nzhead (Nat.to_uint n)); discriminate.
Qed.

Lemma ofNat_inj (a b : nat) : JS.ofNat a = JS.ofNat b -> a = b.
Proof.
  unfold JS.ofNat. intros H.
  apply DecimalNat.Unsigned.to_uint_inj.
  pose proof (NilZero.usu _ (to_uint_not_Nil a)) as Ha.
  pose proof (NilZero.usu _ (to_uint_not_Nil b)) as Hb.
  rewrite H in Ha. congruence.
Qed.

Section Ids.
Variable importId : N.

Lemma columnOfField_counter (tableName : string) (f : DjangoField.t) (k : nat) :
  afterLast (Column.id (columnOfField importId tableName f k)) = Some (JS.ofNat k).
Proof.
  cbn [columnOfField Column.id].
  apply afterLast_app, (afterLast_app "_"), afterLast_app, (afterLast_app "_").
  apply afterLast_counter.
Qed.

Lemma columnsOfFields_counters (tableName : string) (fields : list DjangoField.t)
    (k : nat) :
  map afterLast (map Column.id (columnsOfFields importId tableName fields k))
  = map (fun i => Some (JS.ofNat i)) (List.seq k (length fields)).
Proof.
  revert k. induction fields as [|f fields IH]; intros k; [reflexivity|].
  cbn [columnsOfFields map length List.seq].
  now rewrite columnOfField_counter, IH.
Qed.

Lemma firstPass_counters (models : list DjangoModel.t) (i k : nat) :
  map afterLast (columnIds (firstPass importId models i k))
  = map (fun i => Some (JS.ofNat i))
        (List.seq k (length (flat_map DjangoModel.fields models))).
Proof.
  revert i k. induction models as [|m models IH]; intros i k; [reflexivity|].
  unfold columnIds in *. cbn [firstPass flat_map].
  rewrite map_app, length_app, List.seq_app, map_app.
  rewrite IH. f_equal. apply columnsOfFields_counters.
Qed.


(** *** What the second and the third pass keep *)

Lemma alterColumn_skeleton (ti ci : nat) (a b : string) (ts : list Table.t) :
  skeleton (alterColumn ti ci (fillIn a b) ts) = skeleton ts.
Proof.
  unfold skeleton, alterColumn. apply DjangoFacts.alter_same. intros t. simpl.
  f_equal. apply DjangoFacts.alter_same. intros c. unfold hasKey. simpl.
  destruct (Column.foreignKey c); reflexivity.
Qed.

Lemma find_In {A : Type} (p : A -> bool) (l : list A) (a : A) :
  find p l = Some a -> In a l /\ p a = true.
Proof. apply List.find_some. Qed.

Lemma skeleton_In (ts : list Table.t) (t : Table.t) :
  In t ts ->
  In (Table.id t, map (fun c => (Column.id c, hasKey c)) (Table.columns t)) (skeleton ts).
Proof.
  intros H. unfold skeleton.
  exact (in_map (fun t => (Table.id t,
                           map (fun c => (Column.id c, hasKey c)) (Table.columns t)))
                ts t H).
Qed.

Lemma targetColumnOf_In (t : Table.t) (c : Column.t) :
  targetColumnOf t = Some c -> In c (Table.columns t).
Proof.
  unfold targetColumnOf.
  destruct (find Column.primaryKey _) as [c1|] eqn:H1;
    [intros [= Hc]; subst c1; now apply find_In in H1|].
  destruct (find (fun c => String.eqb (Column.name c) "id") _) as [c2|] eqn:H2;
    [intros [= Hc]; subst c2; now apply find_In in H2|].
  destruct (Table.columns t) as [|c3 others]; [discriminate|].
  intros [= Hc]. subst c3. now left.
Qed.

Lemma targetTableOf_In lookup (ts : list Table.t) (name : string) (t : Table.t) :
  targetTableOf lookup ts name = Some t -> In t ts.
Proof.
  unfold targetTableOf. destruct (lookup_entry name lookup); [|discriminate].
  intros H. now apply find_In in H.
Qed.

Lemma lookup_In {A : Type} (l : list A) (i : nat) (a : A) : l !! i = Some a -> In a l.
Proof.
  revert i. induction l as [|b l IH]; intros [|i]; simpl; try discriminate.
  - intros [= ->]. now left.
  - intros H. right. now apply (IH i).
Qed.

Lemma resolveColumn_sound lookup1 lookup2 sk (st : store) (ti ci : nat) :
  soundStore sk st -> soundStore sk (resolveColumn lookup1 lookup2 st ti ci).
Proof.
  intros (Hsk & Hrel & Hkey). unfold soundStore, resolveColumn.
  destruct (tables st !! ti) as [table|] eqn:Hti; [|now repeat split].
  destruct (Table.columns table !! ci) as [column|] eqn:Hci; [|now repeat split].
  destruct (Column.foreignKey column) as [fk|] eqn:Hfk; [|now repeat split].
  destruct (String.eqb _ _); [|now repeat split].
  destruct (match lookup_entry _ lookup2 with Some m => Some m | None => _ end)
    as [djangoModel|]; [|now repeat split].
  destruct (find _ (DjangoModel.fields djangoModel)) as [djangoField|];
    [|now repeat split].
  destruct (match DjangoField.foreignKey djangoField with Some r => Some r | None => _ end)
    as [relationship|]; [|now repeat split].
  destruct (targetTableOf _ _ _) as [targetTable|] eqn:Htt; [|now repeat split].
  destruct (targetColumnOf targetTable) as [targetColumn|] eqn:Htc; [|now repeat split].
  apply targetTableOf_In in Htt. apply targetColumnOf_In in Htc.
  apply lookup_In in Hti, Hci.
  pose proof (skeleton_In _ _ Hti) as Hs. pose proof (skeleton_In _ _ Htt) as Ht.
  rewrite Hsk in Hs, Ht.
  cbn [tables relationships]. split; [|split].
  - now rewrite alterColumn_skeleton.
  - apply Forall_app. split; [exact Hrel|]. constructor; [|constructor].
    eexists _, _. split; [exact Hs|]. split; [exact Ht|]. simpl.
    split; [reflexivity|]. split; [reflexivity|]. right. split.
    + assert (Hk : hasKey column = true)
        by (unfold hasKey; rewrite Hfk; apply bool_decide_eq_true; eauto).
      rewrite <- Hk. exact (in_map (fun c => (Column.id c, hasKey c)) _ _ Hci).
    + rewrite map_map. now apply (in_map (fun c => Column.id c)).
  - unfold alterColumn. apply Forall_alter; [exact Hkey|].
    intros t _ Hcols. simpl. apply Forall_alter; [exact Hcols|].
    intros c _ Hc. unfold keyIn in *. simpl.
    destruct (Column.foreignKey c); [|exact I]. simpl. right.
    eexists. split; [exact Ht|]. split; [reflexivity|].
    simpl. rewrite map_map. now apply (in_map (fun c => Column.id c)).
Qed.

Lemma secondPass_sound lookup1 lookup2 sk (st : store) :
  soundStore sk st -> soundStore sk (secondPass lookup1 lookup2 st).
Proof.
  intros H. unfold secondPass.
  apply (DjangoFacts.fold_left_invariant (soundStore sk)); [exact H|].
  intros s ti Hs.
  apply (DjangoFacts.fold_left_invariant (soundStore sk)); [exact Hs|].
  intros s' ci Hs'. now apply resolveColumn_sound.
Qed.

Lemma thirdPass_sound lookup1 lookup2 sk (st : store) :
  soundStore sk st -> soundStore sk (thirdPass lookup1 lookup2 st).
Proof.
  intros (Hsk & Hrel & Hkey). unfold soundStore, thirdPass. cbn [tables relationships].
  split; [exact Hsk|]. split; [|exact Hkey].
  apply Forall_app. split; [exact Hrel|].
  apply List.Forall_forall. intros r Hr.
  apply in_flat_map in Hr. destruct Hr as (table & Htable & Hr).
  destruct (lookup_entry _ lookup2) as [djangoModel|]; [|destruct Hr].
  apply in_flat_map in Hr. destruct Hr as (f & _ & Hr).
  unfold manyToManyOf in Hr.
  destruct (DjangoField.manyToManyField f) as [m2m|]; [|destruct Hr].
  destruct (targetTableOf _ _ _) as [targetTable|] eqn:Htt; [|destruct Hr].
  destruct Hr as [<-|[]].
  apply targetTableOf_In in Htt.
  pose proof (skeleton_In _ _ Htable) as Hs. pose proof (skeleton_In _ _ Htt) as Ht.
  rewrite Hsk in Hs, Ht.
  eexists _, _. split; [exact Hs|]. split; [exact Ht|]. simpl.
  split; [reflexivity|]. split; [reflexivity|]. left. now repeat split.
Qed.

Lemma firstPass_keys (models : list DjangoModel.t) (i k : nat) sk :
  Forall (fun t => Forall (keyIn sk) (Table.columns t)) (firstPass importId models i k).
Proof.
  revert i k. induction models as [|m models IH]; intros i k; constructor; [|apply IH].
  simpl. generalize (tableNameOf m) as tableName. intros tableName.
  generalize (DjangoModel.fields m) as fields. intros fields. revert k.
  induction fields as [|f fields IHf]; intros k; constructor; [|apply IHf].
  unfold keyIn. simpl.
  destruct (DjangoField.foreignKey f); [left; now split|].
  destruct (DjangoField.oneToOneField f); [left; now split | exact I].
Qed.

Variable stamp : N.
Variable createdAt updatedAt : Date.

Lemma convert_sound (models : list DjangoModel.t) :
  let schema := convertDjangoToSchema importId stamp createdAt updatedAt models in
  skeleton (Schema.tables schema) = skeleton (firstPass importId models 0 0)
  /\ Forall (refersIn (skeleton (Schema.tables schema))) (Schema.relationships schema)
  /\ Forall (fun t => Forall (keyIn (skeleton (Schema.tables schema))) (Table.columns t))
            (Schema.tables schema).
Proof.
  cbv zeta. unfold convertDjangoToSchema. cbv zeta. cbn [Schema.tables Schema.relationships].
  set (lookup1 := modelLookupOf models). set (lookup2 := tableToModelLookupOf models).
  destruct (thirdPass_sound lookup1 lookup2 (skeleton (firstPass importId models 0 0))
              (secondPass lookup1 lookup2 (mkStore (firstPass importId models 0 0) [])))
    as (Hsk & Hrel & Hkey).
  { apply secondPass_sound. unfold soundStore. simpl. split; [reflexivity|]. split; [constructor|].
    apply firstPass_keys. }
  rewrite Hsk. now repeat split.
Qed.

Lemma columnIds_skeleton (ts : list Table.t) :
  columnIds ts = flat_map (fun s => map fst (snd s)) (skeleton ts).
Proof.
  unfold columnIds, skeleton. induction ts as [|t ts IH]; [reflexivity|].
  simpl. rewrite IH, map_map. reflexivity.
Qed.

Lemma convert_ids (models : list DjangoModel.t) :
  columnIds (Schema.tables (convertDjangoToSchema importId stamp createdAt updatedAt models))
  = columnIds (firstPass importId models 0 0).
Proof.
  rewrite !columnIds_skeleton. now destruct (convert_sound models) as [-> _].
Qed.




(** The source builds the id of a column with a counter to keep the
    ids unique.  The ids of the columns of an imported schema are pairwise
    distinct, over all tables, and none is empty. *)
Theorem imported_column_ids_are_unique (content : string) :
  let schema := parseDjangoModels importId stamp createdAt updatedAt content in
  List.NoDup (columnIds (Schema.tables schema))
  /\ ~ In "" (columnIds (Schema.tables schema)).
Proof.
  cbv zeta. unfold parseDjangoModels. rewrite convert_ids. split.
  - apply (List.NoDup_map_inv afterLast). rewrite firstPass_counters.
    apply Finite.Injective_map_NoDup; [|apply List.seq_NoDup].
    intros a b [= H]. now apply ofNat_inj.
  - intros Hin. apply (in_map afterLast) in Hin.
    rewrite (firstPass_counters _ 0 0) in Hin.
    apply in_map_iff in Hin. destruct Hin as (i & Hi & _). discriminate.
Qed.






End Ids.

(** *** Lists by index *)

Lemma list_lookup_fmap_stdlib {A B : Type} (f : A -> B) (l : list A) (n : nat) :
  map f l !! n = f <$> l !! n.
Proof.
  revert n. induction l as [|a l IH]; intros [|n]; try reflexivity. apply IH.
Qed.

Lemma lookup_seq_stdlib (start len n m : nat) :
  List.seq start len !! n = Some m -> m = (start + n)%nat.
Proof.
  revert start n. induction len as [|len IH]; intros start [|n]; simpl; try discriminate.
  - intros [= <-]. lia.
  - intros H. apply IH in H. lia.
Qed.

Lemma number_ofNat_inj (a b : nat) : Num.ofNat a = Num.ofNat b -> a = b.
Proof. unfold Num.ofNat, Num.ofZ, inject_Z. intros [= H]. lia. Qed.

(** *** Types, keys and actions *)





Section Typed.
Variable importId stamp : N.
Variable createdAt updatedAt : Date.



(** *** The actions of keys and relationships *)






(** *** The places of the tables *)

Lemma firstPass_positions (models : list DjangoModel.t) (i k : nat) :
  map Table.position (firstPass importId models i k)
  = map (fun index => Position.mk (Num.ofNat (100 + (index mod 3) * 300))
                                  (Num.ofNat (100 + (index / 3) * 250)))
        (List.seq i (length models)).
Proof.
  revert i k. induction models as [|m models IH]; intros i k; [reflexivity|].
  cbn [firstPass map length List.seq]. now rewrite IH.
Qed.

Lemma alterColumn_positions (ti ci : nat) (f : Column.t -> Column.t) (ts : list Table.t) :
  map Table.position (alterColumn ti ci f ts) = map Table.position ts.
Proof. unfold alterColumn. apply DjangoFacts.alter_same. reflexivity. Qed.

Lemma resolveColumn_positions lookup1 lookup2 (st : store) (ti ci : nat) :
  map Table.position (tables (resolveColumn lookup1 lookup2 st ti ci))
  = map Table.position (tables st).
Proof.
  unfold resolveColumn.
  repeat case_match; try reflexivity; cbn [tables]; apply alterColumn_positions.
Qed.

Lemma convert_positions (models : list DjangoModel.t) :
  map Table.position
      (Schema.tables (convertDjangoToSchema importId stamp createdAt updatedAt models))
  = map (fun index => Position.mk (Num.ofNat (100 + (index mod 3) * 300))
                                  (Num.ofNat (100 + (index / 3) * 250)))
        (List.seq 0 (length models)).
Proof.
  unfold convertDjangoToSchema. cbv zeta. cbn [Schema.tables thirdPass tables].
  rewrite <- (firstPass_positions models 0 0). unfold secondPass.
  apply (DjangoFacts.fold_left_invariant
           (fun s => map Table.position (tables s)
                     = map Table.position (firstPass importId models 0 0)));
    [reflexivity|].
  intros s ti Hs.
  apply (DjangoFacts.fold_left_invariant
           (fun s => map Table.position (tables s)
                     = map Table.position (firstPass importId models 0 0)));
    [exact Hs|].
  intros s' ci Hs'. now rewrite resolveColumn_positions.
Qed.

(** The importer sets the tables out in rows of three, 300 apart and
    250 down, from (100, 100): the table at index [i] is at
    [(100 + (i mod 3) * 300, 100 + (i / 3) * 250)], and no two tables
    of an imported schema are at the same place. *)
Theorem imported_tables_are_set_apart (content : string) (i j : nat) (a b : Table.t) :
  let schema := parseDjangoModels importId stamp createdAt updatedAt content in
  Schema.tables schema !! i = Some a ->
  Schema.tables schema !! j = Some b ->
  Table.position a = Position.mk (Num.ofNat (100 + (i mod 3) * 300))
                                 (Num.ofNat (100 + (i / 3) * 250))
  /\ (i <> j -> Table.position a <> Table.position b).
Proof.
  cbv zeta. unfold parseDjangoModels. intros Ha Hb.
  pose proof (convert_positions (parseModels content)) as Hpos.
  set (ts := Schema.tables _) in *.
  assert (Hat : forall n t, ts !! n = Some t ->
                  Table.position t
                  = Position.mk (Num.ofNat (100 + (n mod 3) * 300))
                                (Num.ofNat (100 + (n / 3) * 250))).
  { intros n t Hn.
    apply (f_equal (fun l => l !! n)) in Hpos.
    rewrite !list_lookup_fmap_stdlib in Hpos. rewrite Hn in Hpos.
    destruct (List.seq 0 (length (parseModels content)) !! n) as [n'|] eqn:Hseq;
      cbn [fmap option_fmap option_map] in Hpos; [|discriminate].
    apply lookup_seq_stdlib in Hseq. subst n'. now injection Hpos. }
  split; [now apply Hat|].
  intros Hij Heq. rewrite (Hat _ _ Ha), (Hat _ _ Hb) in Heq.
  pose proof (f_equal Position.x Heq) as Hx. pose proof (f_equal Position.y Heq) as Hy.
  cbn [Position.x Position.y] in Hx, Hy. apply number_ofNat_inj in Hx, Hy.
  apply Hij.
  pose proof (Nat.div_mod_eq i 3). pose proof (Nat.div_mod_eq j 3).
  pose proof (Nat.mod_upper_bound i 3 ltac:(lia)).
  pose proof (Nat.mod_upper_bound j 3 ltac:(lia)). lia.
Qed.

End Typed.

(** The tables of [Post] and [User] of [postThenUser]. *)
Lemma post_and_user_are_set_apart :
  exists a b,
    Schema.tables (parseDjangoModels 0 0 InvalidDate InvalidDate Examples.postThenUser)
      !! 0%nat = Some a
    /\ Schema.tables (parseDjangoModels 0 0 InvalidDate InvalidDate Examples.postThenUser)
         !! 1%nat = Some b
    /\ Table.position a <> Table.position b.
Proof.
  eexists _, _. split; [vm_compute; reflexivity|]. split; [vm_compute; reflexivity|].
  refine (proj2 (imported_tables_are_set_apart 0 0 InvalidDate InvalidDate
                   Examples.postThenUser 0 1 _ _ _ _) _).
  - vm_compute. reflexivity.
  - vm_compute. reflexivity.
  - discriminate.
Defined.

End ImporterFacts.

(** ** Further properties of the exporters *)

Module ExportFacts.
Import SqlExporter MoreTerms.

(** Reading back what [escapeQuotes] wrote gives the value. *)
Lemma unescape_escape (value : string) :
  unescapeQuotes (escapeQuotes value) = Some value.
Proof.
  induction value as [|c r IH]; [reflexivity|].
  cbn [escapeQuotes]. destruct (Ascii.eqb c "'") eqn:Hc.
  - cbn [unescapeQuotes]. rewrite Hc, IH. reflexivity.
  - cbn [unescapeQuotes]. rewrite Hc, IH. reflexivity.
Qed.

(** A default value that is text (not empty, not [CURRENT_TIMESTAMP],
    [NULL], [true] or [false] in any case, and not a number) is written
    as a string literal between single quotes, in every dialect, and
    the literal reads back as the value: every quote of the value is
    doubled. *)
Theorem default_text_is_an_escaped_literal (isNaN_Number : string -> bool)
    (value : string) (dialect : SQLDialect) :
  value <> "" ->
  JS.toUpperCase value <> "CURRENT_TIMESTAMP" ->
  JS.toUpperCase value <> "NULL" ->
  isNaN_Number value = true \/ isBlank value = true ->
  JS.toLowerCase value <> "true" ->
  JS.toLowerCase value <> "false" ->
  exists body,
    formatDefaultValue isNaN_Number value dialect = "DEFAULT '" +++ body +++ "'"
    /\ unescapeQuotes body = Some value.
Proof.
  intros Hne Hts Hnull Hnum Htrue Hfalse.
  exists (escapeQuotes value). split; [|apply unescape_escape].
  unfold formatDefaultValue.
  apply truthy_nonempty in Hne. rewrite Hne. simpl negb. cbv iota.
  apply String.eqb_neq in Hts, Hnull, Htrue, Hfalse.
  rewrite Hts, Hnull, Htrue, Hfalse.
  destruct Hnum as [-> | ->]; [reflexivity | now rewrite andb_false_r].
Qed.

(** The default [it's] of a column of an exporter whose platform calls
    no text a number. *)
Lemma default_text_example :
  exists body,
    formatDefaultValue (fun _ => true) "it's" mysql = "DEFAULT '" +++ body +++ "'"
    /\ unescapeQuotes body = Some "it's".
Proof.
  apply (default_text_is_an_escaped_literal (fun _ => true) "it's" mysql);
    try discriminate.
  now left.
Defined.

End ExportFacts.

(** ** Further properties of the JSON importer *)

Module ImportFacts.
Import JsonExporter JsonTerms Examples.

Lemma mapM_thrown {A B : Type} (f : A -> outcome B) (l : list A) (a : A) (msg : string) :
  In a l -> f a = Thrown msg -> exists msg', mapM f l = Thrown msg'.
Proof.
  intros Hin Ha. induction l as [|b l IH]; [destruct Hin|].
  cbn [mapM]. destruct Hin as [->|Hin].
  - rewrite Ha. cbn. eauto.
  - destruct (f b) as [v|m]; cbn; [|eauto].
    destruct (IH Hin) as (m' & ->). cbn. eauto.
Qed.

Section Codec.
Variable newDate : value -> Date.
Variable nowCreated nowUpdated : Date.

(** A table whose [columns] is not an array cannot be imported. *)
Lemma importTable_thrown (t : value) :
  (forall cs, get t "columns" <> Returned (VArr cs)) ->
  exists msg, importTable t = Thrown msg.
Proof.
  intros Hcols. unfold importTable.
  destruct t as [| |b|n|s|d|items|props]; cbn; eauto.
  cbn in Hcols.
  destruct (lookup_entry "columns" props) as [[| |b|n|s|d|cs|ps]|]; cbn; eauto.
  now destruct (Hcols cs).
Qed.

(** The import is all or nothing: when one entry of the [tables] array
    is not an object with an array of columns, [importFromJSON] throws
    an error whose message starts with the prefix, and returns no
    schema, whatever the other tables are. *)
Theorem import_is_all_or_nothing (props : list (string * value)) (ts : list value)
    (t : value) :
  lookup_entry "tables" props = Some (VArr ts) ->
  In t ts ->
  (forall cs, get t "columns" <> Returned (VArr cs)) ->
  exists msg,
    importFromJSON newDate nowCreated nowUpdated (Document (VObj props))
    = Thrown ("Failed to import JSON: " +++ msg).
Proof.
  intros Htables Hin Hcols.
  destruct (importTable_thrown t Hcols) as (m & Hm).
  destruct (mapM_thrown importTable ts t m Hin Hm) as (m' & Hm').
  exists m'. unfold importFromJSON, importBody.
  cbn [JSON_parse bind get]. rewrite Htables. cbn [truthy isArray negb orb].
  cbn [arrayMap bind]. rewrite Hm'. reflexivity.
Qed.

(** What is missing beside the tables gets a default: a document with
    an array of tables and without [relationships], [metadata] and
    [version] is imported with no relationships, the name and the id
    [Imported Schema], the version 1, and the time of the import as
    [createdAt] and [updatedAt]. *)
Theorem import_fills_in_defaults (props : list (string * value)) (ts tv : list value) :
  lookup_entry "tables" props = Some (VArr ts) ->
  mapM importTable ts = Returned tv ->
  lookup_entry "relationships" props = None ->
  lookup_entry "metadata" props = None ->
  lookup_entry "version" props = None ->
  importFromJSON newDate nowCreated nowUpdated (Document (VObj props))
  = Returned
      (VObj [ ("id", VStr "Imported Schema"); ("name", VStr "Imported Schema");
              ("description", VUndefined);
              ("tables", VArr tv);
              ("relationships", VArr []);
              ("createdAt", VDate nowCreated);
              ("updatedAt", VDate nowUpdated);
              ("version", VNum (Num.Fin 1)) ]).
Proof.
  intros Htables Hts Hrels Hmeta Hversion.
  unfold importFromJSON, importBody, importDate.
  cbn [JSON_parse bind get]. rewrite Htables, Hrels, Hmeta, Hversion.
  cbn [truthy isArray negb orb arrayMap bind]. rewrite Hts.
  reflexivity.
Qed.

End Codec.

(** A document with two tables, the second without columns. *)
Lemma import_rejects_second_table :
  exists msg,
    importFromJSON dateOfValue InvalidDate InvalidDate
      (Document (VObj [ ("tables",
                         VArr [ VObj [ ("id", VStr "a"); ("columns", VArr []) ];
                                VObj [ ("id", VStr "b") ] ]) ]))
    = Thrown ("Failed to import JSON: " +++ msg).
Proof.
  apply (import_is_all_or_nothing dateOfValue InvalidDate InvalidDate
           [ ("tables",
              VArr [ VObj [ ("id", VStr "a"); ("columns", VArr []) ];
                     VObj [ ("id", VStr "b") ] ]) ]
           [ VObj [ ("id", VStr "a"); ("columns", VArr []) ]; VObj [ ("id", VStr "b") ] ]
           (VObj [ ("id", VStr "b") ]) eq_refl).
  - right. now left.
  - intros cs. discriminate.
Defined.

(** The document that holds an empty array of tables and nothing
    else. *)
Lemma import_of_bare_tables :
  importFromJSON dateOfValue InvalidDate InvalidDate
    (Document (VObj [ ("tables", VArr []) ]))
  = Returned
      (VObj [ ("id", VStr "Imported Schema"); ("name", VStr "Imported Schema");
              ("description", VUndefined);
              ("tables", VArr []);
              ("relationships", VArr []);
              ("createdAt", VDate InvalidDate);
              ("updatedAt", VDate InvalidDate);
              ("version", VNum (Num.Fin 1)) ]).
Proof.
  exact (import_fills_in_defaults dateOfValue InvalidDate InvalidDate
           [ ("tables", VArr []) ] [] []
           eq_refl eq_refl eq_refl eq_refl eq_refl).
Defined.


(** *** Through the manager *)

Section Manager.
Variable toISOString : Z -> string.
Variable newDate : value -> Date.
Hypothesis newDate_toISOString : forall t, newDate (VStr (toISOString t)) = TimeValue t.
Hypothesis toISOString_nonempty : forall t, toISOString t <> "".
Variable exportedAt : string.
Variable nowCreated nowUpdated : Date.
Variable exportToSQL : Schema.t -> SqlExporter.SQLDialect -> text.
Variable exportToPrisma exportToDjango exportToLaravel exportToTypeORM : Schema.t -> text.

Local Abbreviation export :=
  (ExportManager.export text (exportToJSON toISOString exportedAt) exportToSQL
     exportToPrisma exportToDjango exportToLaravel exportToTypeORM).
Local Abbreviation import :=
  (ImportManager.import text value (importFromJSON newDate nowCreated nowUpdated)).

(** What [ExportManager.export] writes for the format [json],
    [ExportManager.import] reads back: for a schema the codec can carry
    the import returns the content of the schema, with the tables at
    the origin when the options leave the positions out, and at their
    places when the options include them or say nothing.  Under every
    other format the import throws, whatever the content. *)
Theorem manager_reads_back_its_json (s : Schema.t) (options : ExportManager.ExportOptions) :
  representable s ->
  ExportManager.format options = "json" ->
  (exists written,
     export s options = Returned written
     /\ import written "json"
        = Returned
            (VObj [ ("id", VStr (Schema.name s)); ("name", VStr (Schema.name s));
                    ("description", optStr (Schema.description s));
                    ("tables",
                     VArr (map tableValue
                               (match ExportManager.includePositions options with
                                | Some false => map atOrigin (Schema.tables s)
                                | _ => Schema.tables s
                                end)));
                    ("relationships",
                     VArr (map relationshipValue (Schema.relationships s)));
                    ("createdAt", VDate (Schema.createdAt s));
                    ("updatedAt", VDate (Schema.updatedAt s));
                    ("version", VStr "1.0.0") ]))
  /\ (forall content format,
        format <> "json" ->
        import content format = Thrown ("Unsupported import format: " +++ format)).
Proof.
  intros Hs Hformat. split.
  - eexists. unfold ExportManager.export. cbv zeta. rewrite Hformat.
    cbn [String.eqb Ascii.eqb Bool.eqb andb]. split; [reflexivity|].
    unfold ImportManager.import. cbn [String.eqb Ascii.eqb Bool.eqb andb].
    destruct (ExportManager.includePositions options) as [[|]|].
    + exact (JsonFacts.import_export toISOString newDate newDate_toISOString
               toISOString_nonempty exportedAt nowCreated nowUpdated s true Hs).
    + exact (JsonFacts.import_export toISOString newDate newDate_toISOString
               toISOString_nonempty exportedAt nowCreated nowUpdated s false Hs).
    + exact (JsonFacts.import_export toISOString newDate newDate_toISOString
               toISOString_nonempty exportedAt nowCreated nowUpdated s true Hs).
  - intros content format Hne. unfold ImportManager.import.
    apply String.eqb_neq in Hne. now rewrite Hne.
Qed.

End Manager.

(** [shop] through the manager, without an option on positions. *)
Lemma shop_through_the_manager :
  exists written,
    ExportManager.export text (exportToJSON isoOfTime "later")
      (fun _ _ => Malformed "sql") (fun _ => Malformed "prisma")
      (fun _ => Malformed "django") (fun _ => Malformed "laravel")
      (fun _ => Malformed "typeorm")
      shop (ExportManager.mkOptions "json" None None None)
    = Returned written
    /\ ImportManager.import text value (importFromJSON dateOfValue InvalidDate InvalidDate)
         written "json"
       = Returned
           (VObj [ ("id", VStr "shop"); ("name", VStr "shop");
                   ("description", VUndefined);
                   ("tables", VArr (map tableValue (Schema.tables shop)));
                   ("relationships",
                    VArr (map relationshipValue (Schema.relationships shop)));
                   ("createdAt", VDate (TimeValue 0));
                   ("updatedAt", VDate (TimeValue 0));
                   ("version", VStr "1.0.0") ]).
Proof.
  exact (proj1 (manager_reads_back_its_json isoOfTime dateOfValue
                  JsonFacts.dateOfValue_isoOfTime JsonFacts.isoOfTime_nonempty
                  "later" InvalidDate InvalidDate
                  (fun _ _ => Malformed "sql") (fun _ => Malformed "prisma")
                  (fun _ => Malformed "django") (fun _ => Malformed "laravel")
                  (fun _ => Malformed "typeorm")
                  shop (ExportManager.mkOptions "json" None None None)
                  JsonFacts.shop_representable eq_refl)).
Defined.

End ImportFacts.

(** ** Further properties of the layout engine *)

Module LayoutEdges.
Import AutoLayout LayoutTerms Examples.

(** *** No tables *)

(** Without tables every algorithm returns the empty list, whatever
    the relationships and whatever the platform's functions return. *)
Theorem layout_of_no_tables (sqrt cos sin : number -> number)
    (atan2 : number -> number -> number) (random : nat -> number)
    (relationships : list Relationship.t) (algorithm : string) :
  layoutTables sqrt cos sin atan2 random [] relationships (choose algorithm) = Returns [].
Proof.
  assert (Hh : hierarchicalLayout [] relationships (withDefaults (choose algorithm))
               = Returns []).
  { unfold hierarchicalLayout. cbv zeta.
    now destruct (LayoutFacts.levelLoop_of_layout [] relationships) as (final & -> & _). }
  unfold layoutTables. cbv zeta.
  destruct (String.eqb _ "grid"); [reflexivity|].
  destruct (String.eqb _ "hierarchical"); [exact Hh|].
  destruct (String.eqb _ "force-directed"); [reflexivity|].
  destruct (String.eqb _ "circular"); reflexivity.
Qed.

(** *** The grid *)






Section Grid.
Variable sqrt cos sin : number -> number.
Variable atan2 : number -> number -> number.
Variable random : nat -> number.
Hypothesis math : soundMath sqrt cos sin atan2 random.


End Grid.


End LayoutEdges.

(** ** The first row of the hierarchical layout *)

Module LevelFacts.
Import AutoLayout LayoutTerms MoreTerms.

Section Levels.
Variable degrees : list (string * Z).

(** *** One turn *)

Lemma relax_low (st : levelling) (neighbor : string) :
  (forall id, low degrees id -> low (inDegree st) id) ->
  (forall id, In id (queue st) -> ~ low degrees id) ->
  (forall id, low degrees id -> low (inDegree (relax st neighbor)) id)
  /\ (forall id, In id (queue (relax st neighbor)) -> ~ low degrees id)
  /\ levels (relax st neighbor) = levels st
  /\ visited (relax st neighbor) = visited st.
Proof.
  intros Hlow Hqueue. unfold relax. cbv zeta.
  set (degree := (default 0%Z (mapGet neighbor (inDegree st)) - 1)%Z).
  assert (Hdegrees : forall id, low degrees id ->
                       low (mapSet neighbor degree (inDegree st)) id).
  { intros id Hid. unfold low. rewrite LayoutFacts.mapGet_mapSet.
    destruct (String.eqb_spec neighbor id) as [->|Hne]; [|now apply Hlow].
    simpl. specialize (Hlow id Hid). unfold low in Hlow. unfold degree. lia. }
  destruct ((degree =? 0)%Z && negb (setHas neighbor (visited st))) eqn:Hpush;
    cbn [inDegree queue levels visited]; repeat split; auto.
  intros id Hin. apply in_app_or in Hin. destruct Hin as [Hin|[<-|[]]]; [now apply Hqueue|].
  intros Hid. specialize (Hlow _ Hid). unfold low in Hlow.
  apply andb_true_iff in Hpush. destruct Hpush as [Hzero _].
  apply Z.eqb_eq in Hzero. unfold degree in Hzero. lia.
Qed.

Lemma visit_low (adjacency : list (string * list string)) (st : levelling)
    (nodeId : string) :
  (forall id, low degrees id -> low (inDegree st) id) ->
  (forall id, In id (queue st) -> ~ low degrees id) ->
  (forall id, low degrees id -> low (inDegree (visit adjacency st nodeId)) id)
  /\ (forall id, In id (queue (visit adjacency st nodeId)) -> ~ low degrees id)
  /\ levels (visit adjacency st nodeId) = levels st
  /\ incl (visited st) (visited (visit adjacency st nodeId))
  /\ In nodeId (visited (visit adjacency st nodeId)).
Proof.
  intros Hlow Hqueue. unfold visit.
  destruct (setHas nodeId (visited st)) eqn:Hhas.
  { apply LayoutFacts.setHas_In in Hhas. repeat split; auto. apply incl_refl. }
  set (st1 := mkLevelling (inDegree st) (setAdd nodeId (visited st)) (queue st) (levels st)).
  assert (Hadd : incl (visited st) (visited st1) /\ In nodeId (visited st1)).
  { unfold st1, setAdd. cbn [visited]. rewrite Hhas. split.
    - apply incl_appl, incl_refl.
    - apply in_or_app. right. now left. }
  destruct (mapGet nodeId adjacency) as [neighbors|]; [|now repeat split].
  assert (Hfold : forall ns s,
             (forall id, low degrees id -> low (inDegree s) id) ->
             (forall id, In id (queue s) -> ~ low degrees id) ->
             (forall id, low degrees id -> low (inDegree (fold_left relax ns s)) id)
             /\ (forall id, In id (queue (fold_left relax ns s)) -> ~ low degrees id)
             /\ levels (fold_left relax ns s) = levels s
             /\ visited (fold_left relax ns s) = visited s).
  { induction ns as [|n ns IH]; intros s Hl Hq; [now repeat split|].
    destruct (relax_low s n Hl Hq) as (Hl' & Hq' & Hlev & Hvis).
    destruct (IH (relax s n) Hl' Hq') as (Hl2 & Hq2 & Hlev2 & Hvis2).
    cbn [fold_left]. repeat split; auto; congruence. }
  destruct (Hfold neighbors st1 Hlow Hqueue) as (Hl & Hq & Hlev & Hvis).
  rewrite Hvis. now repeat split.
Qed.

Lemma visits_low (adjacency : list (string * list string)) (nodes : list string)
    (st : levelling) :
  (forall id, low degrees id -> low (inDegree st) id) ->
  (forall id, In id (queue st) -> ~ low degrees id) ->
  (forall id, low degrees id -> low (inDegree (fold_left (visit adjacency) nodes st)) id)
  /\ (forall id, In id (queue (fold_left (visit adjacency) nodes st)) -> ~ low degrees id)
  /\ levels (fold_left (visit adjacency) nodes st) = levels st
  /\ incl (visited st) (visited (fold_left (visit adjacency) nodes st))
  /\ incl nodes (visited (fold_left (visit adjacency) nodes st)).
Proof.
  revert st. induction nodes as [|n nodes IH]; intros st Hlow Hqueue.
  - repeat split; auto; [apply incl_refl | intros x []].
  - destruct (visit_low adjacency st n Hlow Hqueue) as (Hl & Hq & Hlev & Hvis & Hin).
    destruct (IH (visit adjacency st n) Hl Hq) as (Hl2 & Hq2 & Hlev2 & Hvis2 & Hin2).
    cbn [fold_left]. repeat split; auto.
    + congruence.
    + eapply incl_tran; eauto.
    + intros x [<-|Hx]; [now apply Hvis2 | now apply Hin2].
Qed.

(** The first turn, from the queue of the tables that are low. *)
Lemma levelStep_first (adjacency : list (string * list string)) (top visited0 : list string) :
  levelled degrees top
    (levelStep adjacency (mkLevelling degrees visited0 top [])).
Proof.
  unfold levelStep. cbn [queue inDegree visited levels app].
  destruct (visits_low adjacency top (mkLevelling degrees visited0 [] [ top ]))
    as (Hl & Hq & Hlev & _ & Hin).
  { cbn [inDegree]. auto. }
  { cbn [queue]. intros id []. }
  repeat split; auto.
  exists []. split; [exact Hlev | intros level id []].
Qed.

Lemma levelStep_levelled (adjacency : list (string * list string)) (top : list string)
    (st : levelling) :
  levelled degrees top st -> levelled degrees top (levelStep adjacency st).
Proof.
  intros (Hlow & Hqueue & (more & Hlevels & Hmore) & Htop).
  unfold levelStep. cbv zeta.
  destruct (visits_low adjacency (queue st)
              (mkLevelling (inDegree st) (visited st) [] (levels st ++ [ queue st ])))
    as (Hl & Hq & Hlev & Hvis & _).
  { cbn [inDegree]. auto. }
  { cbn [queue]. intros id []. }
  cbn [visited levels] in Hlev, Hvis.
  repeat split; auto.
  - exists (more ++ [ queue st ]). split; [now rewrite Hlev, Hlevels|].
    intros level id Hlevel Hid. apply in_app_or in Hlevel.
    destruct Hlevel as [Hlevel|[<-|[]]]; [now apply (Hmore level) | now apply Hqueue].
  - eapply incl_tran; eauto.
Qed.

Lemma levelLoop_levelled (adjacency : list (string * list string)) (top : list string)
    (fuel : nat) (st final : levelling) :
  levelled degrees top st -> levelLoop fuel adjacency st = Some final ->
  levelled degrees top final.
Proof.
  revert st. induction fuel as [|fuel IH]; intros st Hst; cbn [levelLoop].
  - destruct (queue st); [now intros [= <-] | discriminate].
  - destruct (queue st); [now intros [= <-]|].
    apply IH. now apply levelStep_levelled.
Qed.

Lemma levelLoop_from_top (adjacency : list (string * list string)) (top : list string)
    (fuel : nat) (final : levelling) :
  top <> [] ->
  levelLoop fuel adjacency (mkLevelling degrees [] top []) = Some final ->
  levelled degrees top final.
Proof.
  intros Htop. destruct fuel as [|fuel]; cbn [levelLoop queue];
    (destruct top as [|r top]; [congruence|]); [discriminate|].
  apply levelLoop_levelled, levelStep_first.
Qed.

End Levels.

(** *** The in-degrees at the start *)

Lemma fold_left_reaches {A B : Type} (P : A -> Prop) (f : A -> B -> A)
    (l : list B) (a : A) (b : B) :
  In b l -> (forall a, P (f a b)) -> (forall a b', P a -> P (f a b')) ->
  P (fold_left f l a).
Proof.
  intros Hin Hb Hkeep.
  assert (Hstay : forall l a, P a -> P (fold_left f l a)).
  { clear -Hkeep. induction l as [|x l IH]; intros a Ha; cbn [fold_left]; auto. }
  revert a. induction l as [|x l IH]; intros a; [destruct Hin|].
  cbn [fold_left]. destruct Hin as [->|Hin]; [apply Hstay, Hb | now apply IH].
Qed.

Lemma initialGraph_top (tables : list Table.t) (relationships : list Relationship.t)
    (t : Table.t) :
  In t tables -> topTable tables relationships t ->
  mapGet (Table.id t) (snd (initialGraph tables relationships)) = Some 0%Z.
Proof.
  intros Hin Htop. unfold initialGraph. cbv zeta.
  apply (LayoutFacts.fold_left_holds
           (fun p => (forall k ns, mapGet k (fst p) = Some ns -> In k (map Table.id tables))
                     /\ mapGet (Table.id t) (snd p) = Some 0%Z)).
  - split.
    + apply (LayoutFacts.fold_left_holds
               (fun p => forall k ns, mapGet k (fst p) = Some ns ->
                                      In k (map Table.id tables))).
      * intros k ns H. discriminate.
      * intros [adjacency degrees] b Hb Hp k ns. cbn [fst].
        rewrite LayoutFacts.mapGet_mapSet.
        destruct (String.eqb_spec (Table.id b) k) as [<-|_]; [|apply Hp].
        intros _. now apply in_map.
    + apply (fold_left_reaches
               (fun p => mapGet (Table.id t) (snd p) = Some 0%Z) _ _ _ t Hin).
      * intros [adjacency degrees]. cbn [snd].
        rewrite LayoutFacts.mapGet_mapSet. now rewrite String.eqb_refl.
      * intros [adjacency degrees] b. cbn [snd]. intros Hp.
        rewrite LayoutFacts.mapGet_mapSet. now destruct (String.eqb _ _).
  - intros [adjacency degrees] rel Hrel [Hkeys Hzero]. cbn [fst snd] in Hkeys, Hzero.
    destruct (mapGet (Relationship.sourceTableId rel) adjacency) as [targets|] eqn:Hg;
      [|now split].
    cbn [fst snd]. split.
    + intros k ns. rewrite LayoutFacts.mapGet_mapSet.
      destruct (String.eqb_spec (Relationship.sourceTableId rel) k) as [<-|_];
        [|apply Hkeys].
      intros _. exact (Hkeys _ _ Hg).
    + rewrite LayoutFacts.mapGet_mapSet.
      destruct (String.eqb_spec (Relationship.targetTableId rel) (Table.id t))
        as [Heq|_]; [|exact Hzero].
      exfalso. apply Hkeys in Hg. apply in_map_iff in Hg.
      destruct Hg as (s & Hs & Hins). exact (Htop rel Hrel Heq s Hins Hs).
Qed.

(** *** The level of an id *)

Lemma level_set (level : list string) (index : nat) (id : string)
    (m : list (string * nat)) :
  In id level ->
  mapGet id (fold_left (fun m nodeId => mapSet nodeId index m) level m) = Some index.
Proof.
  intros Hin.
  apply (fold_left_reaches (fun m => mapGet id m = Some index) _ _ _ id Hin).
  - intros a. rewrite LayoutFacts.mapGet_mapSet. now rewrite String.eqb_refl.
  - intros a b Ha. rewrite LayoutFacts.mapGet_mapSet. now destruct (String.eqb _ _).
Qed.

Lemma level_skipped (level : list string) (index : nat) (id : string)
    (m : list (string * nat)) :
  ~ In id level ->
  mapGet id (fold_left (fun m nodeId => mapSet nodeId index m) level m) = mapGet id m.
Proof.
  revert m. induction level as [|n level IH]; intros m Hnot; cbn [fold_left]; [reflexivity|].
  rewrite IH by (intros H; apply Hnot; now right).
  rewrite LayoutFacts.mapGet_mapSet.
  destruct (String.eqb_spec n id) as [->|_]; [|reflexivity].
  exfalso. apply Hnot. now left.
Qed.

Lemma levels_skipped (levels : list (list string)) (indices : list nat) (id : string)
    (m : list (string * nat)) :
  (forall level, In level levels -> ~ In id level) ->
  mapGet id (fold_left (fun m '(level, index) =>
                          fold_left (fun m nodeId => mapSet nodeId index m) level m)
                       (combine levels indices) m)
  = mapGet id m.
Proof.
  revert indices m. induction levels as [|level levels IH]; intros indices m Hnot;
    [reflexivity|].
  destruct indices as [|index indices]; [reflexivity|].
  cbn [combine fold_left]. rewrite IH by (intros l Hl; apply Hnot; now right).
  apply level_skipped, Hnot. now left.
Qed.

Lemma levelMapOf_top (top : list string) (others : list (list string)) (id : string) :
  In id top -> (forall level, In level others -> ~ In id level) ->
  mapGet id (levelMapOf (top :: others)) = Some O.
Proof.
  intros Hin Hnot. unfold levelMapOf. cbn [length List.seq combine fold_left].
  rewrite levels_skipped by exact Hnot. now apply level_set.
Qed.

(** *** The rows *)

Lemma placeInLevels_rows (options : LayoutOptions) (levels : list (list string))
    (levelMap : list (string * nat)) (ts : list Table.t) :
  (forall t, In t ts ->
     exists levelTables,
       nth_error levels (default O (mapGet (Table.id t) levelMap)) = Some levelTables) ->
  exists placed,
    placeInLevels options levels levelMap ts = Returns placed
    /\ Forall2 (fun t p =>
                  In t ts
                  /\ Position.y (Table.position p)
                     = Num.add (Position.y (centerOffset options))
                         (Num.mul (Num.ofNat (default O (mapGet (Table.id t) levelMap)))
                                  (Position.y (spacing options))))
               ts placed.
Proof.
  induction ts as [|t ts IH]; intros Hlev.
  - exists []. split; [reflexivity | constructor].
  - destruct (Hlev t (or_introl eq_refl)) as (levelTables & Hn).
    destruct IH as (placed & Hp & Hrows).
    { intros t' Ht'. apply Hlev. now right. }
    cbn [placeInLevels]. cbv zeta. rewrite Hn, Hp.
    eexists. split; [reflexivity|]. constructor.
    + split; [now left | reflexivity].
    + eapply Forall2_impl; [exact Hrows|].
      intros a b [Ha Hy]. split; [now right | exact Hy].
Qed.

(** In the hierarchical layout every table returns with a
    position, and a table at which no relationship ends that starts at
    a table of the schema is in the first row: its [y] is
    [centerOffset.y + 0 * spacing.y]. *)
Theorem tables_without_incoming_edge_are_in_the_first_row (tables : list Table.t)
    (relationships : list Relationship.t) (options : LayoutOptions) :
  exists placed,
    hierarchicalLayout tables relationships options = Returns placed
    /\ Forall2 (fun t p =>
                  topTable tables relationships t ->
                  Position.y (Table.position p)
                  = Num.add (Position.y (centerOffset options))
                      (Num.mul (Num.ofNat 0) (Position.y (spacing options))))
               tables placed.
Proof.
  unfold hierarchicalLayout. cbv zeta.
  destruct (LayoutFacts.levelLoop_of_layout tables relationships)
    as (final & Hfinal & Hl).
  rewrite Hfinal.
  destruct (placeInLevels_rows options (withRemaining tables final)
              (levelMapOf (withRemaining tables final)) tables)
    as (placed & Hplaced & Hrows).
  { intros t Ht. now apply LayoutFacts.withRemaining_level. }
  exists placed. split; [exact Hplaced|].
  eapply Forall2_impl; [exact Hrows|].
  intros t p [Hin Hy] Htop. rewrite Hy. do 3 f_equal.
  set (degrees := snd (initialGraph tables relationships)) in *.
  pose proof (initialGraph_top tables relationships t Hin Htop) as Hzero.
  fold degrees in Hzero.
  assert (Hroot : In (Table.id t) (rootsOf tables degrees)).
  { unfold rootsOf. apply in_map. apply List.filter_In. split; [exact Hin|].
    now rewrite Hzero. }
  assert (Hlow : low degrees (Table.id t)).
  { unfold low. rewrite Hzero. simpl. lia. }
  apply levelLoop_from_top in Hfinal; [|intros Hnil; rewrite Hnil in Hroot; destruct Hroot].
  destruct Hfinal as (_ & _ & (more & Hlevels & Hmore) & Hvisited).
  assert (Hmap : mapGet (Table.id t) (levelMapOf (withRemaining tables final)) = Some O).
  { unfold withRemaining. cbv zeta. rewrite Hlevels.
    destruct (0 <? length _)%nat.
    - rewrite <- app_comm_cons. apply levelMapOf_top; [exact Hroot|].
      intros level Hlevel Hid. apply in_app_or in Hlevel.
      destruct Hlevel as [Hlevel|[<-|[]]]; [exact (Hmore level _ Hlevel Hid Hlow)|].
      apply in_map_iff in Hid. destruct Hid as (r & Hr & Hrem).
      apply List.filter_In in Hrem. destruct Hrem as [_ Hrem].
      apply negb_true_iff, LayoutFacts.setHas_notIn in Hrem.
      apply Hrem. rewrite Hr. now apply Hvisited.
    - apply levelMapOf_top; [exact Hroot|].
      intros level Hlevel Hid. exact (Hmore level _ Hlevel Hid Hlow). }
  now rewrite Hmap.
Qed.

End LevelFacts.

(** ** The case conversions of names *)

Module NameFacts.
Import RegExp DjangoImporter MoreTerms.

(** *** A global replacement of single characters *)

Section OneCharacter.
Variable p : ascii -> bool.

Local Abbreviation one := (Group 1 (Chr p)).

Lemma matchAt_hit (at_ : nat) (c : ascii) (s : string) :
  p c = true ->
  matchAt one at_ (String c s)
  = Some (mkFound at_ (String c "") (S at_) s [ (1%nat, String c "") ]).
Proof.
  intros Hc. unfold matchAt. cbn [run rest pos caps]. rewrite Hc.
  cbn [pos rest caps]. replace (S at_ - at_)%nat with 1%nat by lia. reflexivity.
Qed.

Lemma matchAt_miss (at_ : nat) (c : ascii) (s : string) :
  p c = false -> matchAt one at_ (String c s) = None.
Proof. intros Hc. unfold matchAt. cbn [run rest pos caps]. now rewrite Hc. Qed.

Lemma searchFrom_bounds (s : string) (at_ : nat) (m : found) :
  searchFrom one at_ s = Some m -> (at_ <= index m)%nat /\ stop m = S (index m).
Proof.
  revert at_. induction s as [|c s IH]; intros at_; cbn [searchFrom].
  - unfold matchAt. cbn. discriminate.
  - destruct (p c) eqn:Hc.
    + rewrite (matchAt_hit _ _ _ Hc). intros [= <-]. cbn. lia.
    + rewrite (matchAt_miss _ _ _ Hc). intros H. apply IH in H. lia.
Qed.

Variable g : string -> string.

Local Abbreviation f := (fun m : found => g (default "" (group 1 m))).

(** What the replacement makes of a string, character by character. *)
Lemma rebuild_characters (s : string) (fuel at_ : nat) :
  (String.length s < fuel)%nat ->
  rebuild at_ s (allFrom fuel one at_ s) f = replacedChars p g s.
Proof.
  revert fuel at_. induction s as [|c s IH]; intros fuel at_ Hfuel.
  - destruct fuel; reflexivity.
  - destruct fuel as [|fuel]; [cbn in Hfuel; lia|].
    cbn [String.length] in Hfuel.
    cbn [replacedChars]. destruct (p c) eqn:Hc.
    + cbn [allFrom searchFrom]. rewrite (matchAt_hit _ _ _ Hc).
      cbn [index stop].
      replace (at_ <? S at_)%nat with true by (symmetry; apply Nat.ltb_lt; lia).
      replace (S at_ - at_)%nat with 1%nat by lia.
      cbn [skip rebuild index stop].
      replace (at_ - at_)%nat with 0%nat by lia.
      replace (S at_ - at_)%nat with 1%nat by lia.
      cbn [take skip]. rewrite IH by lia. reflexivity.
    + specialize (IH (S fuel) (S at_) ltac:(lia)).
      cbn [allFrom] in *. cbn [searchFrom]. rewrite (matchAt_miss _ _ _ Hc).
      destruct (searchFrom one (S at_) s) as [m|] eqn:Hm.
      * destruct (searchFrom_bounds _ _ _ Hm) as [Hge Hstop].
        rewrite Hstop in *.
        replace (index m <? S (index m))%nat with true in *
          by (symmetry; apply Nat.ltb_lt; lia).
        replace (S (index m) - at_)%nat with (S (S (index m) - S at_)) by lia.
        cbn [skip]. cbn [rebuild] in *. rewrite Hstop in *.
        replace (index m - at_)%nat with (S (index m - S at_)) by lia.
        replace (S (index m) - at_)%nat with (S (S (index m) - S at_)) by lia.
        cbn [take skip]. cbn [JS.cat String.append]. f_equal. exact IH.
      * cbn [rebuild] in *. now rewrite <- IH.
Qed.

Lemma replaceAll_characters (s : string) :
  replaceAll one f s = replacedChars p g s.
Proof. unfold replaceAll, matchAll. apply rebuild_characters. lia. Qed.

End OneCharacter.

(** *** The underscore at the start *)

Lemma searchFrom_after_start (r : regex) (s : string) (at_ : nat) :
  searchFrom (Seq Bol r) (S at_) s = None.
Proof.
  revert at_. induction s as [|c s IH]; intros at_; cbn [searchFrom].
  - reflexivity.
  - unfold matchAt at 1. cbn [run pos]. cbn [Nat.eqb]. apply IH.
Qed.

(** [str.replace(/^_/, '')] takes an underscore off the start. *)
Lemma replaceFirst_underscore (s : string) :
  replaceFirst (Seq Bol (Chr (only "_"))) (fun _ => "") s
  = match s with
    | String c r => if Ascii.eqb "_" c then r else s
    | EmptyString => s
    end.
Proof.
  unfold replaceFirst, exec. destruct s as [|c r]; [reflexivity|].
  cbn [searchFrom]. unfold matchAt at 1. cbn [run pos rest caps Nat.eqb]. unfold only.
  destruct (Ascii.eqb "_" c); [reflexivity|].
  now rewrite searchFrom_after_start.
Qed.

Lemma snakeCase_spelled (str : string) :
  snakeCase str
  = JS.toLowerCase match underscored str with
                   | String c r => if Ascii.eqb "_" c then r else underscored str
                   | EmptyString => underscored str
                   end.
Proof.
  unfold snakeCase.
  rewrite (replaceAll_characters JS.isUpper (fun c => "_" +++ c)).
  now rewrite replaceFirst_underscore.
Qed.

(** *** Characters *)

Local Abbreviation separator :=
  (fun c : ascii => Ascii.eqb c "_"%char || space c || Ascii.eqb c "-"%char).

Lemma upper_lower (c : ascii) : JS.isUpper c = true -> JS.upperChar (JS.lowerChar c) = c.
Proof. destruct c as [[] [] [] [] [] [] [] []]; vm_compute; congruence. Qed.

Lemma lower_fixed (c : ascii) : JS.isUpper c = false -> JS.lowerChar c = c.
Proof. unfold JS.lowerChar. now intros ->. Qed.

Lemma lower_twice (c : ascii) : JS.lowerChar (JS.lowerChar c) = JS.lowerChar c.
Proof. destruct c as [[] [] [] [] [] [] [] []]; vm_compute; congruence. Qed.

Lemma lower_apart (c : ascii) : alphanumeric c = true -> separator (JS.lowerChar c) = false.
Proof. destruct c as [[] [] [] [] [] [] [] []]; vm_compute; congruence. Qed.

Lemma upper_alphanumeric (c : ascii) : JS.isUpper c = true -> alphanumeric c = true.
Proof. unfold alphanumeric. now intros ->. Qed.

Lemma cat_empty (s : string) : s +++ "" = s.
Proof. induction s as [|c s IH]; [reflexivity|]. cbn. f_equal. exact IH. Qed.

Lemma join_cons (piece : string) (pieces : list string) :
  JS.join "" (piece :: pieces) = piece +++ JS.join "" pieces.
Proof.
  destruct pieces as [|q pieces]; cbn [JS.join]; [now rewrite cat_empty | reflexivity].
Qed.

Lemma capitalize_cons (c : ascii) (w : string) :
  capitalize (String c w) = String (JS.upperChar c) (JS.toLowerCase w).
Proof. reflexivity. Qed.

(** *** From the snake case back to the name *)

(** The pieces of the lower-cased, underscored rest of a name: the
    first one continues the word at hand, and each of the others is a
    word that starts with a letter that was in upper case. *)
Lemma pieces_back (rest : string) :
  allChars alphanumeric rest = true ->
  exists first others,
    Str.splitOn separator (JS.toLowerCase (underscored rest)) = first :: others
    /\ JS.toLowerCase first +++ JS.join "" (map capitalize others) = rest.
Proof.
  induction rest as [|c r IH]; intros Hall.
  - exists "", []. now split.
  - cbn [allChars] in Hall. apply andb_true_iff in Hall. destruct Hall as [Hc Hr].
    destruct (IH Hr) as (first & others & Hsplit & Hback).
    unfold underscored in *. cbn [replacedChars].
    destruct (JS.isUpper c) eqn:Hup.
    + exists "", (String (JS.lowerChar c) first :: others). split.
      * change (("_" +++ String c "") +++ replacedChars JS.isUpper (fun c => "_" +++ c) r)
          with (String "_" (String c (replacedChars JS.isUpper (fun c => "_" +++ c) r))).
        change (JS.toLowerCase (String "_" (String c ?x)))
          with (String "_" (String (JS.lowerChar c) (JS.toLowerCase x))).
        cbn [JS.toLowerCase JS.mapChars].
        change (JS.lowerChar "_") with "_"%char.
        cbn [Str.splitOn]. change (separator "_"%char) with true. cbv iota.
        rewrite (lower_apart _ Hc).
        change (JS.mapChars JS.lowerChar) with JS.toLowerCase. now rewrite Hsplit.
      * cbn [map]. rewrite join_cons, capitalize_cons, (upper_lower _ Hup).
        cbn. f_equal. exact Hback.
    + exists (String c first), others. split.
      * cbn [JS.toLowerCase JS.mapChars]. rewrite (lower_fixed _ Hup).
        pose proof (lower_apart _ Hc) as Hsep. rewrite (lower_fixed _ Hup) in Hsep.
        cbn [Str.splitOn]. rewrite Hsep.
        change (JS.mapChars JS.lowerChar) with JS.toLowerCase. now rewrite Hsplit.
      * cbn [JS.toLowerCase JS.mapChars]. rewrite (lower_fixed _ Hup).
        cbn. f_equal. exact Hback.
Qed.

(** The importer finds the model of a table under
    [pascalCase(table.name)], and names the table of a model
    [snakeCase(model.name)].  For a class name made of letters and
    digits that starts with an upper-case letter, the one undoes the
    other: [pascalCase(snakeCase(name)) = name]. *)
Theorem pascalCase_undoes_snakeCase (name : string) :
  classStyle name = true -> pascalCase (snakeCase name) = name.
Proof.
  destruct name as [|c rest]; [discriminate|]. cbn [classStyle].
  intros H. apply andb_true_iff in H. destruct H as [Hup Hrest].
  destruct (pieces_back rest Hrest) as (first & others & Hsplit & Hback).
  rewrite snakeCase_spelled. unfold underscored in *. cbn [replacedChars]. rewrite Hup.
  change (("_" +++ String c "") +++ replacedChars JS.isUpper (fun c => "_" +++ c) rest)
    with (String "_" (String c (replacedChars JS.isUpper (fun c => "_" +++ c) rest))).
  cbn [Ascii.eqb Bool.eqb]. cbv iota.
  cbn [JS.toLowerCase JS.mapChars]. unfold pascalCase. cbn [Str.splitOn].
  rewrite (lower_apart _ (upper_alphanumeric _ Hup)).
  change (JS.mapChars JS.lowerChar) with JS.toLowerCase. rewrite Hsplit.
  cbn [map]. rewrite join_cons, capitalize_cons, (upper_lower _ Hup).
  cbn. f_equal. exact Hback.
Qed.

(** The class [HTTPRequest2] goes through the table name
    [h_t_t_p_request2]. *)
Lemma class_name_round_trip :
  snakeCase "HTTPRequest2" = "h_t_t_p_request2"
  /\ pascalCase (snakeCase "HTTPRequest2") = "HTTPRequest2".
Proof.
  split; [reflexivity|].
  apply (pascalCase_undoes_snakeCase "HTTPRequest2"). reflexivity.
Defined.

End NameFacts.

(** ** The Prisma exporter *)

Module PrismaFacts.
Import PrismaSchema MoreTerms.

Section Exporter.
Variable isNaN_Number : string -> bool.

(** *** The reverse relations *)

Lemma reverseLines_outcome (tables : list Table.t) (table : Table.t)
    (r : Relationship.t) :
  Relationship.targetTableId r = Table.id table ->
  match reverseLines tables table r with
  | Returned _ => writtenBack tables table r = true -> named r = true
  | Thrown message =>
      message = "targetModelName is not defined"
      /\ writtenBack tables table r = true /\ named r = false
  end.
Proof.
  intros Hid. unfold reverseLines, writtenBack, named. rewrite Hid, String.eqb_refl.
  cbn [andb].
  destruct (find _ tables) as [sourceTable|]; [|discriminate].
  destruct (find _ (Table.columns sourceTable)) as [sourceColumn|]; [|discriminate].
  destruct (find _ (Table.columns table)) as [targetColumn|]; [|discriminate].
  destruct (negb _); [|discriminate].
  destruct (Relationship.name r) as [name|]; cbn [JS.truthyOpt]; [|auto].
  destruct (JS.truthy name); auto.
Qed.

Lemma reverseAll_outcome (tables : list Table.t) (table : Table.t)
    (incoming : list Relationship.t) :
  Forall (fun r => Relationship.targetTableId r = Table.id table) incoming ->
  match reverseAll tables table incoming with
  | Returned _ =>
      forall r, In r incoming -> writtenBack tables table r = true -> named r = true
  | Thrown message =>
      message = "targetModelName is not defined"
      /\ exists r, In r incoming /\ writtenBack tables table r = true /\ named r = false
  end.
Proof.
  induction 1 as [|r incoming Hr _ IH]; cbn [reverseAll]; [intros r []|].
  pose proof (reverseLines_outcome tables table r Hr) as Hone.
  destruct (reverseLines tables table r) as [lines|message].
  - destruct (reverseAll tables table incoming) as [others|message].
    + intros r' [<-|Hin]; auto.
    + destruct IH as (-> & r' & Hin & Hw & Hn). split; [reflexivity|].
      exists r'. split; [now right | now split].
  - destruct Hone as (-> & Hw & Hn). split; [reflexivity|].
    exists r. split; [now left | now split].
Qed.

Lemma writtenBack_incoming (tables : list Table.t) (table : Table.t) (r : Relationship.t) :
  writtenBack tables table r = true ->
  String.eqb (Relationship.targetTableId r) (Table.id table) = true.
Proof. unfold writtenBack. now intros [H _]%andb_true_iff. Qed.

Lemma modelLines_outcome (schema : Schema.t) (table : Table.t) :
  match modelLines isNaN_Number schema table with
  | Returned _ =>
      forall r, In r (Schema.relationships schema) ->
                writtenBack (Schema.tables schema) table r = true -> named r = true
  | Thrown message =>
      message = "targetModelName is not defined"
      /\ exists r, In r (Schema.relationships schema)
                   /\ writtenBack (Schema.tables schema) table r = true /\ named r = false
  end.
Proof.
  unfold modelLines. cbv zeta.
  set (incoming := List.filter _ (Schema.relationships schema)).
  assert (Hincoming : Forall (fun r => Relationship.targetTableId r = Table.id table)
                             incoming).
  { apply List.Forall_forall. intros r Hr. apply List.filter_In in Hr.
    now apply String.eqb_eq. }
  pose proof (reverseAll_outcome (Schema.tables schema) table incoming Hincoming) as Hall.
  destruct (reverseAll (Schema.tables schema) table incoming) as [reverse|message].
  - intros r Hin Hw. apply Hall; [|exact Hw].
    apply List.filter_In. split; [exact Hin | now apply (writtenBack_incoming _ _ _ Hw)].
  - destruct Hall as (-> & r & Hin & Hw & Hn). split; [reflexivity|].
    exists r. apply List.filter_In in Hin. now destruct Hin.
Qed.

Lemma modelsOf_outcome (schema : Schema.t) (tables : list Table.t) :
  match modelsOf isNaN_Number schema tables with
  | Returned _ =>
      forall t r, In t tables -> In r (Schema.relationships schema) ->
                  writtenBack (Schema.tables schema) t r = true -> named r = true
  | Thrown message =>
      message = "targetModelName is not defined"
      /\ exists t r, In t tables /\ In r (Schema.relationships schema)
                     /\ writtenBack (Schema.tables schema) t r = true /\ named r = false
  end.
Proof.
  induction tables as [|table tables IH]; cbn [modelsOf]; [intros t r []|].
  pose proof (modelLines_outcome schema table) as Hone.
  destruct (modelLines isNaN_Number schema table) as [lines|message].
  - destruct (modelsOf isNaN_Number schema tables) as [others|message].
    + intros t r [<-|Hin]; eauto.
    + destruct IH as (-> & t & r & Hin & H). split; [reflexivity|].
      exists t, r. split; [now right | exact H].
  - destruct Hone as (-> & r & H). split; [reflexivity|].
    exists table, r. split; [now left | exact H].
Qed.

(** [exportToPrisma] throws exactly when it comes to write the reverse
    relation of a relationship without a name: the name of the relation
    would then be made of [targetModelName], which is not declared at
    that place, and reading it throws a [ReferenceError].  When the
    export returns, every relationship written back has a name; when it
    throws, the message is that of the [ReferenceError] and some
    relationship that would be written back has none. *)
Theorem prisma_export_needs_named_relationships (schema : Schema.t) :
  match exportToPrisma isNaN_Number schema with
  | Returned _ =>
      forall t r, In t (Schema.tables schema) -> In r (Schema.relationships schema) ->
                  writtenBack (Schema.tables schema) t r = true -> named r = true
  | Thrown message =>
      message = "targetModelName is not defined"
      /\ exists t r, In t (Schema.tables schema) /\ In r (Schema.relationships schema)
                     /\ writtenBack (Schema.tables schema) t r = true /\ named r = false
  end.
Proof.
  unfold exportToPrisma.
  pose proof (modelsOf_outcome schema (Schema.tables schema)) as H.
  now destruct (modelsOf isNaN_Number schema (Schema.tables schema)).
Qed.

(** *** The primary key *)



End Exporter.

End PrismaFacts.
